(** * Pivot-table composition of excelize (pivotTable.go)

    A shallow embedding of the pivot-table pipeline: range normalisation,
    header-row field order, per-field axis classification, the cache and
    table definitions, and the allocation of the three identifiers.

    Go [int] values are integers of [Z]; Go strings are byte strings, here
    [string] (a list of 8-bit [ascii]); a nil pointer is [None]. *)

From Stdlib Require Import ZArith String Ascii List Bool Lia DecimalString.
From stdpp Require Import base option list gmap strings.

Open Scope string_scope.
Open Scope list_scope.
Open Scope Z_scope.

(** ** Errors and results *)

(** Go's [error] values that the pipeline produces.  [ErrParameterRequired]
    and [ErrParameterInvalid] are the package's sentinel errors; [fmt.Errorf]
    results keep their format and arguments apart. *)
Inductive error : Type :=
  | ErrParameterRequired
  | ErrParameterInvalid
  | ErrRangeParsing (parameter : string) (cause : error)
  | ErrSheetNotExist (sheet : string)
  | ErrCollaborator (msg : string).

Inductive result (A : Type) : Type :=
  | Ok (a : A)
  | Err (e : error).
Arguments Ok {A} a.
Arguments Err {A} e.

(** ** Go string primitives *)

Module strings.

(** [strings.Contains(s, substr)]. *)
Fixpoint Contains (s substr : string) : bool :=
  String.prefix substr s
  || match s with
     | EmptyString => false
     | String _ s' => Contains s' substr
     end.

(** [strings.Split(s, sep)] for a separator of one byte. *)
Fixpoint Split (s : string) (sep : ascii) : list string :=
  match s with
  | EmptyString => [EmptyString]
  | String c s' =>
      if Ascii.eqb c sep then EmptyString :: Split s' sep
      else match Split s' sep with
           | h :: t => String c h :: t
           | [] => [String c EmptyString]
           end
  end.

(** [strings.ReplaceAll(s, old, "")] for [old] of one byte. *)
Fixpoint RemoveAll (s : string) (old : ascii) : string :=
  match s with
  | EmptyString => EmptyString
  | String c s' =>
      if Ascii.eqb c old then RemoveAll s' old else String c (RemoveAll s' old)
  end.

(** [strings.ReplaceAll(s, old, new)] for a non-empty [old]: occurrences
    are replaced from left to right without overlap; [skip] counts the
    bytes of a replaced occurrence still to pass over. *)
Fixpoint ReplaceAll_skip (skip : nat) (s old new : string) : string :=
  match s with
  | EmptyString => EmptyString
  | String c s' =>
      match skip with
      | S k => ReplaceAll_skip k s' old new
      | O =>
          if String.prefix old s
          then new +:+ ReplaceAll_skip (Nat.pred (String.length old)) s' old new
          else String c (ReplaceAll_skip O s' old new)
      end
  end.

Definition ReplaceAll (s old new : string) : string :=
  ReplaceAll_skip O s old new.

(** [strings.TrimPrefix(s, prefix)]. *)
Definition TrimPrefix (s prefix : string) : string :=
  if String.prefix prefix s
  then String.substring (String.length prefix)
         (String.length s - String.length prefix) s
  else s.

(** Number of occurrences of a byte. *)
Fixpoint Count (s : string) (c : ascii) : nat :=
  match s with
  | EmptyString => O
  | String c' s' => ((if Ascii.eqb c' c then 1 else 0) + Count s' c)%nat
  end.

Definition isASCII (c : ascii) : bool := (N_of_ascii c <? 128)%N.

Definition allASCII (s : string) : bool :=
  forallb isASCII (list_ascii_of_string s).

(** The test of [strings.EqualFold] on two ASCII bytes: equal, or the
    smaller one an upper-case letter and the larger one 32 above it. *)
Definition foldEqASCII (sr tr : ascii) : bool :=
  let a := N_of_ascii sr in
  let b := N_of_ascii tr in
  if (a =? b)%N then true
  else
    let lo := N.min a b in
    let hi := N.max a b in
    ((65 <=? lo) && (lo <=? 90) && (hi =? lo + 32))%N.

Definition isLetter (l u sr : ascii) : bool := Ascii.eqb sr l || Ascii.eqb sr u.

(** [strings.EqualFold(s, t)] for [s] made of ASCII bytes, as every
    member of the aggregation enumeration is.  Under simple Unicode
    folding an ASCII letter is related to its other case, and besides
    [s]/[S] to U+017F (bytes C5 BF) and [k]/[K] to U+212A (bytes E2 84 AA);
    no other rune of [t], and no invalid UTF-8, folds to an ASCII byte. *)
Fixpoint EqualFold (s t : string) : bool :=
  match s with
  | EmptyString => match t with EmptyString => true | _ => false end
  | String sr s' =>
      match t with
      | EmptyString => false
      | String t0 t1 =>
          if isASCII t0 then foldEqASCII sr t0 && EqualFold s' t1
          else if Ascii.eqb t0 "197" then
            match t1 with
            | String t1h t2 =>
                Ascii.eqb t1h "191" && isLetter "s" "S" sr && EqualFold s' t2
            | EmptyString => false
            end
          else if Ascii.eqb t0 "226" then
            match t1 with
            | String t1h (String t2h t3) =>
                Ascii.eqb t1h "132" && Ascii.eqb t2h "170"
                && isLetter "k" "K" sr && EqualFold s' t3
            | _ => false
            end
          else false
      end
  end.

End strings.

Module strconv.

(** [strconv.Itoa], also the [%d] verb of [fmt.Sprintf]. *)
Definition Itoa (i : Z) : string := NilZero.string_of_int (Z.to_int i).

End strconv.

(** ** Caller-supplied options *)

Record PivotTableField : Type := {
  Compact : bool;
  Data : string;
  Name : string;
  Outline : bool;
  Subtotal : string;
  DefaultSubtotal : bool
}.

Record PivotTableOption : Type := {
  pivotTableSheetName : string;
  DataRange : string;
  PivotTableRange : string;
  Rows : list PivotTableField;
  Columns : list PivotTableField;
  Data_ : list PivotTableField;
  Filter : list PivotTableField;
  RowGrandTotals : bool;
  ColGrandTotals : bool;
  ShowDrill : bool;
  UseAutoFormatting : bool;
  PageOverThenDown : bool;
  MergeItem : bool;
  CompactData : bool;
  ShowError : bool;
  ShowRowHeaders : bool;
  ShowColHeaders : bool;
  ShowRowStripes : bool;
  ShowColStripes : bool;
  ShowLastColumn : bool;
  PivotTableStyleName : string
}.

(** The zero value of [PivotTableField]. *)
Definition zeroField : PivotTableField :=
  {| Compact := false; Data := ""; Name := ""; Outline := false;
     Subtotal := ""; DefaultSubtotal := false |}.

(** Modelled from the spec: the constant [MaxFieldLength] is declared outside
    this file; the comment on [PivotTableField] gives it as 255 characters. *)
Definition MaxFieldLength : nat := 255.

(** ** Field helpers *)

(** [inPivotTableField]: index of the first entry whose [Data] is [x],
    or -1. *)
Fixpoint inPivotTableField_from (idx : Z) (a : list PivotTableField) (x : string) : Z :=
  match a with
  | [] => -1
  | n :: a' =>
      if String.eqb x (Data n) then idx else inPivotTableField_from (idx + 1) a' x
  end.

Definition inPivotTableField (a : list PivotTableField) (x : string) : Z :=
  inPivotTableField_from 0 a x.

(** The closure [inEnums] of [getPivotTableFieldsSubtotal]. *)
Fixpoint inEnums (enums : list string) (val : string) : string :=
  match enums with
  | [] => "sum"
  | enum :: rest =>
      if strings.EqualFold enum val then enum else inEnums rest val
  end.

Definition enums : list string :=
  ["average"; "count"; "countNums"; "max"; "min"; "product"; "stdDev";
   "stdDevp"; "sum"; "var"; "varp"].

(** A [for idx, fld := range fields { field[idx] = g fld }] loop over a
    slice made with [make([]string, len(fields))]. *)
Fixpoint fillFrom (g : PivotTableField -> string) (idx : nat)
    (fields : list PivotTableField) (field : list string) : list string :=
  match fields with
  | [] => field
  | fld :: rest => fillFrom g (S idx) rest (<[idx := g fld]> field)
  end.

Definition getPivotTableFieldsSubtotal (fields : list PivotTableField) : list string :=
  let field := replicate (length fields) "" in
  fillFrom (fun fld => inEnums enums (Subtotal fld)) O fields field.

Definition getPivotTableFieldsName (fields : list PivotTableField) : list string :=
  let field := replicate (length fields) "" in
  fillFrom (fun fld =>
              if (MaxFieldLength <? String.length (Name fld))%nat
              then String.substring 0 MaxFieldLength (Name fld)
              else Name fld) O fields field.

(** [getPivotTableFieldName]: the prepared name at the index of the first
    entry whose [Data] is [name], or the empty string. *)
Fixpoint getPivotTableFieldName_from (fieldsName : list string) (idx : nat)
    (fields : list PivotTableField) (name : string) : string :=
  match fields with
  | [] => ""
  | field :: rest =>
      if String.eqb (Data field) name then default "" (fieldsName !! idx)
      else getPivotTableFieldName_from fieldsName (S idx) rest name
  end.

Definition getPivotTableFieldName (name : string) (fields : list PivotTableField) : string :=
  let fieldsName := getPivotTableFieldsName fields in
  getPivotTableFieldName_from fieldsName O fields name.

(** [getPivotTableFieldOptions]: the first entry whose [Data] is [name] and
    [true], or the zero value and [false]. *)
Fixpoint getPivotTableFieldOptions (name : string) (fields : list PivotTableField)
    : PivotTableField * bool :=
  match fields with
  | [] => (zeroField, false)
  | field :: rest =>
      if String.eqb (Data field) name then (field, true)
      else getPivotTableFieldOptions name rest
  end.

(** ** Serialised structures

    The XML structures are declared outside this file; each record lists the
    members the pipeline sets, under the structure's name as a prefix where
    two structures share a member name.  A pointer member is an [option]. *)

Record xlsxString : Type := { V : string }.

Record xlsxSharedItems : Type := {
  SharedItems_Count : Z;
  SharedItems_S : option xlsxString
}.

Record xlsxCacheField : Type := {
  CacheField_Name : string;
  CacheField_SharedItems : option xlsxSharedItems
}.

Record xlsxCacheFields : Type := {
  CacheFields_Count : Z;
  CacheFields_CacheField : list xlsxCacheField
}.

Record xlsxWorksheetSource : Type := {
  WorksheetSource_Ref : string;
  WorksheetSource_Sheet : string;
  WorksheetSource_Name : string
}.

Record xlsxCacheSource : Type := {
  CacheSource_Type : string;
  CacheSource_WorksheetSource : option xlsxWorksheetSource
}.

Record xlsxPivotCacheDefinition : Type := {
  SaveData : bool;
  RefreshOnLoad : bool;
  pc_CreatedVersion : Z;
  pc_RefreshedVersion : Z;
  pc_MinRefreshableVersion : Z;
  CacheSource : option xlsxCacheSource;
  CacheFields : xlsxCacheFields
}.

Record xlsxItem : Type := {
  Item_T : string;
  Item_X : option Z
}.

Record xlsxItems : Type := {
  Items_Count : Z;
  Items_Item : list xlsxItem
}.

Record xlsxPivotField : Type := {
  PivotField_Name : string;
  PivotField_Axis : string;
  PivotField_DataField : bool;
  PivotField_Compact : option bool;
  PivotField_Outline : option bool;
  PivotField_DefaultSubtotal : option bool;
  PivotField_Items : option xlsxItems
}.

Record xlsxPivotFields : Type := {
  PivotFields_Count : Z;
  PivotFields_PivotField : list xlsxPivotField
}.

Record xlsxField : Type := { Field_X : Z }.

Record xlsxRowFields : Type := {
  RowFields_Count : Z;
  RowFields_Field : list xlsxField
}.

Record xlsxColFields : Type := {
  ColFields_Count : Z;
  ColFields_Field : list xlsxField
}.

Record xlsxPageField : Type := {
  PageField_Name : string;
  PageField_Fld : Z
}.

Record xlsxPageFields : Type := {
  PageFields_Count : Z;
  PageFields_PageField : list xlsxPageField
}.

Record xlsxDataField : Type := {
  DataField_Name : string;
  DataField_Fld : Z;
  DataField_Subtotal : string
}.

Record xlsxDataFields : Type := {
  DataFields_Count : Z;
  DataFields_DataField : list xlsxDataField
}.

Record xlsxLocation : Type := {
  Location_Ref : string;
  FirstDataCol : Z;
  FirstDataRow : Z;
  FirstHeaderRow : Z
}.

Record xlsxX : Type := { }.

Record xlsxI : Type := { I_X : list xlsxX }.

Record xlsxRowItems : Type := {
  RowItems_Count : Z;
  RowItems_I : list xlsxI
}.

Record xlsxColItems : Type := {
  ColItems_Count : Z;
  ColItems_I : list xlsxI
}.

Record xlsxPivotTableStyleInfo : Type := {
  StyleInfo_Name : string;
  StyleInfo_ShowRowHeaders : bool;
  StyleInfo_ShowColHeaders : bool;
  StyleInfo_ShowRowStripes : bool;
  StyleInfo_ShowColStripes : bool;
  StyleInfo_ShowLastColumn : bool
}.

Record xlsxPivotTableDefinition : Type := {
  pt_Name : string;
  pt_CacheID : Z;
  pt_RowGrandTotals : option bool;
  pt_ColGrandTotals : option bool;
  pt_UpdatedVersion : Z;
  pt_MinRefreshableVersion : Z;
  pt_ShowDrill : option bool;
  pt_UseAutoFormatting : option bool;
  pt_PageOverThenDown : option bool;
  pt_MergeItem : option bool;
  pt_CreatedVersion : Z;
  pt_CompactData : option bool;
  pt_ShowError : option bool;
  pt_DataCaption : string;
  Location : option xlsxLocation;
  PivotFields : xlsxPivotFields;
  RowFields : option xlsxRowFields;
  RowItems : option xlsxRowItems;
  ColFields : option xlsxColFields;
  ColItems : option xlsxColItems;
  PageFields : option xlsxPageFields;
  DataFields : option xlsxDataFields;
  PivotTableStyleInfo : option xlsxPivotTableStyleInfo
}.

(** Assignments to the members of a table definition that the builders
    write. *)
Definition set_PivotFields (v : xlsxPivotFields) (pt : xlsxPivotTableDefinition)
    : xlsxPivotTableDefinition :=
  {| pt_Name := pt_Name pt; pt_CacheID := pt_CacheID pt;
     pt_RowGrandTotals := pt_RowGrandTotals pt; pt_ColGrandTotals := pt_ColGrandTotals pt;
     pt_UpdatedVersion := pt_UpdatedVersion pt;
     pt_MinRefreshableVersion := pt_MinRefreshableVersion pt;
     pt_ShowDrill := pt_ShowDrill pt; pt_UseAutoFormatting := pt_UseAutoFormatting pt;
     pt_PageOverThenDown := pt_PageOverThenDown pt; pt_MergeItem := pt_MergeItem pt;
     pt_CreatedVersion := pt_CreatedVersion pt; pt_CompactData := pt_CompactData pt;
     pt_ShowError := pt_ShowError pt; pt_DataCaption := pt_DataCaption pt;
     Location := Location pt; PivotFields := v; RowFields := RowFields pt;
     RowItems := RowItems pt; ColFields := ColFields pt; ColItems := ColItems pt;
     PageFields := PageFields pt; DataFields := DataFields pt;
     PivotTableStyleInfo := PivotTableStyleInfo pt |}.

Definition set_RowFields (v : option xlsxRowFields) (pt : xlsxPivotTableDefinition)
    : xlsxPivotTableDefinition :=
  {| pt_Name := pt_Name pt; pt_CacheID := pt_CacheID pt;
     pt_RowGrandTotals := pt_RowGrandTotals pt; pt_ColGrandTotals := pt_ColGrandTotals pt;
     pt_UpdatedVersion := pt_UpdatedVersion pt;
     pt_MinRefreshableVersion := pt_MinRefreshableVersion pt;
     pt_ShowDrill := pt_ShowDrill pt; pt_UseAutoFormatting := pt_UseAutoFormatting pt;
     pt_PageOverThenDown := pt_PageOverThenDown pt; pt_MergeItem := pt_MergeItem pt;
     pt_CreatedVersion := pt_CreatedVersion pt; pt_CompactData := pt_CompactData pt;
     pt_ShowError := pt_ShowError pt; pt_DataCaption := pt_DataCaption pt;
     Location := Location pt; PivotFields := PivotFields pt; RowFields := v;
     RowItems := RowItems pt; ColFields := ColFields pt; ColItems := ColItems pt;
     PageFields := PageFields pt; DataFields := DataFields pt;
     PivotTableStyleInfo := PivotTableStyleInfo pt |}.

Definition set_ColFields (v : option xlsxColFields) (pt : xlsxPivotTableDefinition)
    : xlsxPivotTableDefinition :=
  {| pt_Name := pt_Name pt; pt_CacheID := pt_CacheID pt;
     pt_RowGrandTotals := pt_RowGrandTotals pt; pt_ColGrandTotals := pt_ColGrandTotals pt;
     pt_UpdatedVersion := pt_UpdatedVersion pt;
     pt_MinRefreshableVersion := pt_MinRefreshableVersion pt;
     pt_ShowDrill := pt_ShowDrill pt; pt_UseAutoFormatting := pt_UseAutoFormatting pt;
     pt_PageOverThenDown := pt_PageOverThenDown pt; pt_MergeItem := pt_MergeItem pt;
     pt_CreatedVersion := pt_CreatedVersion pt; pt_CompactData := pt_CompactData pt;
     pt_ShowError := pt_ShowError pt; pt_DataCaption := pt_DataCaption pt;
     Location := Location pt; PivotFields := PivotFields pt; RowFields := RowFields pt;
     RowItems := RowItems pt; ColFields := v; ColItems := ColItems pt;
     PageFields := PageFields pt; DataFields := DataFields pt;
     PivotTableStyleInfo := PivotTableStyleInfo pt |}.

Definition set_PageFields (v : option xlsxPageFields) (pt : xlsxPivotTableDefinition)
    : xlsxPivotTableDefinition :=
  {| pt_Name := pt_Name pt; pt_CacheID := pt_CacheID pt;
     pt_RowGrandTotals := pt_RowGrandTotals pt; pt_ColGrandTotals := pt_ColGrandTotals pt;
     pt_UpdatedVersion := pt_UpdatedVersion pt;
     pt_MinRefreshableVersion := pt_MinRefreshableVersion pt;
     pt_ShowDrill := pt_ShowDrill pt; pt_UseAutoFormatting := pt_UseAutoFormatting pt;
     pt_PageOverThenDown := pt_PageOverThenDown pt; pt_MergeItem := pt_MergeItem pt;
     pt_CreatedVersion := pt_CreatedVersion pt; pt_CompactData := pt_CompactData pt;
     pt_ShowError := pt_ShowError pt; pt_DataCaption := pt_DataCaption pt;
     Location := Location pt; PivotFields := PivotFields pt; RowFields := RowFields pt;
     RowItems := RowItems pt; ColFields := ColFields pt; ColItems := ColItems pt;
     PageFields := v; DataFields := DataFields pt;
     PivotTableStyleInfo := PivotTableStyleInfo pt |}.

Definition set_DataFields (v : option xlsxDataFields) (pt : xlsxPivotTableDefinition)
    : xlsxPivotTableDefinition :=
  {| pt_Name := pt_Name pt; pt_CacheID := pt_CacheID pt;
     pt_RowGrandTotals := pt_RowGrandTotals pt; pt_ColGrandTotals := pt_ColGrandTotals pt;
     pt_UpdatedVersion := pt_UpdatedVersion pt;
     pt_MinRefreshableVersion := pt_MinRefreshableVersion pt;
     pt_ShowDrill := pt_ShowDrill pt; pt_UseAutoFormatting := pt_UseAutoFormatting pt;
     pt_PageOverThenDown := pt_PageOverThenDown pt; pt_MergeItem := pt_MergeItem pt;
     pt_CreatedVersion := pt_CreatedVersion pt; pt_CompactData := pt_CompactData pt;
     pt_ShowError := pt_ShowError pt; pt_DataCaption := pt_DataCaption pt;
     Location := Location pt; PivotFields := PivotFields pt; RowFields := RowFields pt;
     RowItems := RowItems pt; ColFields := ColFields pt; ColItems := ColItems pt;
     PageFields := PageFields pt; DataFields := v;
     PivotTableStyleInfo := PivotTableStyleInfo pt |}.

(** ** The document *)

Record xlsxPivotCache : Type := {
  CacheID : Z;
  RID : string
}.

Record xlsxPivotCaches : Type := { PivotCache : list xlsxPivotCache }.

Record xlsxWorkbook : Type := { PivotCaches : option xlsxPivotCaches }.

Record xlsxRelationship : Type := {
  Rel_ID : Z;
  Rel_Type : string;
  Rel_Target : string;
  Rel_TargetMode : string
}.

(** The document state the pipeline reads and writes: the package parts
    [f.Pkg], the workbook that [f.workbookReader()] returns, the relationship
    parts by path, the content-type registrations, and the cell values and
    defined names the readers consult. *)
Record File : Type := {
  Pkg : gmap string string;
  WorkBook : xlsxWorkbook;
  Relationships : gmap string (list xlsxRelationship);
  ContentTypes : list (Z * string);
  Sheets : gmap string (string * gmap string string);
  DefinedNames : list (string * string * string)
}.

Definition set_WorkBook (wb : xlsxWorkbook) (f : File) : File :=
  {| Pkg := Pkg f; WorkBook := wb; Relationships := Relationships f;
     ContentTypes := ContentTypes f; Sheets := Sheets f;
     DefinedNames := DefinedNames f |}.

(** The collaborators of the pipeline that are declared outside this file:
    cell-reference conversion, cell and sheet lookup, defined-name
    resolution, relationship and content-type allocation, part storage and
    XML serialisation, with the constants they share. *)
Class Host : Type := {
  areaRefToCoordinates : string -> result (Z * Z * Z * Z);
  CoordinatesToCellName : Z -> Z -> string * option error;
  GetCellValue : File -> string -> string -> result string;
  getDefinedNameRefTo : File -> string -> string -> string;
  workSheetReader : File -> string -> option error;
  getSheetXMLPath : File -> string -> string * bool;
  getWorkbookRelsPath : File -> string;
  addRels : File -> string -> string -> string -> string -> File * Z;
  addContentTypePart : File -> Z -> string -> File;
  saveFileList : File -> string -> string -> File;
  marshalPivotCache : xlsxPivotCacheDefinition -> string * option error;
  marshalPivotTable : xlsxPivotTableDefinition -> string * option error;
  pivotTableVersion : Z;
  SourceRelationshipPivotCache : string;
  SourceRelationshipPivotTable : string
}.

(** Modelled from the spec: [inStrSlice] is declared outside this file.  With
    [caseSensitive] true, as at its call in [getPivotFieldsIndex], it maps a
    name to its position in the field order: the index of the first element
    equal to [x], or -1. *)
Fixpoint inStrSlice_from (idx : Z) (a : list string) (x : string) : Z :=
  match a with
  | [] => -1
  | n :: a' => if String.eqb x n then idx else inStrSlice_from (idx + 1) a' x
  end.

Definition inStrSlice (a : list string) (x : string) : Z := inStrSlice_from 0 a x.

(** Go's [int] is 64 bits wide on the supported platforms. *)
Definition int64 (z : Z) : Z := (z + 2 ^ 63) mod 2 ^ 64 - 2 ^ 63.

(** ** The pipeline *)

Section Pipeline.

Context {host : Host}.

(** [adjustRange]: sheet name and corner coordinates of a range such as
    [Sheet1!$E$31:$A$1], with the corners put in order.  On success the
    coordinates are the four-element slice [{x1, y1, x2, y2}]. *)
Definition adjustRange (rangeStr : string) : result (string * (Z * Z * Z * Z)) :=
  if (String.length rangeStr <? 1)%nat then Err ErrParameterRequired
  else
    let rng := strings.Split rangeStr "!" in
    if negb (length rng =? 2)%nat then Err ErrParameterInvalid
    else
      let rng0 := nth 0 rng "" in
      let rng1 := nth 1 rng "" in
      let trimRng := strings.RemoveAll rng1 "$" in
      match areaRefToCoordinates trimRng with
      | Err err => Err err
      | Ok (x1, y1, x2, y2) =>
          if (x1 =? x2) && (y1 =? y2) then Err ErrParameterInvalid
          else
            (* Correct the range, such correct C1:B3 to B1:C3. *)
            let '(x1, x2) := if x2 <? x1 then (x2, x1) else (x1, x2) in
            let '(y1, y2) := if y2 <? y1 then (y2, y1) else (y1, y2) in
            Ok (rng0, (x1, y1, x2, y2))
      end.

(** The loop of [getPivotFieldsOrder] over the columns [col .. col+n-1] of
    the header row; a failing cell lookup ends it with the names read so
    far. *)
Fixpoint headerRow (f : File) (dataSheet : string) (row : Z) (n : nat)
    (col : Z) (order : list string) : list string * option error :=
  match n with
  | O => (order, None)
  | S n' =>
      let coordinate := fst (CoordinatesToCellName col row) in
      match GetCellValue f dataSheet coordinate with
      | Err err => (order, Some err)
      | Ok name => headerRow f dataSheet row n' (col + 1) (order ++ [name])
      end
  end.

(** The data range of the options: the target of the defined name when
    [DataRange] is one, the literal otherwise. *)
Definition resolveDataRange (f : File) (opts : PivotTableOption) : string :=
  let dataRange := getDefinedNameRefTo f (DataRange opts) (pivotTableSheetName opts) in
  if String.eqb dataRange "" then DataRange opts else dataRange.

Definition getPivotFieldsOrder (f : File) (opts : PivotTableOption)
    : list string * option error :=
  let order := [] in
  let dataRange := resolveDataRange f opts in
  match adjustRange dataRange with
  | Err err => (order, Some (ErrRangeParsing "DataRange" err))
  | Ok (dataSheet, (c0, c1, c2, _)) =>
      headerRow f dataSheet c1 (Z.to_nat (c2 - c0 + 1)) c0 order
  end.

Definition getPivotFieldsIndex (f : File) (fields : list PivotTableField)
    (opts : PivotTableOption) : result (list Z) :=
  match getPivotFieldsOrder f opts with
  | (_, Some err) => Err err
  | (orders, None) =>
      Ok (fold_left
            (fun pivotFieldsIndex field =>
               let pos := inStrSlice orders (Data field) in
               if negb (pos =? -1) then pivotFieldsIndex ++ [pos]
               else pivotFieldsIndex)
            fields [])
  end.

Definition addPivotRowFields (f : File) (pt : xlsxPivotTableDefinition)
    (opts : PivotTableOption) : xlsxPivotTableDefinition * option error :=
  match getPivotFieldsIndex f (Rows opts) opts with
  | Err err => (pt, Some err)
  | Ok rowFieldsIndex =>
      let pt :=
        fold_left
          (fun pt fieldIdx =>
             let rf := default {| RowFields_Count := 0; RowFields_Field := [] |}
                         (RowFields pt) in
             set_RowFields
               (Some {| RowFields_Count := RowFields_Count rf;
                        RowFields_Field :=
                          RowFields_Field rf ++ [{| Field_X := fieldIdx |}] |}) pt)
          rowFieldsIndex pt in
      (* count row fields *)
      match RowFields pt with
      | Some rf =>
          (set_RowFields
             (Some {| RowFields_Count := Z.of_nat (length (RowFields_Field rf));
                      RowFields_Field := RowFields_Field rf |}) pt, None)
      | None => (pt, None)
      end
  end.

(** The [range] loop of [addPivotPageFields]: [idx] counts the entries of
    the index list, and is used as it is to index the names of the
    declared entries. *)
Fixpoint pageFieldsLoop (pageFieldsName : list string) (idx : nat)
    (pageFieldsIndex : list Z) (pt : xlsxPivotTableDefinition)
    : xlsxPivotTableDefinition :=
  match pageFieldsIndex with
  | [] => pt
  | pageField :: rest =>
      let pf := default {| PageFields_Count := 0; PageFields_PageField := [] |}
                  (PageFields pt) in
      pageFieldsLoop pageFieldsName (S idx) rest
        (set_PageFields
           (Some {| PageFields_Count := PageFields_Count pf;
                    PageFields_PageField :=
                      PageFields_PageField pf
                      ++ [{| PageField_Name := default "" (pageFieldsName !! idx);
                             PageField_Fld := pageField |}] |}) pt)
  end.

Definition addPivotPageFields (f : File) (pt : xlsxPivotTableDefinition)
    (opts : PivotTableOption) : xlsxPivotTableDefinition * option error :=
  match getPivotFieldsIndex f (Filter opts) opts with
  | Err err => (pt, Some err)
  | Ok pageFieldsIndex =>
      let pageFieldsName := getPivotTableFieldsName (Filter opts) in
      let pt := pageFieldsLoop pageFieldsName O pageFieldsIndex pt in
      (* count page fields *)
      match PageFields pt with
      | Some pf =>
          (set_PageFields
             (Some {| PageFields_Count := Z.of_nat (length (PageFields_PageField pf));
                      PageFields_PageField := PageFields_PageField pf |}) pt, None)
      | None => (pt, None)
      end
  end.

Fixpoint dataFieldsLoop (dataFieldsName dataFieldsSubtotals : list string)
    (idx : nat) (dataFieldsIndex : list Z) (pt : xlsxPivotTableDefinition)
    : xlsxPivotTableDefinition :=
  match dataFieldsIndex with
  | [] => pt
  | dataField :: rest =>
      let df := default {| DataFields_Count := 0; DataFields_DataField := [] |}
                  (DataFields pt) in
      dataFieldsLoop dataFieldsName dataFieldsSubtotals (S idx) rest
        (set_DataFields
           (Some {| DataFields_Count := DataFields_Count df;
                    DataFields_DataField :=
                      DataFields_DataField df
                      ++ [{| DataField_Name := default "" (dataFieldsName !! idx);
                             DataField_Fld := dataField;
                             DataField_Subtotal :=
                               default "" (dataFieldsSubtotals !! idx) |}] |}) pt)
  end.

Definition addPivotDataFields (f : File) (pt : xlsxPivotTableDefinition)
    (opts : PivotTableOption) : xlsxPivotTableDefinition * option error :=
  match getPivotFieldsIndex f (Data_ opts) opts with
  | Err err => (pt, Some err)
  | Ok dataFieldsIndex =>
      let dataFieldsSubtotals := getPivotTableFieldsSubtotal (Data_ opts) in
      let dataFieldsName := getPivotTableFieldsName (Data_ opts) in
      let pt := dataFieldsLoop dataFieldsName dataFieldsSubtotals O dataFieldsIndex pt in
      (* count data fields *)
      match DataFields pt with
      | Some df =>
          (set_DataFields
             (Some {| DataFields_Count := Z.of_nat (length (DataFields_DataField df));
                      DataFields_DataField := DataFields_DataField df |}) pt, None)
      | None => (pt, None)
      end
  end.

Definition addPivotColFields (f : File) (pt : xlsxPivotTableDefinition)
    (opts : PivotTableOption) : xlsxPivotTableDefinition * option error :=
  if (length (Columns opts) =? 0)%nat then
    if (length (Data_ opts) <=? 1)%nat then (pt, None)
    else
      (* in order to create pivot table in case there is no input from Columns *)
      (set_ColFields
         (Some {| ColFields_Count := 1;
                  ColFields_Field := [] ++ [{| Field_X := -2 |}] |}) pt, None)
  else
    let pt := set_ColFields (Some {| ColFields_Count := 0; ColFields_Field := [] |}) pt in
    match getPivotFieldsIndex f (Columns opts) opts with
    | Err err => (pt, Some err)
    | Ok colFieldsIndex =>
        let Field :=
          fold_left (fun Field fieldIdx => Field ++ [{| Field_X := fieldIdx |}])
            colFieldsIndex [] in
        (* in order to create pivot in case there is many Columns and Data *)
        let Field :=
          if (1 <? length (Data_ opts))%nat then Field ++ [{| Field_X := -2 |}]
          else Field in
        (* count col fields *)
        (set_ColFields
           (Some {| ColFields_Count := Z.of_nat (length Field);
                    ColFields_Field := Field |}) pt, None)
    end.

Definition appendPivotField (pf : xlsxPivotField) (pt : xlsxPivotTableDefinition)
    : xlsxPivotTableDefinition :=
  set_PivotFields
    {| PivotFields_Count := PivotFields_Count (PivotFields pt);
       PivotFields_PivotField := PivotFields_PivotField (PivotFields pt) ++ [pf] |} pt.

(** The zero value of [xlsxPivotField]. *)
Definition emptyPivotField : xlsxPivotField :=
  {| PivotField_Name := ""; PivotField_Axis := ""; PivotField_DataField := false;
     PivotField_Compact := None; PivotField_Outline := None;
     PivotField_DefaultSubtotal := None; PivotField_Items := None |}.

(** The pivot field that one iteration of the loop of [addPivotFields]
    appends for the header name [name]: every branch of the loop body
    appends one field and continues.  [x] is the variable whose address
    the index items hold. *)
Definition addPivotFields_field (opts : PivotTableOption) (x : Z) (name : string)
    : xlsxPivotField :=
  if negb (inPivotTableField (Rows opts) name =? -1) then
    let '(rowOptions, ok) := getPivotTableFieldOptions name (Rows opts) in
    let items :=
      if negb ok || negb (DefaultSubtotal rowOptions)
      then [] ++ [{| Item_T := ""; Item_X := Some x |}]
      else [] ++ [{| Item_T := "default"; Item_X := None |}] in
    {| PivotField_Name := getPivotTableFieldName name (Rows opts);
       PivotField_Axis := "axisRow";
       PivotField_DataField := negb (inPivotTableField (Data_ opts) name =? -1);
       PivotField_Compact := Some (Compact rowOptions);
       PivotField_Outline := Some (Outline rowOptions);
       PivotField_DefaultSubtotal := Some (DefaultSubtotal rowOptions);
       PivotField_Items :=
         Some {| Items_Count := Z.of_nat (length items); Items_Item := items |} |}
  else if negb (inPivotTableField (Filter opts) name =? -1) then
    {| PivotField_Name := getPivotTableFieldName name (Columns opts);
       PivotField_Axis := "axisPage";
       PivotField_DataField := negb (inPivotTableField (Data_ opts) name =? -1);
       PivotField_Compact := None;
       PivotField_Outline := None;
       PivotField_DefaultSubtotal := None;
       PivotField_Items :=
         Some {| Items_Count := 1;
                 Items_Item := [{| Item_T := "default"; Item_X := None |}] |} |}
  else if negb (inPivotTableField (Columns opts) name =? -1) then
    let '(columnOptions, ok) := getPivotTableFieldOptions name (Columns opts) in
    let items :=
      if negb ok || negb (DefaultSubtotal columnOptions)
      then [] ++ [{| Item_T := ""; Item_X := Some x |}]
      else [] ++ [{| Item_T := "default"; Item_X := None |}] in
    {| PivotField_Name := getPivotTableFieldName name (Columns opts);
       PivotField_Axis := "axisCol";
       PivotField_DataField := negb (inPivotTableField (Data_ opts) name =? -1);
       PivotField_Compact := Some (Compact columnOptions);
       PivotField_Outline := Some (Outline columnOptions);
       PivotField_DefaultSubtotal := Some (DefaultSubtotal columnOptions);
       PivotField_Items :=
         Some {| Items_Count := Z.of_nat (length items); Items_Item := items |} |}
  else if negb (inPivotTableField (Data_ opts) name =? -1) then
    {| PivotField_Name := ""; PivotField_Axis := ""; PivotField_DataField := true;
       PivotField_Compact := None; PivotField_Outline := None;
       PivotField_DefaultSubtotal := None; PivotField_Items := None |}
  else emptyPivotField.

Definition addPivotFields (f : File) (pt : xlsxPivotTableDefinition)
    (opts : PivotTableOption) : xlsxPivotTableDefinition * option error :=
  match getPivotFieldsOrder f opts with
  | (_, Some err) => (pt, Some err)
  | (order, None) =>
      let x := 0 in
      (fold_left
         (fun pt name => appendPivotField (addPivotFields_field opts x name) pt)
         order pt, None)
  end.

(** The cache field that one iteration of the loop of [addPivotCache]
    appends for the header name [name]. *)
Definition addPivotCache_field (opts : PivotTableOption) (name : string)
    : xlsxCacheField :=
  let '(rowOptions, rowOk) := getPivotTableFieldOptions name (Rows opts) in
  let '(columnOptions, colOk) := getPivotTableFieldOptions name (Columns opts) in
  let sharedItems := {| SharedItems_Count := 0; SharedItems_S := None |} in
  let sharedItems :=
    if (rowOk && negb (DefaultSubtotal rowOptions))
       || (colOk && negb (DefaultSubtotal columnOptions))
    then {| SharedItems_Count := SharedItems_Count sharedItems + 1;
            SharedItems_S := Some {| V := "" |} |}
    else sharedItems in
  {| CacheField_Name := name; CacheField_SharedItems := Some sharedItems |}.

(** The cache definition that [addPivotCache] builds and serialises, for
    the data range already resolved and normalised. *)
Definition pivotCacheDefinition (f : File) (opts : PivotTableOption)
    (definedNameRef : bool) (dataSheet : string) (coordinates : Z * Z * Z * Z)
    : xlsxPivotCacheDefinition :=
  let '(c0, c1, c2, c3) := coordinates in
  (* data range has been checked *)
  let order := fst (getPivotFieldsOrder f opts) in
  let hCell := fst (CoordinatesToCellName c0 c1) in
  let vCell := fst (CoordinatesToCellName c2 c3) in
  let WorksheetSource :=
    if definedNameRef
    then {| WorksheetSource_Ref := ""; WorksheetSource_Sheet := "";
            WorksheetSource_Name := DataRange opts |}
    else {| WorksheetSource_Ref := hCell +:+ ":" +:+ vCell;
            WorksheetSource_Sheet := dataSheet; WorksheetSource_Name := "" |} in
  let CacheField :=
    fold_left (fun CacheField name => CacheField ++ [addPivotCache_field opts name])
      order [] in
  {| SaveData := false;
     RefreshOnLoad := true;
     pc_CreatedVersion := pivotTableVersion;
     pc_RefreshedVersion := pivotTableVersion;
     pc_MinRefreshableVersion := pivotTableVersion;
     CacheSource :=
       Some {| CacheSource_Type := "worksheet";
               CacheSource_WorksheetSource := Some WorksheetSource |};
     CacheFields :=
       {| CacheFields_Count := Z.of_nat (length CacheField);
          CacheFields_CacheField := CacheField |} |}.

Definition addPivotCache (f : File) (pivotCacheXML : string)
    (opts : PivotTableOption) : File * option error :=
  (* validate data range *)
  let dataRange := getDefinedNameRefTo f (DataRange opts) (pivotTableSheetName opts) in
  let '(definedNameRef, dataRange) :=
    if String.eqb dataRange "" then (false, DataRange opts) else (true, dataRange) in
  match adjustRange dataRange with
  | Err err => (f, Some (ErrRangeParsing "DataRange" err))
  | Ok (dataSheet, coordinates) =>
      let pc := pivotCacheDefinition f opts definedNameRef dataSheet coordinates in
      let '(pivotCache, err) := marshalPivotCache pc in
      (saveFileList f pivotCacheXML pivotCache, err)
  end.

(** The table definition that [addPivotTable] builds and serialises, for
    the placement range already normalised.  The errors of the five
    builders are dropped, as in the source. *)
Definition pivotTableDefinition (f : File) (cacheID pivotTableID : Z)
    (opts : PivotTableOption) (coordinates : Z * Z * Z * Z)
    : xlsxPivotTableDefinition :=
  let '(c0, c1, c2, c3) := coordinates in
  let hCell := fst (CoordinatesToCellName c0 c1) in
  let vCell := fst (CoordinatesToCellName c2 c3) in
  let pivotTableStyle :=
    if String.eqb (PivotTableStyleName opts) "" then "PivotStyleLight16"
    else PivotTableStyleName opts in
  let pt :=
    {| pt_Name := "Pivot Table" +:+ strconv.Itoa pivotTableID;
       pt_CacheID := cacheID;
       pt_RowGrandTotals := Some (RowGrandTotals opts);
       pt_ColGrandTotals := Some (ColGrandTotals opts);
       pt_UpdatedVersion := pivotTableVersion;
       pt_MinRefreshableVersion := pivotTableVersion;
       pt_ShowDrill := Some (ShowDrill opts);
       pt_UseAutoFormatting := Some (UseAutoFormatting opts);
       pt_PageOverThenDown := Some (PageOverThenDown opts);
       pt_MergeItem := Some (MergeItem opts);
       pt_CreatedVersion := pivotTableVersion;
       pt_CompactData := Some (CompactData opts);
       pt_ShowError := Some (ShowError opts);
       pt_DataCaption := "Values";
       Location :=
         Some {| Location_Ref := hCell +:+ ":" +:+ vCell;
                 FirstDataCol := 1; FirstDataRow := 1; FirstHeaderRow := 1 |};
       PivotFields := {| PivotFields_Count := 0; PivotFields_PivotField := [] |};
       RowFields := None;
       RowItems :=
         Some {| RowItems_Count := 1;
                 RowItems_I := [{| I_X := [Build_xlsxX; Build_xlsxX] |}] |};
       ColFields := None;
       ColItems := Some {| ColItems_Count := 1; ColItems_I := [{| I_X := [] |}] |};
       PageFields := None;
       DataFields := None;
       PivotTableStyleInfo :=
         Some {| StyleInfo_Name := pivotTableStyle;
                 StyleInfo_ShowRowHeaders := ShowRowHeaders opts;
                 StyleInfo_ShowColHeaders := ShowColHeaders opts;
                 StyleInfo_ShowRowStripes := ShowRowStripes opts;
                 StyleInfo_ShowColStripes := ShowColStripes opts;
                 StyleInfo_ShowLastColumn := ShowLastColumn opts |} |} in
  (* pivot fields *)
  let pt := fst (addPivotFields f pt opts) in
  (* count pivot fields *)
  let pt :=
    set_PivotFields
      {| PivotFields_Count :=
           Z.of_nat (length (PivotFields_PivotField (PivotFields pt)));
         PivotFields_PivotField := PivotFields_PivotField (PivotFields pt) |} pt in
  (* data range has been checked *)
  let pt := fst (addPivotRowFields f pt opts) in
  let pt := fst (addPivotColFields f pt opts) in
  let pt := fst (addPivotPageFields f pt opts) in
  let pt := fst (addPivotDataFields f pt opts) in
  pt.

Definition addPivotTable (f : File) (cacheID pivotTableID : Z)
    (pivotTableXML : string) (opts : PivotTableOption) : File * option error :=
  (* validate pivot table range *)
  match adjustRange (PivotTableRange opts) with
  | Err err => (f, Some (ErrRangeParsing "PivotTableRange" err))
  | Ok (_, coordinates) =>
      let pt := pivotTableDefinition f cacheID pivotTableID opts coordinates in
      let '(pivotTable, err) := marshalPivotTable pt in
      (saveFileList f pivotTableXML pivotTable, err)
  end.

(** [countPivotTables] and [countPivotCache]: [f.Pkg.Range] visits every
    stored part once, in no fixed order; the counter does not depend on
    the order.  A count of parts held in memory stays far below 2^63. *)
Definition countPivotTables (f : File) : Z :=
  map_fold
    (fun (k : string) (v : string) (count : Z) =>
       if strings.Contains k "xl/pivotTables/pivotTable" then count + 1 else count)
    0 (Pkg f).

Definition countPivotCache (f : File) : Z :=
  map_fold
    (fun (k : string) (v : string) (count : Z) =>
       if strings.Contains k "xl/pivotCache/pivotCacheDefinition" then count + 1
       else count)
    0 (Pkg f).

(** The sequence numbers [pivotTableID] and [pivotCacheID] that
    [AddPivotTable] computes for the new parts. *)
Definition pivotTableID (f : File) : Z := countPivotTables f + 1.
Definition pivotCacheID (f : File) : Z := countPivotCache f + 1.

(** [addWorkbookPivotCache]: the new registry entry and its cache ID.  The
    IDs come from the document, so the increment is the 64-bit one. *)
Definition addWorkbookPivotCache (f : File) (RID : Z) : File * Z :=
  let wb := WorkBook f in
  let caches := default {| PivotCache := [] |} (PivotCaches wb) in
  let cacheID := 1 in
  let cacheID :=
    fold_left
      (fun cacheID pivotCache =>
         if CacheID pivotCache >? cacheID then CacheID pivotCache else cacheID)
      (PivotCache caches) cacheID in
  let cacheID := int64 (cacheID + 1) in
  let wb :=
    {| PivotCaches :=
         Some {| PivotCache :=
                   PivotCache caches
                   ++ [{| CacheID := cacheID;
                          RID := "rId" +:+ strconv.Itoa RID |}] |} |} in
  (set_WorkBook wb f, cacheID).

Definition set_pivotTableSheetName (v : string) (opts : PivotTableOption)
    : PivotTableOption :=
  {| pivotTableSheetName := v; DataRange := DataRange opts;
     PivotTableRange := PivotTableRange opts; Rows := Rows opts;
     Columns := Columns opts; Data_ := Data_ opts; Filter := Filter opts;
     RowGrandTotals := RowGrandTotals opts; ColGrandTotals := ColGrandTotals opts;
     ShowDrill := ShowDrill opts; UseAutoFormatting := UseAutoFormatting opts;
     PageOverThenDown := PageOverThenDown opts; MergeItem := MergeItem opts;
     CompactData := CompactData opts; ShowError := ShowError opts;
     ShowRowHeaders := ShowRowHeaders opts; ShowColHeaders := ShowColHeaders opts;
     ShowRowStripes := ShowRowStripes opts; ShowColStripes := ShowColStripes opts;
     ShowLastColumn := ShowLastColumn opts;
     PivotTableStyleName := PivotTableStyleName opts |}.

(** [parseFormatPivotTableSet]: the validation stage.  [opts] is a pointer,
    [None] when nil; on success the result carries the options with the
    resolved sheet name written to them and the path of the placement
    sheet (the data sheet it also returns is not used by the caller). *)
Definition parseFormatPivotTableSet (f : File) (opts : option PivotTableOption)
    : result (PivotTableOption * string) :=
  match opts with
  | None => Err ErrParameterRequired
  | Some opts =>
      match adjustRange (PivotTableRange opts) with
      | Err err => Err (ErrRangeParsing "PivotTableRange" err)
      | Ok (pivotTableSheetName, _) =>
          let opts := set_pivotTableSheetName pivotTableSheetName opts in
          let dataRange := getDefinedNameRefTo f (DataRange opts) pivotTableSheetName in
          let dataRange := if String.eqb dataRange "" then DataRange opts else dataRange in
          match adjustRange dataRange with
          | Err err => Err (ErrRangeParsing "DataRange" err)
          | Ok (dataSheetName, _) =>
              match workSheetReader f dataSheetName with
              | Some err => Err err
              | None =>
                  let '(pivotTableSheetPath, ok) := getSheetXMLPath f pivotTableSheetName in
                  if negb ok then Err (ErrSheetNotExist pivotTableSheetName)
                  else Ok (opts, pivotTableSheetPath)
              end
          end
      end
  end.

Definition AddPivotTable (f : File) (opts : option PivotTableOption)
    : File * option error :=
  (* parameter validation *)
  match parseFormatPivotTableSet f opts with
  | Err err => (f, Some err)
  | Ok (opts, pivotTableSheetPath) =>
      let pivotTableID := pivotTableID f in
      let pivotCacheID := pivotCacheID f in
      let sheetRelationshipsPivotTableXML :=
        "../pivotTables/pivotTable" +:+ strconv.Itoa pivotTableID +:+ ".xml" in
      let pivotTableXML :=
        strings.ReplaceAll sheetRelationshipsPivotTableXML ".." "xl" in
      let pivotCacheXML :=
        "xl/pivotCache/pivotCacheDefinition" +:+ strconv.Itoa pivotCacheID +:+ ".xml" in
      match addPivotCache f pivotCacheXML opts with
      | (f, Some err) => (f, Some err)
      | (f, None) =>
          (* workbook pivot cache *)
          let '(f, workBookPivotCacheRID) :=
            addRels f (getWorkbookRelsPath f) SourceRelationshipPivotCache
              ("/xl/pivotCache/pivotCacheDefinition" +:+ strconv.Itoa pivotCacheID
               +:+ ".xml") "" in
          let '(f, cacheID) := addWorkbookPivotCache f workBookPivotCacheRID in
          let pivotCacheRels :=
            "xl/pivotTables/_rels/pivotTable" +:+ strconv.Itoa pivotTableID
            +:+ ".xml.rels" in
          (* rId not used *)
          let '(f, _) :=
            addRels f pivotCacheRels SourceRelationshipPivotCache
              ("../pivotCache/pivotCacheDefinition" +:+ strconv.Itoa pivotCacheID
               +:+ ".xml") "" in
          match addPivotTable f cacheID pivotTableID pivotTableXML opts with
          | (f, Some err) => (f, Some err)
          | (f, None) =>
              let pivotTableSheetRels :=
                "xl/worksheets/_rels/"
                +:+ strings.TrimPrefix pivotTableSheetPath "xl/worksheets/"
                +:+ ".rels" in
              let '(f, _) :=
                addRels f pivotTableSheetRels SourceRelationshipPivotTable
                  sheetRelationshipsPivotTableXML "" in
              let f := addContentTypePart f pivotTableID "pivotTable" in
              let f := addContentTypePart f pivotCacheID "pivotCache" in
              (f, None)
          end
      end
  end.

End Pipeline.

(** ** A host

    Modelled from the spec: the collaborator operations (resolve a named
    range, read a cell, check that a sheet exists and obtain its path,
    allocate a relationship ID, register a content-type part, persist a part)
    are declared outside this file.  This module implements them over the
    document state, so that the pipeline can be run on a workbook. *)

Module SheetHost.

Definition letterValue (c : ascii) : option Z :=
  let n := Z.of_N (N_of_ascii c) in
  if (65 <=? n) && (n <=? 90) then Some (n - 64)
  else if (97 <=? n) && (n <=? 122) then Some (n - 96)
  else None.

Definition digitValue (c : ascii) : option Z :=
  let n := Z.of_N (N_of_ascii c) in
  if (48 <=? n) && (n <=? 57) then Some (n - 48) else None.

Fixpoint parseRow (s : string) (acc : Z) : option Z :=
  match s with
  | EmptyString => Some acc
  | String c s' =>
      match digitValue c with
      | Some d => parseRow s' (acc * 10 + d)
      | None => None
      end
  end.

(** Column letters followed by a row number of at least 1. *)
Fixpoint parseCell (s : string) (col : Z) : option (Z * Z) :=
  match s with
  | EmptyString => None
  | String c s' =>
      match letterValue c with
      | Some v => parseCell s' (col * 26 + v)
      | None =>
          if col =? 0 then None
          else match parseRow s 0 with
               | Some r => if r <? 1 then None else Some (col, r)
               | None => None
               end
      end
  end.

(** Modelled from the spec: [areaRefToCoordinates] is declared outside this
    file.  It parses an address such as [A1:E31] into 1-based column and row
    coordinates of its two corners, and an address that cannot be parsed
    into two cell coordinates fails with [InvalidParameter]. *)
Definition areaRefToCoordinates (ref : string) : result (Z * Z * Z * Z) :=
  match strings.Split (strings.RemoveAll ref "$") ":" with
  | first :: last :: _ =>
      match parseCell first 0, parseCell last 0 with
      | Some (x1, y1), Some (x2, y2) => Ok (x1, y1, x2, y2)
      | _, _ => Err ErrParameterInvalid
      end
  | _ => Err ErrParameterInvalid
  end.

Fixpoint columnName (fuel : nat) (n : Z) : string :=
  match fuel with
  | O => ""
  | S k =>
      if n <=? 0 then ""
      else columnName k ((n - 1) / 26)
           +:+ String (ascii_of_N (Z.to_N (65 + (n - 1) mod 26))) ""
  end.

Definition CoordinatesToCellName (col row : Z) : string * option error :=
  if (col <? 1) || (row <? 1) then ("", Some ErrParameterInvalid)
  else (columnName 8 col +:+ strconv.Itoa row, None).

Definition GetCellValue (f : File) (sheet cell : string) : result string :=
  match Sheets f !! sheet with
  | Some (_, cells) => Ok (default "" (cells !! cell))
  | None => Err (ErrSheetNotExist sheet)
  end.

(** Modelled from the spec: [getDefinedNameRefTo] is declared outside this
    file.  It resolves a defined name to its literal target, given the name
    and a scoping sheet: the target of the name scoped to that sheet, and
    the empty string when there is none.  A defined name is held as name,
    scope and target. *)
Definition getDefinedNameRefTo (f : File) (definedName currentSheet : string) : string :=
  match List.find
          (fun d => String.eqb (fst (fst d)) definedName
                    && String.eqb (snd (fst d)) currentSheet)
          (DefinedNames f) with
  | Some (_, _, refTo) => refTo
  | None => ""
  end.

Definition workSheetReader (f : File) (sheet : string) : option error :=
  match Sheets f !! sheet with
  | Some _ => None
  | None => Some (ErrSheetNotExist sheet)
  end.

Definition getSheetXMLPath (f : File) (sheet : string) : string * bool :=
  match Sheets f !! sheet with
  | Some (path, _) => (path, true)
  | None => ("", false)
  end.

Definition addRels (f : File) (relPath relType target targetMode : string) : File * Z :=
  let rels := default [] (Relationships f !! relPath) in
  let rID := Z.of_nat (length rels) + 1 in
  ({| Pkg := Pkg f; WorkBook := WorkBook f;
      Relationships :=
        <[relPath := rels ++ [{| Rel_ID := rID; Rel_Type := relType;
                                 Rel_Target := target;
                                 Rel_TargetMode := targetMode |}]]>
          (Relationships f);
      ContentTypes := ContentTypes f; Sheets := Sheets f;
      DefinedNames := DefinedNames f |}, rID).

Definition addContentTypePart (f : File) (index : Z) (contentType : string) : File :=
  {| Pkg := Pkg f; WorkBook := WorkBook f; Relationships := Relationships f;
     ContentTypes := ContentTypes f ++ [(index, contentType)];
     Sheets := Sheets f; DefinedNames := DefinedNames f |}.

Definition saveFileList (f : File) (name content : string) : File :=
  {| Pkg := <[name := content]> (Pkg f); WorkBook := WorkBook f;
     Relationships := Relationships f; ContentTypes := ContentTypes f;
     Sheets := Sheets f; DefinedNames := DefinedNames f |}.

#[export] Instance host : Host :=
  Build_Host
    areaRefToCoordinates
    CoordinatesToCellName
    GetCellValue
    getDefinedNameRefTo
    workSheetReader
    getSheetXMLPath
    (fun _ => "xl/_rels/workbook.xml.rels")
    addRels
    addContentTypePart
    saveFileList
    (fun _ => ("<pivotCacheDefinition/>", None))
    (fun _ => ("<pivotTableDefinition/>", None))
    3
    "pivotCacheDefinition"
    "pivotTable".

(** The workbook of the example in the documentation of [AddPivotTable]:
    one sheet whose first row names five fields. *)
Definition book : File :=
  {| Pkg := ∅;
     WorkBook := {| PivotCaches := None |};
     Relationships := ∅;
     ContentTypes := [];
     Sheets :=
       {[ "Sheet1" :=
            ("xl/worksheets/sheet1.xml",
             list_to_map
               [("A1", "Month"); ("B1", "Year"); ("C1", "Type");
                ("D1", "Sales"); ("E1", "Region")]) ]};
     DefinedNames := [] |}.

Definition field (data : string) : PivotTableField :=
  {| Compact := false; Data := data; Name := ""; Outline := false;
     Subtotal := ""; DefaultSubtotal := false |}.

Definition options (rows columns data filter : list PivotTableField)
    : PivotTableOption :=
  {| pivotTableSheetName := "Sheet1";
     DataRange := "Sheet1!$A$1:$E$31";
     PivotTableRange := "Sheet1!$G$2:$M$34";
     Rows := rows; Columns := columns; Data_ := data; Filter := filter;
     RowGrandTotals := true; ColGrandTotals := true; ShowDrill := true;
     UseAutoFormatting := false; PageOverThenDown := false; MergeItem := false;
     CompactData := false; ShowError := false;
     ShowRowHeaders := true; ShowColHeaders := true;
     ShowRowStripes := false; ShowColStripes := false; ShowLastColumn := true;
     PivotTableStyleName := "" |}.

End SheetHost.

(** * Definitions of the statements *)

(** Every byte. *)
Definition allBytes : list ascii := map ascii_of_nat (seq 0 256).

(** The lower-case form of an ASCII letter; other bytes are kept. *)
Definition toLower (c : ascii) : ascii :=
  let n := N_of_ascii c in
  if ((65 <=? n) && (n <=? 90))%N then ascii_of_N (n + 32) else c.

(** Simple case folding of a UTF-8 string to a canonical form, as far as
    ASCII is concerned: the letters A-Z become a-z, U+017F (long s) becomes
    [s] and U+212A (Kelvin sign) becomes [k]; every other byte is kept. *)
Fixpoint simpleFold (t : string) : string :=
  match t with
  | EmptyString => EmptyString
  | String c t1 =>
      if Ascii.eqb c "197" then
        match t1 with
        | String c1 t2 =>
            if Ascii.eqb c1 "191" then String "s" (simpleFold t2)
            else String c (simpleFold t1)
        | EmptyString => String c EmptyString
        end
      else if Ascii.eqb c "226" then
        match t1 with
        | String c1 (String c2 t3) =>
            if Ascii.eqb c1 "132" && Ascii.eqb c2 "170"
            then String "k" (simpleFold t3)
            else String c (simpleFold t1)
        | _ => String c (simpleFold t1)
        end
      else String (toLower c) (simpleFold t1)
  end.

(** The data field of the example in the documentation of [AddPivotTable],
    with its aggregation tag in upper case. *)
Definition salesAverage : PivotTableField :=
  {| Compact := false; Data := "Sales"; Name := "Summarize"; Outline := false;
     Subtotal := "AVERAGE"; DefaultSubtotal := false |}.

(** A name is declared in an axis list when some entry has it as [Data]. *)
Definition declared (fields : list PivotTableField) (name : string) : Prop :=
  exists fld, In fld fields /\ Data fld = name.

Definition declaredb (fields : list PivotTableField) (name : string) : bool :=
  existsb (fun fld => String.eqb (Data fld) name) fields.

(** The first entry of an axis list declared for a name. *)
Definition firstDeclared (fields : list PivotTableField) (name : string)
    : option PivotTableField :=
  List.find (fun fld => String.eqb (Data fld) name) fields.

(** The zero value of [xlsxPivotTableDefinition], but for the non-nil
    [PivotFields]. *)
Definition emptyTable : xlsxPivotTableDefinition :=
  {| pt_Name := ""; pt_CacheID := 0; pt_RowGrandTotals := None;
     pt_ColGrandTotals := None; pt_UpdatedVersion := 0;
     pt_MinRefreshableVersion := 0; pt_ShowDrill := None;
     pt_UseAutoFormatting := None; pt_PageOverThenDown := None;
     pt_MergeItem := None; pt_CreatedVersion := 0; pt_CompactData := None;
     pt_ShowError := None; pt_DataCaption := ""; Location := None;
     PivotFields := {| PivotFields_Count := 0; PivotFields_PivotField := [] |};
     RowFields := None; RowItems := None; ColFields := None; ColItems := None;
     PageFields := None; DataFields := None; PivotTableStyleInfo := None |}.

(** Options that declare Month in all four lists. *)
Definition monthEverywhere : PivotTableOption :=
  SheetHost.options [SheetHost.field "Month"] [SheetHost.field "Month"]
    [SheetHost.field "Month"] [SheetHost.field "Month"].

(** Options whose only filter is Region, with a display name, and which
    declare no column. *)
Definition regionFilter : PivotTableOption :=
  SheetHost.options [SheetHost.field "Month"] []
    [SheetHost.field "Sales"]
    [{| Compact := false; Data := "Region"; Name := "Sales region";
        Outline := false; Subtotal := ""; DefaultSubtotal := false |}].

(** The header row of [SheetHost.book]. *)
Definition bookOrder : list string := ["Month"; "Year"; "Type"; "Sales"; "Region"].

(** The first entry that an axis list declares for a name switches the
    default subtotal off. *)
Definition subtotalOff (fields : list PivotTableField) (name : string) : Prop :=
  exists fld, firstDeclared fields name = Some fld /\ DefaultSubtotal fld = false.

(** Options that declare Region both as a filter and as a column. *)
Definition regionFilterAndColumn : PivotTableOption :=
  SheetHost.options [SheetHost.field "Month"] [SheetHost.field "Region"]
    [SheetHost.field "Sales"] [SheetHost.field "Region"].

(** The shared items of a cache field that is itemised, and of one that is
    not. *)
Definition itemised : option xlsxSharedItems :=
  Some {| SharedItems_Count := 1; SharedItems_S := Some {| V := "" |} |}.

Definition notItemised : option xlsxSharedItems :=
  Some {| SharedItems_Count := 0; SharedItems_S := None |}.

(** The position of a name in the field order: the zero-based index of its
    first occurrence, if it occurs. *)
Definition position (orders : list string) (x : string) : option Z :=
  (fun p : nat * string => Z.of_nat (fst p)) <$> list_find (fun n => n = x) orders.

(** The indexes that an axis section refers to. *)
Definition pageFieldIndexes (pt : xlsxPivotTableDefinition) : list Z :=
  from_option (fun pf => map PageField_Fld (PageFields_PageField pf)) [] (PageFields pt).

Definition rowFieldIndexes (pt : xlsxPivotTableDefinition) : list Z :=
  from_option (fun rf => map Field_X (RowFields_Field rf)) [] (RowFields pt).

Definition dataFieldIndexes (pt : xlsxPivotTableDefinition) : list Z :=
  from_option (fun df => map DataField_Fld (DataFields_DataField df)) [] (DataFields pt).

(** Options with a filter that the header row does not have. *)
Definition strayFilter : PivotTableOption :=
  SheetHost.options [SheetHost.field "Month"] [SheetHost.field "Type"]
    [SheetHost.field "Sales"]
    [SheetHost.field "Quarter"; SheetHost.field "Region"].

(** The sentinel column field of the implicit values axis. *)
Definition sentinel : xlsxField := {| Field_X := -2 |}.

(** Options with two data fields, without and with an explicit column. *)
Definition twoDataNoColumn : PivotTableOption :=
  SheetHost.options [SheetHost.field "Month"] []
    [SheetHost.field "Sales"; SheetHost.field "Year"] [SheetHost.field "Region"].

Definition twoDataOneColumn : PivotTableOption :=
  SheetHost.options [SheetHost.field "Month"] [SheetHost.field "Type"]
    [SheetHost.field "Sales"; SheetHost.field "Year"] [SheetHost.field "Region"].

(** The parts of a range string with one sheet separator: the sheet name,
    and the address with its dollar signs removed. *)
Definition sheetOf (rangeStr : string) : string :=
  nth 0 (strings.Split rangeStr "!") "".

Definition addressOf (rangeStr : string) : string :=
  strings.RemoveAll (nth 1 (strings.Split rangeStr "!") "") "$".

(** Two corner pairs that differ by a swap of the column coordinates, of the
    row coordinates, or of both. *)
Definition swappedCorners (c c' : Z * Z * Z * Z) : Prop :=
  let '(x1, y1, x2, y2) := c in
  c' = (x2, y1, x1, y2) \/ c' = (x1, y2, x2, y1) \/ c' = (x2, y2, x1, y1).

(** The canonical box of two corners. *)
Definition canonicalBox (c : Z * Z * Z * Z) : Z * Z * Z * Z :=
  let '(x1, y1, x2, y2) := c in
  (Z.min x1 x2, Z.min y1 y2, Z.max x1 x2, Z.max y1 y2).

(** The package parts whose name contains a path fragment. *)
Definition partsContaining (substr : string) (f : File) : gmap string string :=
  filter (fun p : string * string => strings.Contains (fst p) substr = true) (Pkg f).

(** The cache IDs of the workbook registry. *)
Definition registryIDs (f : File) : list Z :=
  from_option (fun caches => map CacheID (PivotCache caches)) [] (PivotCaches (WorkBook f)).

(** [m] is the maximum of a non-empty list. *)
Definition IsMax (m : Z) (l : list Z) : Prop :=
  In m l /\ forall x, In x l -> x <= m.

(** [SheetHost.book] with a workbook registry of the given cache IDs. *)
Definition bookWithRegistry (ids : list Z) : File :=
  set_WorkBook
    {| PivotCaches :=
         Some {| PivotCache := map (fun id => {| CacheID := id; RID := "rId1" |}) ids |} |}
    SheetHost.book.

(** [SheetHost.book] with parts stored under the given names. *)
Definition bookWithParts (names : list string) : File :=
  fold_left (fun f name => SheetHost.saveFileList f name "") names SheetHost.book.

(** The options of the example in the documentation of [AddPivotTable]. *)
Definition documented : PivotTableOption :=
  SheetHost.options
    [{| Compact := false; Data := "Month"; Name := ""; Outline := false;
        Subtotal := ""; DefaultSubtotal := true |};
     SheetHost.field "Year"]
    [{| Compact := false; Data := "Type"; Name := ""; Outline := false;
        Subtotal := ""; DefaultSubtotal := true |}]
    [{| Compact := false; Data := "Sales"; Name := "Summarize"; Outline := false;
        Subtotal := "Sum"; DefaultSubtotal := false |}]
    [SheetHost.field "Region"].

(** The documented options placed on a sheet that the workbook lacks. *)
Definition placedOnMissingSheet : PivotTableOption :=
  {| pivotTableSheetName := "";
     DataRange := "Sheet1!$A$1:$E$31";
     PivotTableRange := "Sheet9!$G$2:$M$34";
     Rows := Rows documented; Columns := Columns documented;
     Data_ := Data_ documented; Filter := Filter documented;
     RowGrandTotals := true; ColGrandTotals := true; ShowDrill := true;
     UseAutoFormatting := false; PageOverThenDown := false; MergeItem := false;
     CompactData := false; ShowError := false;
     ShowRowHeaders := true; ShowColHeaders := true;
     ShowRowStripes := false; ShowColStripes := false; ShowLastColumn := true;
     PivotTableStyleName := "" |}.

(** The checks of the validation stage: [err] is the error of the first
    check that fails on the document [f] and the options [opts]. *)
Definition validationFailure {host : Host} (f : File)
    (opts : option PivotTableOption) (err : error) : Prop :=
  (opts = None /\ err = ErrParameterRequired) \/
  (exists o e,
     opts = Some o /\ adjustRange (PivotTableRange o) = Err e /\
     err = ErrRangeParsing "PivotTableRange" e) \/
  (exists o sheet box e,
     opts = Some o /\ adjustRange (PivotTableRange o) = Ok (sheet, box) /\
     adjustRange (resolveDataRange f (set_pivotTableSheetName sheet o)) = Err e /\
     err = ErrRangeParsing "DataRange" e) \/
  (exists o sheet box dataSheet dataBox,
     opts = Some o /\ adjustRange (PivotTableRange o) = Ok (sheet, box) /\
     adjustRange (resolveDataRange f (set_pivotTableSheetName sheet o))
     = Ok (dataSheet, dataBox) /\
     workSheetReader f dataSheet = Some err) \/
  (exists o sheet box dataSheet dataBox path,
     opts = Some o /\ adjustRange (PivotTableRange o) = Ok (sheet, box) /\
     adjustRange (resolveDataRange f (set_pivotTableSheetName sheet o))
     = Ok (dataSheet, dataBox) /\
     workSheetReader f dataSheet = None /\
     getSheetXMLPath f sheet = (path, false) /\
     err = ErrSheetNotExist sheet).

(** The name that [getPivotTableFieldsName] prepares from a display name:
    its first [MaxFieldLength] bytes when it is longer than that. *)
Definition truncateName (name : string) : string :=
  if (MaxFieldLength <? String.length name)%nat
  then String.substring 0 MaxFieldLength name
  else name.

(** [fld], at index [i], is the first entry of an axis list whose [Data] is
    the name. *)
Definition firstAt (fields : list PivotTableField) (name : string) (i : nat)
    (fld : PivotTableField) : Prop :=
  fields !! i = Some fld /\ Data fld = name /\
  forall (j : nat) (fld' : PivotTableField),
    (j < i)%nat -> fields !! j = Some fld' -> Data fld' <> name.

(** Two Year entries with different display names, after a Month entry. *)
Definition yearTwice : list PivotTableField :=
  [SheetHost.field "Month";
   {| Compact := true; Data := "Year"; Name := "Fiscal year"; Outline := false;
      Subtotal := "Max"; DefaultSubtotal := true |};
   {| Compact := false; Data := "Year"; Name := "Calendar year"; Outline := true;
      Subtotal := "Min"; DefaultSubtotal := false |}].

(** A field whose display name has 300 bytes. *)
Definition longName : PivotTableField :=
  {| Compact := false; Data := "Sales"; Name := String.concat "" (repeat "abc" 100);
     Outline := false; Subtotal := ""; DefaultSubtotal := false |}.

(** Data fields with the canonical tags that [documented]'s tags and an
    unknown tag normalise to. *)
Definition canonicalTags : list PivotTableField :=
  [{| Compact := false; Data := "Sales"; Name := ""; Outline := false;
      Subtotal := "sum"; DefaultSubtotal := false |};
   {| Compact := false; Data := "Year"; Name := ""; Outline := false;
      Subtotal := "countNums"; DefaultSubtotal := false |}].

Definition rawTags : list PivotTableField :=
  [{| Compact := false; Data := "Sales"; Name := ""; Outline := false;
      Subtotal := "median"; DefaultSubtotal := false |};
   {| Compact := false; Data := "Year"; Name := ""; Outline := false;
      Subtotal := "COUNTNUMS"; DefaultSubtotal := false |}].

(** The name of the [i]-th header cell of a data range whose first corner
    is column [c0], row [c1]. *)
Definition headerCell {host : Host} (c0 c1 : Z) (i : nat) : string :=
  fst (CoordinatesToCellName (c0 + Z.of_nat i) c1).

(** [SheetHost.book] with the data of a second sheet that the workbook does
    not hold: a data range on it passes [adjustRange] and fails at the first
    cell. *)
Definition onMissingDataSheet : PivotTableOption :=
  {| pivotTableSheetName := "Sheet1";
     DataRange := "Sheet2!$A$1:$E$31";
     PivotTableRange := "Sheet1!$G$2:$M$34";
     Rows := Rows documented; Columns := Columns documented;
     Data_ := Data_ documented; Filter := Filter documented;
     RowGrandTotals := true; ColGrandTotals := true; ShowDrill := true;
     UseAutoFormatting := false; PageOverThenDown := false; MergeItem := false;
     CompactData := false; ShowError := false;
     ShowRowHeaders := true; ShowColHeaders := true;
     ShowRowStripes := false; ShowColStripes := false; ShowLastColumn := true;
     PivotTableStyleName := "" |}.

(** The entries of the sections of a table definition; an absent section
    has none. *)
Definition pivotFieldsOf (pt : xlsxPivotTableDefinition) : list xlsxPivotField :=
  PivotFields_PivotField (PivotFields pt).

Definition rowFieldsOf (pt : xlsxPivotTableDefinition) : list xlsxField :=
  from_option RowFields_Field [] (RowFields pt).

Definition colFieldsOf (pt : xlsxPivotTableDefinition) : list xlsxField :=
  from_option ColFields_Field [] (ColFields pt).

Definition pageFieldsOf (pt : xlsxPivotTableDefinition) : list xlsxPageField :=
  from_option PageFields_PageField [] (PageFields pt).

Definition dataFieldsOf (pt : xlsxPivotTableDefinition) : list xlsxDataField :=
  from_option DataFields_DataField [] (DataFields pt).

(** The sections that the builders leave for an index list, on a table that
    had none: absent for the empty list, and otherwise with the number of
    entries as count. *)
Definition rowSection (index : list Z) : option xlsxRowFields :=
  match index with
  | [] => None
  | _ => Some {| RowFields_Count := Z.of_nat (length index);
                 RowFields_Field := map Build_xlsxField index |}
  end.

Definition pageSection (pageFieldsName : list string) (index : list Z)
    : option xlsxPageFields :=
  match index with
  | [] => None
  | _ =>
      Some {| PageFields_Count := Z.of_nat (length index);
              PageFields_PageField :=
                imap (fun k p => {| PageField_Name := default "" (pageFieldsName !! k);
                                    PageField_Fld := p |}) index |}
  end.

Definition dataSection (dataFieldsName dataFieldsSubtotals : list string)
    (index : list Z) : option xlsxDataFields :=
  match index with
  | [] => None
  | _ =>
      Some {| DataFields_Count := Z.of_nat (length index);
              DataFields_DataField :=
                imap (fun k p =>
                        {| DataField_Name := default "" (dataFieldsName !! k);
                           DataField_Fld := p;
                           DataField_Subtotal :=
                             default "" (dataFieldsSubtotals !! k) |}) index |}
  end.

(** The index list of an axis list over a header row that was read. *)
Definition indexOf (orders : list string) (fields : list PivotTableField) : list Z :=
  omap (fun fld => position orders (Data fld)) fields.

(** Data fields with display names and tags, the first of which is not a
    header name. *)
Definition strayData : PivotTableOption :=
  SheetHost.options [SheetHost.field "Month"] []
    [{| Compact := false; Data := "Profit"; Name := "Total profit"; Outline := false;
        Subtotal := "Max"; DefaultSubtotal := false |};
     {| Compact := false; Data := "Sales"; Name := "Average sales"; Outline := false;
        Subtotal := "Average"; DefaultSubtotal := false |}]
    [{| Compact := false; Data := "Quarter"; Name := "By quarter"; Outline := false;
        Subtotal := ""; DefaultSubtotal := false |};
     {| Compact := false; Data := "Region"; Name := "By region"; Outline := false;
        Subtotal := ""; DefaultSubtotal := false |}].

(** The item of a row or column pivot field: the [default] item when the
    default subtotal is on, the index item of [x] otherwise. *)
Definition itemOf (defaultSubtotal : bool) (x : Z) : xlsxItem :=
  if defaultSubtotal then {| Item_T := "default"; Item_X := None |}
  else {| Item_T := ""; Item_X := Some x |}.

(** The pivot field at the index that an axis section holds. *)
Definition referred (pt : xlsxPivotTableDefinition) (index : Z) : option xlsxPivotField :=
  if index <? 0 then None else pivotFieldsOf pt !! Z.to_nat index.

(** A coordinate parser that tells two kinds of failure apart: an address
    without two cell references is reported as [ErrParameterInvalid], and a
    cell reference that is not a cell name with the error of the conversion
    of that cell.  [adjustRange] puts no condition on the error of its
    parser. *)
Definition cellNameParser (ref : string) : result (Z * Z * Z * Z) :=
  match strings.Split (strings.RemoveAll ref "$") ":" with
  | first :: last :: _ =>
      match SheetHost.parseCell first 0, SheetHost.parseCell last 0 with
      | Some (x1, y1), Some (x2, y2) => Ok (x1, y1, x2, y2)
      | None, _ => Err (ErrCollaborator ("cannot convert cell to coordinates: " +:+ first))
      | _, None => Err (ErrCollaborator ("cannot convert cell to coordinates: " +:+ last))
      end
  | _ => Err ErrParameterInvalid
  end.

(** [SheetHost.host] with [cellNameParser] as its coordinate parser. *)
Definition cellNameHost : Host :=
  Build_Host
    cellNameParser
    SheetHost.CoordinatesToCellName
    SheetHost.GetCellValue
    SheetHost.getDefinedNameRefTo
    SheetHost.workSheetReader
    SheetHost.getSheetXMLPath
    (fun _ => "xl/_rels/workbook.xml.rels")
    SheetHost.addRels
    SheetHost.addContentTypePart
    SheetHost.saveFileList
    (fun _ => ("<pivotCacheDefinition/>", None))
    (fun _ => ("<pivotTableDefinition/>", None))
    3
    "pivotCacheDefinition"
    "pivotTable".

(** Options that declare Region as a filter and as a column, under two
    display names. *)
Definition regionNamedTwice : PivotTableOption :=
  SheetHost.options [SheetHost.field "Month"]
    [{| Compact := false; Data := "Region"; Name := "Col region";
        Outline := false; Subtotal := ""; DefaultSubtotal := false |}]
    [SheetHost.field "Sales"]
    [{| Compact := false; Data := "Region"; Name := "Sales region";
        Outline := false; Subtotal := ""; DefaultSubtotal := false |}].

(** Whether the data range of the options is a defined name of the
    document. *)
Definition isDefinedName {host : Host} (f : File) (opts : PivotTableOption) : bool :=
  negb (String.eqb (getDefinedNameRefTo f (DataRange opts) (pivotTableSheetName opts)) "").

(** The validation stage passes on the document [f] and the options [opts0],
    with the placement sheet [sheet] at [path]. *)
Definition validated {host : Host} (f : File) (opts0 : PivotTableOption)
    (sheet path : string) : Prop :=
  exists box dataSheet dataBox,
    adjustRange (PivotTableRange opts0) = Ok (sheet, box) /\
    adjustRange (resolveDataRange f (set_pivotTableSheetName sheet opts0))
    = Ok (dataSheet, dataBox) /\
    workSheetReader f dataSheet = None /\
    getSheetXMLPath f sheet = (path, true).

(** * Properties *)

(** ** Bytes *)

Module Bytes.

Lemma allBytes_complete (a : ascii) : In a allBytes.
Proof.
  unfold allBytes. rewrite <- (ascii_nat_embedding a).
  apply in_map, in_seq. pose proof (nat_ascii_bounded a). lia.
Qed.

Lemma forall_byte (P : ascii -> bool) :
  forallb P allBytes = true -> forall a, P a = true.
Proof.
  intros HP a. rewrite forallb_forall in HP. apply HP, allBytes_complete.
Qed.

Lemma forall_byte2 (P : ascii -> ascii -> bool) :
  forallb (fun a => forallb (P a) allBytes) allBytes = true ->
  forall a b, P a b = true.
Proof.
  intros HP a b. apply forall_byte. revert a. apply forall_byte. exact HP.
Qed.

End Bytes.

(** ** Case folding *)

Section CaseFolding.

Import strings.

Lemma foldEqASCII_toLower (a b : ascii) :
  isASCII a = true -> isASCII b = true ->
  foldEqASCII a b = Ascii.eqb (toLower a) (toLower b).
Proof.
  intros Ha Hb.
  pose proof (Bytes.forall_byte2
    (fun a b => implb (isASCII a && isASCII b)
                  (Bool.eqb (foldEqASCII a b) (Ascii.eqb (toLower a) (toLower b))))
    ltac:(vm_compute; reflexivity) a b) as H.
  cbv beta in H. rewrite Ha, Hb in H. simpl in H. apply eqb_prop in H. exact H.
Qed.

Lemma isLetter_s (a : ascii) : isLetter "s" "S" a = Ascii.eqb (toLower a) "s".
Proof.
  exact (eqb_prop _ _ (Bytes.forall_byte
    (fun a => Bool.eqb (isLetter "s" "S" a) (Ascii.eqb (toLower a) "s"))
    ltac:(vm_compute; reflexivity) a)).
Qed.

Lemma isLetter_k (a : ascii) : isLetter "k" "K" a = Ascii.eqb (toLower a) "k".
Proof.
  exact (eqb_prop _ _ (Bytes.forall_byte
    (fun a => Bool.eqb (isLetter "k" "K" a) (Ascii.eqb (toLower a) "k"))
    ltac:(vm_compute; reflexivity) a)).
Qed.

Lemma isASCII_not_lead (a : ascii) :
  isASCII a = true -> Ascii.eqb a "197" = false /\ Ascii.eqb a "226" = false.
Proof.
  intros Ha.
  pose proof (Bytes.forall_byte
    (fun a => implb (isASCII a)
                (negb (Ascii.eqb a "197") && negb (Ascii.eqb a "226")))
    ltac:(vm_compute; reflexivity) a) as H.
  cbv beta in H. rewrite Ha in H. simpl in H. apply andb_true_iff in H as [H1 H2].
  split; apply negb_true_iff; assumption.
Qed.

Lemma toLower_not_ASCII (a c : ascii) :
  isASCII a = true -> isASCII c = false -> Ascii.eqb c (toLower a) = false.
Proof.
  intros Ha Hc.
  pose proof (Bytes.forall_byte2
    (fun a c => implb (isASCII a && negb (isASCII c))
                  (negb (Ascii.eqb c (toLower a))))
    ltac:(vm_compute; reflexivity) a c) as H.
  cbv beta in H. rewrite Ha, Hc in H. simpl in H. apply negb_true_iff in H. exact H.
Qed.

Lemma toLower_ASCII (a c : ascii) :
  isASCII a = true -> isASCII c = false -> Ascii.eqb (toLower c) (toLower a) = false.
Proof.
  intros Ha Hc.
  pose proof (Bytes.forall_byte2
    (fun a c => implb (isASCII a && negb (isASCII c))
                  (negb (Ascii.eqb (toLower c) (toLower a))))
    ltac:(vm_compute; reflexivity) a c) as H.
  cbv beta in H. rewrite Ha, Hc in H. simpl in H. apply negb_true_iff in H. exact H.
Qed.

Lemma simpleFold_ASCII_cons (a : ascii) (s : string) :
  isASCII a = true -> simpleFold (String a s) = String (toLower a) (simpleFold s).
Proof.
  intros Ha. destruct (isASCII_not_lead a Ha) as [H1 H2].
  simpl. rewrite H1, H2. reflexivity.
Qed.

Lemma String_eqb_cons (a b : ascii) (s t : string) :
  String.eqb (String a s) (String b t) = Ascii.eqb a b && String.eqb s t.
Proof.
  simpl. destruct (Ascii.eqb a b); reflexivity.
Qed.

End CaseFolding.

Section EqualFoldSpec.

Import strings.

Lemma simpleFold_cons (c : ascii) (t1 : string) :
  simpleFold (String c t1) =
    if Ascii.eqb c "197" then
      match t1 with
      | String c1 t2 =>
          if Ascii.eqb c1 "191" then String "s" (simpleFold t2)
          else String c (simpleFold t1)
      | EmptyString => String c EmptyString
      end
    else if Ascii.eqb c "226" then
      match t1 with
      | String c1 (String c2 t3) =>
          if Ascii.eqb c1 "132" && Ascii.eqb c2 "170"
          then String "k" (simpleFold t3)
          else String c (simpleFold t1)
      | _ => String c (simpleFold t1)
      end
    else String (toLower c) (simpleFold t1).
Proof. reflexivity. Qed.

Lemma EqualFold_cons (sr t0 : ascii) (s' t1 : string) :
  EqualFold (String sr s') (String t0 t1) =
    if isASCII t0 then foldEqASCII sr t0 && EqualFold s' t1
    else if Ascii.eqb t0 "197" then
      match t1 with
      | String t1h t2 =>
          Ascii.eqb t1h "191" && isLetter "s" "S" sr && EqualFold s' t2
      | EmptyString => false
      end
    else if Ascii.eqb t0 "226" then
      match t1 with
      | String t1h (String t2h t3) =>
          Ascii.eqb t1h "132" && Ascii.eqb t2h "170"
          && isLetter "k" "K" sr && EqualFold s' t3
      | _ => false
      end
    else false.
Proof. reflexivity. Qed.

Lemma simpleFold_cons_nonempty (c : ascii) (t1 : string) :
  String.eqb (simpleFold (String c t1)) EmptyString = false.
Proof.
  rewrite simpleFold_cons.
  repeat match goal with
         | |- context [if ?b then _ else _] => destruct b
         | |- context [match ?t with EmptyString => _ | String _ _ => _ end] =>
             destruct t
         end; reflexivity.
Qed.

Lemma Ascii_eqb_sym (a b : ascii) : Ascii.eqb a b = Ascii.eqb b a.
Proof.
  destruct (Ascii.eqb_spec a b); destruct (Ascii.eqb_spec b a); congruence.
Qed.

Lemma head_mismatch (a t0 : ascii) (u v : string) :
  isASCII a = true -> isASCII t0 = false ->
  String.eqb (String t0 u) (String (toLower a) v) = false.
Proof.
  intros Ha Ht0. rewrite String_eqb_cons, (toLower_not_ASCII a t0 Ha Ht0).
  reflexivity.
Qed.

(** On an ASCII first argument [strings.EqualFold] is equality of the
    folded forms. *)
Lemma EqualFold_simpleFold (s t : string) :
  allASCII s = true ->
  EqualFold s t = String.eqb (simpleFold t) (simpleFold s).
Proof.
  revert t. induction s as [|a s IH]; intros t Hs.
  - destruct t as [|c t1]; [reflexivity|].
    change (simpleFold EmptyString) with EmptyString.
    rewrite simpleFold_cons_nonempty. reflexivity.
  - unfold allASCII in Hs. simpl in Hs. apply andb_true_iff in Hs as [Ha Hs].
    specialize (IH) as IH'. rewrite (simpleFold_ASCII_cons a s Ha).
    destruct t as [|t0 t1]; [reflexivity|].
    rewrite EqualFold_cons.
    destruct (isASCII t0) eqn:Ht0.
    { rewrite (simpleFold_ASCII_cons t0 t1 Ht0), String_eqb_cons.
      rewrite (foldEqASCII_toLower a t0 Ha Ht0), (IH t1 Hs).
      rewrite (Ascii_eqb_sym (toLower a) (toLower t0)). reflexivity. }
    rewrite simpleFold_cons.
    destruct (Ascii.eqb t0 "197") eqn:E1.
    { destruct t1 as [|t1h t2].
      - symmetry. apply head_mismatch; assumption.
      - destruct (Ascii.eqb t1h "191") eqn:E2.
        + rewrite String_eqb_cons, isLetter_s, (IH t2 Hs).
          rewrite (Ascii_eqb_sym (toLower a) "s"). reflexivity.
        + symmetry. apply head_mismatch; assumption. }
    destruct (Ascii.eqb t0 "226") eqn:E3.
    { destruct t1 as [|t1h [|t2h t3]].
      - symmetry. apply head_mismatch; assumption.
      - symmetry. apply head_mismatch; assumption.
      - destruct (Ascii.eqb t1h "132" && Ascii.eqb t2h "170") eqn:E4.
        + rewrite String_eqb_cons, isLetter_k, (IH t3 Hs).
          rewrite (Ascii_eqb_sym (toLower a) "k"). reflexivity.
        + symmetry. apply head_mismatch; assumption. }
    rewrite String_eqb_cons, (toLower_ASCII a t0 Ha Ht0). reflexivity.
Qed.

Lemma enums_ASCII : forallb allASCII enums = true.
Proof. vm_compute. reflexivity. Qed.

Lemma enum_ASCII (enum : string) : In enum enums -> allASCII enum = true.
Proof.
  intros Hin. pose proof enums_ASCII as H. rewrite forallb_forall in H.
  apply H, Hin.
Qed.

(** No two members of the enumeration fold to the same form. *)
Lemma enums_fold_injective (e1 e2 : string) :
  In e1 enums -> In e2 enums -> simpleFold e1 = simpleFold e2 -> e1 = e2.
Proof.
  intros H1 H2.
  unfold enums in H1, H2. simpl in H1, H2.
  repeat (destruct H1 as [<- | H1]; [|]); try contradiction;
    repeat (destruct H2 as [<- | H2]; [|]); try contradiction;
    vm_compute; intros E; first [reflexivity | discriminate E].
Qed.

Lemma inEnums_match (l : list string) (val enum : string) :
  In enum l ->
  (forall e, In e l -> EqualFold e val = true -> e = enum) ->
  EqualFold enum val = true ->
  inEnums l val = enum.
Proof.
  induction l as [|e l IH]; intros Hin Huniq Hm; [contradiction|].
  simpl. destruct (EqualFold e val) eqn:He.
  - apply Huniq; [left; reflexivity | exact He].
  - destruct Hin as [-> | Hin]; [congruence|].
    apply IH; [exact Hin | | exact Hm].
    intros e' He' Hv. apply Huniq; [right; exact He' | exact Hv].
Qed.

Lemma inEnums_no_match (l : list string) (val : string) :
  (forall e, In e l -> EqualFold e val = false) -> inEnums l val = "sum".
Proof.
  induction l as [|e l IH]; intros Hno; [reflexivity|].
  simpl. rewrite (Hno e (or_introl eq_refl)).
  apply IH. intros e' He'. apply Hno. right. exact He'.
Qed.

Lemma fillFrom_app (g : PivotTableField -> string) (fields : list PivotTableField)
    (pre : list string) :
  fillFrom g (length pre) fields (pre ++ replicate (length fields) "")
  = pre ++ map g fields.
Proof.
  revert pre. induction fields as [|fld rest IH]; intros pre; [reflexivity|].
  cbn [fillFrom length replicate map].
  replace (length pre) with (length pre + 0)%nat at 2 by lia.
  rewrite insert_app_r. cbn [insert list_insert].
  change (pre ++ g fld :: replicate (length rest) "")
    with (pre ++ [g fld] ++ replicate (length rest) "").
  rewrite app_assoc.
  replace (S (length pre)) with (length (pre ++ [g fld]))
    by (rewrite length_app; simpl; lia).
  rewrite IH, <- app_assoc. reflexivity.
Qed.

Lemma getPivotTableFieldsSubtotal_map (fields : list PivotTableField) :
  getPivotTableFieldsSubtotal fields
  = map (fun fld => inEnums enums (Subtotal fld)) fields.
Proof.
  unfold getPivotTableFieldsSubtotal.
  exact (fillFrom_app _ fields []).
Qed.

Lemma getPivotTableFieldsName_map (fields : list PivotTableField) :
  getPivotTableFieldsName fields
  = map (fun fld =>
           if (MaxFieldLength <? String.length (Name fld))%nat
           then String.substring 0 MaxFieldLength (Name fld)
           else Name fld) fields.
Proof.
  unfold getPivotTableFieldsName.
  exact (fillFrom_app _ fields []).
Qed.

End EqualFoldSpec.

(** ** Aggregation tags *)

Example inEnums_AVERAGE : inEnums enums "AVERAGE" = "average".
Proof. reflexivity. Qed.

Example inEnums_bogus : inEnums enums "bogus" = "sum".
Proof. reflexivity. Qed.

Example inEnums_stdDevP : inEnums enums "STDDEVP" = "stdDevp".
Proof. reflexivity. Qed.

(** A tag written with U+017F, the long s, for its first letter. *)
Example inEnums_long_s :
  inEnums enums (String "197" (String "191" "TDDEV")) = "stdDev".
Proof. reflexivity. Qed.

Example inEnums_empty : inEnums enums "" = "sum".
Proof. reflexivity. Qed.

(** C7.  For every data-field declaration, the aggregation tag is compared
    with the members of the enumeration average, count, countNums, max, min,
    product, stdDev, stdDevp, sum, var, varp without regard to case: the
    result is the member, in its canonical spelling, whose folded form is
    that of the tag; a tag that matches no member, the empty tag among them,
    gives [sum]. *)
Theorem subtotal_normalized (fields : list PivotTableField) (idx : nat)
    (fld : PivotTableField) :
  fields !! idx = Some fld ->
  exists tag,
    getPivotTableFieldsSubtotal fields !! idx = Some tag /\
    In tag enums /\
    (forall enum, In enum enums ->
       simpleFold (Subtotal fld) = simpleFold enum -> tag = enum) /\
    ((forall enum, In enum enums ->
        simpleFold (Subtotal fld) <> simpleFold enum) -> tag = "sum") /\
    (Subtotal fld = "" -> tag = "sum").
Proof.
  intros Hfld. exists (inEnums enums (Subtotal fld)).
  rewrite getPivotTableFieldsSubtotal_map, list_lookup_fmap, Hfld.
  split; [reflexivity|].
  assert (Hmatch : forall enum, In enum enums ->
            simpleFold (Subtotal fld) = simpleFold enum ->
            inEnums enums (Subtotal fld) = enum).
  { intros enum Hin Hfold. apply inEnums_match; [exact Hin| |].
    - intros e He Hm. rewrite (EqualFold_simpleFold e _ (enum_ASCII e He)) in Hm.
      apply String.eqb_eq in Hm. apply enums_fold_injective; congruence.
    - rewrite (EqualFold_simpleFold enum _ (enum_ASCII enum Hin)).
      apply String.eqb_eq. exact Hfold. }
  assert (Hnone : (forall enum, In enum enums ->
                     simpleFold (Subtotal fld) <> simpleFold enum) ->
                  inEnums enums (Subtotal fld) = "sum").
  { intros Hno. apply inEnums_no_match. intros e He.
    rewrite (EqualFold_simpleFold e _ (enum_ASCII e He)).
    apply String.eqb_neq. apply Hno. exact He. }
  split; [|split; [exact Hmatch | split; [exact Hnone|]]].
  - destruct (existsb (fun e => strings.EqualFold e (Subtotal fld)) enums) eqn:Hex.
    + apply existsb_exists in Hex as (e & He & Hm).
      rewrite (Hmatch e He); [exact He|].
      rewrite (EqualFold_simpleFold e _ (enum_ASCII e He)) in Hm.
      apply String.eqb_eq in Hm. exact Hm.
    + rewrite inEnums_no_match; [vm_compute; tauto|].
      intros e He. destruct (strings.EqualFold e (Subtotal fld)) eqn:Hm; [|reflexivity].
      assert (existsb (fun e => strings.EqualFold e (Subtotal fld)) enums = true)
        by (apply existsb_exists; eauto).
      congruence.
  - intros ->. reflexivity.
Qed.

Lemma subtotal_normalized_witness :
  [salesAverage] !! O = Some salesAverage /\
  exists tag,
    getPivotTableFieldsSubtotal [salesAverage] !! O = Some tag /\
    In tag enums /\
    (forall enum, In enum enums ->
       simpleFold (Subtotal salesAverage) = simpleFold enum -> tag = enum) /\
    ((forall enum, In enum enums ->
        simpleFold (Subtotal salesAverage) <> simpleFold enum) -> tag = "sum") /\
    (Subtotal salesAverage = "" -> tag = "sum").
Proof.
  split; [reflexivity|].
  apply (subtotal_normalized [salesAverage] O salesAverage).
  reflexivity.
Defined.

(** ** Membership in an axis list *)

Lemma declaredb_spec (fields : list PivotTableField) (name : string) :
  declaredb fields name = true <-> declared fields name.
Proof.
  unfold declaredb, declared. rewrite existsb_exists.
  split; intros (fld & Hin & H); exists fld; split; try assumption;
    apply String.eqb_eq; assumption.
Qed.

Lemma not_declared (fields : list PivotTableField) (name : string) :
  declaredb fields name = false <-> ~ declared fields name.
Proof.
  rewrite <- declaredb_spec. destruct (declaredb fields name); split; congruence.
Qed.

Lemma inPivotTableField_from_declaredb (a : list PivotTableField) (x : string) (idx : Z) :
  0 <= idx ->
  negb (inPivotTableField_from idx a x =? -1) = declaredb a x.
Proof.
  revert idx. induction a as [|n a IH]; intros idx Hidx; [reflexivity|].
  simpl. rewrite (String.eqb_sym x (Data n)).
  destruct (String.eqb (Data n) x).
  - simpl. destruct (Z.eqb_spec idx (-1)); [lia | reflexivity].
  - simpl. apply IH. lia.
Qed.

Lemma inPivotTableField_declaredb (a : list PivotTableField) (x : string) :
  negb (inPivotTableField a x =? -1) = declaredb a x.
Proof. apply inPivotTableField_from_declaredb. lia. Qed.

Lemma getPivotTableFieldOptions_first (name : string) (fields : list PivotTableField) :
  getPivotTableFieldOptions name fields
  = match firstDeclared fields name with
    | Some fld => (fld, true)
    | None => (zeroField, false)
    end.
Proof.
  induction fields as [|field rest IH]; [reflexivity|].
  unfold firstDeclared in *. simpl.
  destruct (String.eqb (Data field) name); [reflexivity | exact IH].
Qed.

Lemma declaredb_first (fields : list PivotTableField) (name : string) :
  declaredb fields name
  = match firstDeclared fields name with Some _ => true | None => false end.
Proof.
  unfold declaredb, firstDeclared.
  induction fields as [|field rest IH]; [reflexivity|].
  simpl. destruct (String.eqb (Data field) name); [reflexivity | exact IH].
Qed.

Lemma firstDeclared_None (fields : list PivotTableField) (name : string) :
  firstDeclared fields name = None <-> ~ declared fields name.
Proof.
  rewrite <- not_declared. unfold firstDeclared, declaredb.
  induction fields as [|field rest IH]; [simpl; tauto|].
  simpl. destruct (String.eqb (Data field) name); simpl; [split; discriminate|exact IH].
Qed.

Lemma getPivotTableFieldName_not_declared (name : string) (fields : list PivotTableField) :
  ~ declared fields name -> getPivotTableFieldName name fields = "".
Proof.
  intros Hno. unfold getPivotTableFieldName.
  generalize (getPivotTableFieldsName fields) as fieldsName.
  generalize O as idx.
  induction fields as [|field rest IH]; intros idx fieldsName; [reflexivity|].
  simpl. destruct (String.eqb_spec (Data field) name) as [E|E].
  - exfalso. apply Hno. exists field. split; [left; reflexivity | exact E].
  - apply IH. intros (fld & Hin & Hd). apply Hno. exists fld. split; [right|]; assumption.
Qed.

(** The prepared name at an index is the display name of the entry at that
    index, cut to [MaxFieldLength]. *)
Lemma fillFrom_lookup (g : PivotTableField -> string) (fields : list PivotTableField)
    (idx : nat) (field : list string) (k : nat) :
  (idx + length fields <= length field)%nat ->
  fillFrom g idx fields field !! k
  = if (idx <=? k)%nat && (k <? idx + length fields)%nat
    then g <$> fields !! (k - idx)%nat
    else field !! k.
Proof.
  revert idx field. induction fields as [|fld rest IH]; intros idx field Hlen.
  - simpl. rewrite Nat.add_0_r.
    destruct (Nat.leb_spec idx k); destruct (Nat.ltb_spec k idx); simpl;
      try reflexivity; lia.
  - cbn [fillFrom length] in *. rewrite IH by (rewrite length_insert; lia).
    destruct (Nat.leb_spec (S idx) k); destruct (Nat.ltb_spec k (S idx + length rest));
      destruct (Nat.leb_spec idx k); destruct (Nat.ltb_spec k (idx + S (length rest)));
      cbn [andb]; try lia.
    + replace (k - idx)%nat with (S (k - S idx)) by lia. reflexivity.
    + rewrite list_lookup_insert_ne by lia. reflexivity.
    + assert (k = idx) as -> by lia.
      rewrite list_lookup_insert_eq by lia. rewrite Nat.sub_diag. reflexivity.
    + rewrite list_lookup_insert_ne by lia. reflexivity.
Qed.

Lemma getPivotTableFieldsName_lookup (fields : list PivotTableField) (k : nat) :
  getPivotTableFieldsName fields !! k
  = (fun fld => truncateName (Name fld)) <$> fields !! k.
Proof.
  unfold getPivotTableFieldsName.
  rewrite fillFrom_lookup by (rewrite length_replicate; lia).
  cbn [Nat.leb andb Nat.add]. rewrite Nat.sub_0_r.
  destruct (Nat.ltb_spec k (length fields)) as [Hk|Hk]; [reflexivity|].
  rewrite (lookup_ge_None_2 fields k) by lia.
  apply lookup_ge_None_2. rewrite length_replicate. lia.
Qed.

(** The name that [getPivotTableFieldName] returns for a declared name is
    the display name of its first entry, cut to [MaxFieldLength]. *)
Lemma getPivotTableFieldName_firstDeclared (name : string)
    (fields : list PivotTableField) (fld : PivotTableField) :
  firstDeclared fields name = Some fld ->
  getPivotTableFieldName name fields = truncateName (Name fld).
Proof.
  unfold getPivotTableFieldName, firstDeclared.
  assert (Hfrom : forall (all rest : list PivotTableField) (idx : nat),
            (forall k, rest !! k = all !! (idx + k)%nat) ->
            List.find (fun fld => String.eqb (Data fld) name) rest = Some fld ->
            getPivotTableFieldName_from (getPivotTableFieldsName all) idx rest name
            = truncateName (Name fld)).
  { intros all rest. induction rest as [|field rest IH]; intros idx Hrest;
      [discriminate|].
    cbn [List.find getPivotTableFieldName_from].
    destruct (String.eqb (Data field) name).
    - intros [= ->]. rewrite getPivotTableFieldsName_lookup.
      rewrite <- (Nat.add_0_r idx), <- Hrest. reflexivity.
    - apply IH. intros k.
      replace (S idx + k)%nat with (idx + S k)%nat by lia. exact (Hrest (S k)). }
  apply Hfrom. intros k. reflexivity.
Qed.

(** ** Axis classification *)

Section Classification.

Context {host : Host}.

Lemma fold_appendPivotField (g : string -> xlsxPivotField) (order : list string)
    (pt : xlsxPivotTableDefinition) :
  PivotFields_PivotField
    (PivotFields (fold_left (fun pt name => appendPivotField (g name) pt) order pt))
  = PivotFields_PivotField (PivotFields pt) ++ map g order.
Proof.
  revert pt. induction order as [|name order IH]; intros pt; simpl.
  - rewrite app_nil_r. reflexivity.
  - rewrite IH. simpl. rewrite <- app_assoc. reflexivity.
Qed.

Lemma addPivotFields_fields (f : File) (pt : xlsxPivotTableDefinition)
    (opts : PivotTableOption) (order : list string) :
  getPivotFieldsOrder f opts = (order, None) ->
  PivotFields_PivotField (PivotFields (fst (addPivotFields f pt opts)))
  = PivotFields_PivotField (PivotFields pt) ++ map (addPivotFields_field opts 0) order.
Proof.
  intros Horder. unfold addPivotFields. rewrite Horder. simpl.
  apply fold_appendPivotField.
Qed.

Lemma addPivotFields_lookup (f : File) (pt : xlsxPivotTableDefinition)
    (opts : PivotTableOption) (order : list string) (i : nat) (name : string) :
  getPivotFieldsOrder f opts = (order, None) ->
  order !! i = Some name ->
  PivotFields_PivotField (PivotFields (fst (addPivotFields f pt opts)))
    !! (length (PivotFields_PivotField (PivotFields pt)) + i)%nat
  = Some (addPivotFields_field opts 0 name).
Proof.
  intros Horder Hname. rewrite (addPivotFields_fields f pt opts order Horder).
  rewrite lookup_app_r by lia.
  replace (length (PivotFields_PivotField (PivotFields pt)) + i
           - length (PivotFields_PivotField (PivotFields pt)))%nat with i by lia.
  rewrite list_lookup_fmap, Hname. reflexivity.
Qed.

(** C1.  For a name of the header-row field order, the pivot field
    emitted at its position is classified under one axis by the precedence
    Rows, Filter, Columns, Data: the first of the four lists that declares
    the name wins, whichever later lists declare it too.  Its data-field
    flag is set exactly when the Data list declares the name, whichever
    axis won, and a name that no list declares gets the empty pivot field,
    with no axis and no items. *)
Theorem pivot_field_classification (f : File) (pt : xlsxPivotTableDefinition)
    (opts : PivotTableOption) (order : list string) (i : nat) (name : string) :
  getPivotFieldsOrder f opts = (order, None) ->
  order !! i = Some name ->
  exists pf,
    PivotFields_PivotField (PivotFields (fst (addPivotFields f pt opts)))
      !! (length (PivotFields_PivotField (PivotFields pt)) + i)%nat = Some pf /\
    (declared (Rows opts) name -> PivotField_Axis pf = "axisRow") /\
    (~ declared (Rows opts) name -> declared (Filter opts) name ->
     PivotField_Axis pf = "axisPage") /\
    (~ declared (Rows opts) name -> ~ declared (Filter opts) name ->
     declared (Columns opts) name -> PivotField_Axis pf = "axisCol") /\
    (~ declared (Rows opts) name -> ~ declared (Filter opts) name ->
     ~ declared (Columns opts) name -> declared (Data_ opts) name ->
     PivotField_Axis pf = "" /\ PivotField_Items pf = None) /\
    (PivotField_DataField pf = true <-> declared (Data_ opts) name) /\
    (~ declared (Rows opts) name -> ~ declared (Filter opts) name ->
     ~ declared (Columns opts) name -> ~ declared (Data_ opts) name ->
     pf = emptyPivotField).
Proof.
  intros Horder Hname. exists (addPivotFields_field opts 0 name).
  split; [exact (addPivotFields_lookup f pt opts order i name Horder Hname)|].
  unfold addPivotFields_field.
  rewrite !inPivotTableField_declaredb.
  rewrite <- !declaredb_spec.
  destruct (getPivotTableFieldOptions name (Rows opts)) as [rowOptions rowOk].
  destruct (getPivotTableFieldOptions name (Columns opts)) as [columnOptions colOk].
  destruct (declaredb (Rows opts) name), (declaredb (Filter opts) name),
    (declaredb (Columns opts) name), (declaredb (Data_ opts) name);
    cbn; repeat split; intros; try reflexivity; try congruence;
    try discriminate; try tauto.
Qed.

(** C9.  A name that the Filter list declares and the Rows list does not
    is emitted on the page axis, and its pivot field is named from the
    Columns list: it carries the display name, cut to [MaxFieldLength], of
    the first entry that the Columns list declares for the name, whatever
    the Filter entries of the name are called; when the Columns list does not
    declare the name, the emitted name is empty, whatever display name its
    Filter entry carries. *)
Theorem filter_field_name_from_columns (f : File) (pt : xlsxPivotTableDefinition)
    (opts : PivotTableOption) (order : list string) (i : nat) (name : string) :
  getPivotFieldsOrder f opts = (order, None) ->
  order !! i = Some name ->
  declared (Filter opts) name ->
  ~ declared (Rows opts) name ->
  exists pf,
    PivotFields_PivotField (PivotFields (fst (addPivotFields f pt opts)))
      !! (length (PivotFields_PivotField (PivotFields pt)) + i)%nat = Some pf /\
    PivotField_Axis pf = "axisPage" /\
    (forall column, firstDeclared (Columns opts) name = Some column ->
       PivotField_Name pf = truncateName (Name column)) /\
    (~ declared (Columns opts) name -> PivotField_Name pf = "").
Proof.
  intros Horder Hname Hfilter Hrows.
  exists (addPivotFields_field opts 0 name).
  split; [exact (addPivotFields_lookup f pt opts order i name Horder Hname)|].
  unfold addPivotFields_field.
  rewrite !inPivotTableField_declaredb.
  apply not_declared in Hrows. apply declaredb_spec in Hfilter.
  rewrite Hrows, Hfilter. cbn.
  split; [reflexivity|]. split.
  - intros column Hcolumn.
    apply getPivotTableFieldName_firstDeclared, Hcolumn.
  - apply getPivotTableFieldName_not_declared.
Qed.

End Classification.

Section ClassificationOnBook.

#[local] Existing Instance SheetHost.host.

Lemma pivot_field_classification_witness :
exists pf,
  PivotFields_PivotField
    (PivotFields (fst (addPivotFields SheetHost.book emptyTable monthEverywhere)))
    !! (length (PivotFields_PivotField (PivotFields emptyTable)) + 0)%nat = Some pf /\
  (declared (Rows monthEverywhere) "Month" -> PivotField_Axis pf = "axisRow") /\
  (~ declared (Rows monthEverywhere) "Month" ->
   declared (Filter monthEverywhere) "Month" -> PivotField_Axis pf = "axisPage") /\
  (~ declared (Rows monthEverywhere) "Month" ->
   ~ declared (Filter monthEverywhere) "Month" ->
   declared (Columns monthEverywhere) "Month" -> PivotField_Axis pf = "axisCol") /\
  (~ declared (Rows monthEverywhere) "Month" ->
   ~ declared (Filter monthEverywhere) "Month" ->
   ~ declared (Columns monthEverywhere) "Month" ->
   declared (Data_ monthEverywhere) "Month" ->
   PivotField_Axis pf = "" /\ PivotField_Items pf = None) /\
  (PivotField_DataField pf = true <-> declared (Data_ monthEverywhere) "Month") /\
  (~ declared (Rows monthEverywhere) "Month" ->
   ~ declared (Filter monthEverywhere) "Month" ->
   ~ declared (Columns monthEverywhere) "Month" ->
   ~ declared (Data_ monthEverywhere) "Month" -> pf = emptyPivotField).
Proof.
apply (pivot_field_classification SheetHost.book emptyTable monthEverywhere
         bookOrder 0 "Month").
- vm_compute. reflexivity.
- reflexivity.
Defined.

Example monthEverywhere_row_axis :
PivotFields_PivotField
  (PivotFields (fst (addPivotFields SheetHost.book emptyTable monthEverywhere))) !! O
= Some {| PivotField_Name := ""; PivotField_Axis := "axisRow";
          PivotField_DataField := true;
          PivotField_Compact := Some false; PivotField_Outline := Some false;
          PivotField_DefaultSubtotal := Some false;
          PivotField_Items :=
            Some {| Items_Count := 1;
                    Items_Item := [{| Item_T := ""; Item_X := Some 0 |}] |} |}.
Proof. vm_compute. reflexivity. Qed.

Lemma filter_field_name_from_columns_witness :
exists pf,
  PivotFields_PivotField
    (PivotFields (fst (addPivotFields SheetHost.book emptyTable regionNamedTwice)))
    !! (length (PivotFields_PivotField (PivotFields emptyTable)) + 4)%nat = Some pf /\
  PivotField_Axis pf = "axisPage" /\
  (forall column, firstDeclared (Columns regionNamedTwice) "Region" = Some column ->
     PivotField_Name pf = truncateName (Name column)) /\
  (~ declared (Columns regionNamedTwice) "Region" -> PivotField_Name pf = "").
Proof.
apply (filter_field_name_from_columns SheetHost.book emptyTable regionNamedTwice
         bookOrder 4 "Region").
- vm_compute. reflexivity.
- reflexivity.
- exists {| Compact := false; Data := "Region"; Name := "Sales region";
            Outline := false; Subtotal := ""; DefaultSubtotal := false |}.
  split; [left; reflexivity | reflexivity].
- intros (fld & Hin & Hd). destruct Hin as [<- | []]. discriminate Hd.
Defined.

(** The page field of Region is named after the Columns entry, not after
    the Filter entry. *)
Example regionNamedTwice_name :
getPivotTableFieldName "Region" (Filter regionNamedTwice) = "Sales region" /\
PivotField_Name
  <$> PivotFields_PivotField
        (PivotFields (fst (addPivotFields SheetHost.book emptyTable regionNamedTwice)))
      !! 4%nat
= Some "Col region".
Proof. vm_compute. split; reflexivity. Qed.

(** The display name of the Filter entry is not the emitted one. *)
Example regionFilter_name_lost :
getPivotTableFieldName "Region" (Filter regionFilter) = "Sales region" /\
PivotField_Name
  <$> PivotFields_PivotField
        (PivotFields (fst (addPivotFields SheetHost.book emptyTable regionFilter)))
      !! 4%nat
= Some "".
Proof. vm_compute. split; reflexivity. Qed.

End ClassificationOnBook.

(** ** Cache schema *)

Section CacheSchema.

Context {host : Host}.

Lemma fold_append_map {A B : Type} (g : A -> B) (l : list A) (acc : list B) :
  fold_left (fun acc a => acc ++ [g a]) l acc = acc ++ map g l.
Proof.
  revert acc. induction l as [|a l IH]; intros acc; simpl.
  - rewrite app_nil_r. reflexivity.
  - rewrite IH, <- app_assoc. reflexivity.
Qed.

Lemma pivotCacheDefinition_fields (f : File) (opts : PivotTableOption)
    (definedNameRef : bool) (dataSheet : string) (coordinates : Z * Z * Z * Z) :
  CacheFields_CacheField
    (CacheFields (pivotCacheDefinition f opts definedNameRef dataSheet coordinates))
  = map (addPivotCache_field opts) (fst (getPivotFieldsOrder f opts)).
Proof.
  destruct coordinates as [[[c0 c1] c2] c3]. unfold pivotCacheDefinition.
  cbn [CacheFields CacheFields_CacheField]. apply (fold_append_map _ _ []).
Qed.

Lemma subtotalOff_spec (fields : list PivotTableField) (name : string) :
  (let '(options, ok) := getPivotTableFieldOptions name fields in
   ok && negb (DefaultSubtotal options)) = true
  <-> subtotalOff fields name.
Proof.
  rewrite getPivotTableFieldOptions_first. unfold subtotalOff.
  destruct (firstDeclared fields name) as [fld|].
  - rewrite andb_true_l, negb_true_iff. split.
    + intros H. exists fld. split; [reflexivity | exact H].
    + intros (fld' & [= <-] & H). exact H.
  - split; [discriminate|]. intros (fld' & [=] & _).
Qed.

(** C3, as the code has it.  For every field of the header-row field order,
    the cache field at its position has a shared-items count of 1, with one
    empty placeholder item, exactly when the Rows list declares the field and
    its first Rows entry has DefaultSubtotal false, or the Columns list
    declares it and its first Columns entry has DefaultSubtotal false; the two
    lists are consulted one by one, without the precedence of the axis
    classification.  Every other field has a count of 0 and no item. *)
Theorem cache_field_sharedItems (f : File) (opts : PivotTableOption)
    (definedNameRef : bool) (dataSheet : string) (coordinates : Z * Z * Z * Z)
    (i : nat) (name : string) :
  fst (getPivotFieldsOrder f opts) !! i = Some name ->
  exists cf,
    CacheFields_CacheField
      (CacheFields (pivotCacheDefinition f opts definedNameRef dataSheet coordinates))
      !! i = Some cf /\
    CacheField_Name cf = name /\
    (subtotalOff (Rows opts) name \/ subtotalOff (Columns opts) name ->
     CacheField_SharedItems cf = itemised) /\
    (~ (subtotalOff (Rows opts) name \/ subtotalOff (Columns opts) name) ->
     CacheField_SharedItems cf = notItemised).
Proof.
  intros Hname. exists (addPivotCache_field opts name).
  rewrite pivotCacheDefinition_fields, list_lookup_fmap, Hname.
  split; [reflexivity|].
  pose proof (subtotalOff_spec (Rows opts) name) as Hrow.
  pose proof (subtotalOff_spec (Columns opts) name) as Hcol.
  unfold addPivotCache_field.
  destruct (getPivotTableFieldOptions name (Rows opts)) as [rowOptions rowOk].
  destruct (getPivotTableFieldOptions name (Columns opts)) as [columnOptions colOk].
  split; [reflexivity|].
  destruct (rowOk && negb (DefaultSubtotal rowOptions)) eqn:Er;
    destruct (colOk && negb (DefaultSubtotal columnOptions)) eqn:Ec;
    cbn [orb CacheField_SharedItems]; split; intros H; try reflexivity.
  all: try (exfalso; apply H; first [left; apply Hrow; reflexivity
                                    | right; apply Hcol; reflexivity]).
  exfalso. destruct H as [H|H]; [apply Hrow in H | apply Hcol in H]; discriminate.
Qed.

(** Where the claim of C3 does hold as stated: for a name that at most one
    of the lists Rows, Filter and Columns declares, the count is 1 exactly
    when the pivot field of the name is on the row or the column axis and
    carries DefaultSubtotal false. *)
Lemma sharedItems_by_classification_when_exclusive (opts : PivotTableOption)
    (name : string) :
  (declared (Rows opts) name -> ~ declared (Columns opts) name) ->
  (declared (Filter opts) name -> ~ declared (Columns opts) name) ->
  let cf := addPivotCache_field opts name in
  let pf := addPivotFields_field opts 0 name in
  SharedItems_Count <$> CacheField_SharedItems cf = Some 1
  <-> (PivotField_Axis pf = "axisRow" \/ PivotField_Axis pf = "axisCol")
      /\ PivotField_DefaultSubtotal pf = Some false.
Proof.
  intros Hrow Hfilter. cbv zeta.
  assert (Hrow' : declaredb (Rows opts) name = true ->
                  declaredb (Columns opts) name = false).
  { intros H. apply not_declared, Hrow, declaredb_spec, H. }
  assert (Hfilter' : declaredb (Filter opts) name = true ->
                     declaredb (Columns opts) name = false).
  { intros H. apply not_declared, Hfilter, declaredb_spec, H. }
  clear Hrow Hfilter.
  unfold addPivotCache_field, addPivotFields_field.
  rewrite !inPivotTableField_declaredb, !getPivotTableFieldOptions_first.
  rewrite (declaredb_first (Rows opts) name) in *.
  rewrite (declaredb_first (Columns opts) name) in *.
  destruct (firstDeclared (Rows opts) name) as [ro|];
    destruct (firstDeclared (Columns opts) name) as [co|];
    destruct (declaredb (Filter opts) name);
    destruct (declaredb (Data_ opts) name);
    try (specialize (Hrow' eq_refl); discriminate Hrow');
    try (specialize (Hfilter' eq_refl); discriminate Hfilter');
    cbn;
    try destruct (DefaultSubtotal ro); try destruct (DefaultSubtotal co); cbn;
    (split; [intros H; try discriminate H | intros [[H | H] H']; try discriminate]);
    try reflexivity;
    first [split; [left; reflexivity | reflexivity]
          | split; [right; reflexivity | reflexivity]].
Qed.

End CacheSchema.

Section CacheSchemaOnBook.

#[local] Existing Instance SheetHost.host.

Lemma cache_field_sharedItems_witness :
  exists cf,
    CacheFields_CacheField
      (CacheFields (pivotCacheDefinition SheetHost.book regionFilterAndColumn false
                      "Sheet1" (1, 1, 5, 31)))
      !! 4%nat = Some cf /\
    CacheField_Name cf = "Region" /\
    (subtotalOff (Rows regionFilterAndColumn) "Region"
     \/ subtotalOff (Columns regionFilterAndColumn) "Region" ->
     CacheField_SharedItems cf = itemised) /\
    (~ (subtotalOff (Rows regionFilterAndColumn) "Region"
        \/ subtotalOff (Columns regionFilterAndColumn) "Region") ->
     CacheField_SharedItems cf = notItemised).
Proof.
  apply (cache_field_sharedItems SheetHost.book regionFilterAndColumn false
           "Sheet1" (1, 1, 5, 31) 4 "Region").
  vm_compute. reflexivity.
Defined.

(** C3, as stated, fails: Region is declared as a filter and as a column
    with DefaultSubtotal false.  The classification puts it on the page axis,
    so it is under neither Rows nor Columns, yet its cache field has a
    shared-items count of 1. *)
Lemma sharedItems_not_by_classification :
  ~ (forall (i : nat) (cf : xlsxCacheField) (pf : xlsxPivotField),
       CacheFields_CacheField
         (CacheFields (pivotCacheDefinition SheetHost.book regionFilterAndColumn false
                         "Sheet1" (1, 1, 5, 31))) !! i = Some cf ->
       PivotFields_PivotField
         (PivotFields (pivotTableDefinition SheetHost.book 2 1 regionFilterAndColumn
                         (7, 2, 13, 34))) !! i = Some pf ->
       (SharedItems_Count <$> CacheField_SharedItems cf = Some 1
        <-> (PivotField_Axis pf = "axisRow" \/ PivotField_Axis pf = "axisCol")
            /\ PivotField_DefaultSubtotal pf = Some false)).
Proof.
  intros H.
  specialize (H 4%nat
    {| CacheField_Name := "Region"; CacheField_SharedItems := itemised |}
    {| PivotField_Name := ""; PivotField_Axis := "axisPage";
       PivotField_DataField := false; PivotField_Compact := None;
       PivotField_Outline := None; PivotField_DefaultSubtotal := None;
       PivotField_Items :=
         Some {| Items_Count := 1;
                 Items_Item := [{| Item_T := "default"; Item_X := None |}] |} |}
    ltac:(vm_compute; reflexivity) ltac:(vm_compute; reflexivity)).
  destruct H as [H _]. destruct (H eq_refl) as [[Ha | Ha] _]; discriminate Ha.
Qed.

End CacheSchemaOnBook.

(** ** Index lists of the axis sections *)

Section FieldIndexes.

Context {host : Host}.

Lemma inStrSlice_from_position (a : list string) (x : string) (idx : Z) :
  0 <= idx ->
  inStrSlice_from idx a x
  = match list_find (fun n => n = x) a with
    | Some (i, _) => idx + Z.of_nat i
    | None => -1
    end.
Proof.
  revert idx. induction a as [|n a IH]; intros idx Hidx; [reflexivity|].
  cbn [inStrSlice_from list_find]. destruct (String.eqb_spec x n) as [E|E].
  - rewrite decide_True by congruence. simpl. lia.
  - rewrite decide_False by congruence. rewrite IH by lia.
    destruct (list_find (fun n0 => n0 = x) a) as [[i y]|]; simpl; [lia | reflexivity].
Qed.

Lemma inStrSlice_position (orders : list string) (x : string) :
  position orders x
  = if inStrSlice orders x =? -1 then None else Some (inStrSlice orders x).
Proof.
  unfold position, inStrSlice. rewrite inStrSlice_from_position by lia.
  destruct (list_find (fun n => n = x) orders) as [[i y]|]; [|reflexivity].
  cbn [fmap option_fmap option_map fst]. rewrite Z.add_0_l.
  destruct (Z.eqb_spec (Z.of_nat i) (-1)); [lia | reflexivity].
Qed.

Lemma position_None (orders : list string) (x : string) :
  position orders x = None <-> ~ In x orders.
Proof.
  unfold position. rewrite fmap_None, list_find_None, Forall_forall.
  split.
  - intros H Hin. apply (H x); [apply list_elem_of_In; exact Hin | reflexivity].
  - intros H y Hy ->. apply H, list_elem_of_In, Hy.
Qed.

Lemma position_Some (orders : list string) (x : string) (pos : Z) :
  position orders x = Some pos ->
  exists i : nat,
    pos = Z.of_nat i /\ orders !! i = Some x /\
    forall j : nat, (j < i)%nat -> orders !! j <> Some x.
Proof.
  unfold position. intros H. apply fmap_Some in H as ([i y] & Hfind & ->).
  apply list_find_Some in Hfind as (Hi & -> & Hfirst).
  exists i. split; [reflexivity|]. split; [exact Hi|].
  intros j Hj Hx. exact (Hfirst j x Hx Hj eq_refl).
Qed.

Lemma fold_index (orders : list string) (fields : list PivotTableField) (acc : list Z) :
  fold_left
    (fun pivotFieldsIndex field =>
       let pos := inStrSlice orders (Data field) in
       if negb (pos =? -1) then pivotFieldsIndex ++ [pos] else pivotFieldsIndex)
    fields acc
  = acc ++ omap (fun fld => position orders (Data fld)) fields.
Proof.
  revert acc. induction fields as [|fld fields IH]; intros acc.
  - simpl. rewrite app_nil_r. reflexivity.
  - cbn [fold_left omap list_omap]. rewrite IH, inStrSlice_position.
    destruct (inStrSlice orders (Data fld) =? -1); simpl; [reflexivity|].
    rewrite <- app_assoc. reflexivity.
Qed.

Lemma getPivotFieldsIndex_Ok (f : File) (fields : list PivotTableField)
    (opts : PivotTableOption) (orders : list string) :
  getPivotFieldsOrder f opts = (orders, None) ->
  getPivotFieldsIndex f fields opts
  = Ok (omap (fun fld => position orders (Data fld)) fields).
Proof.
  intros Horder. unfold getPivotFieldsIndex. rewrite Horder.
  f_equal. apply (fold_index orders fields []).
Qed.

Lemma pageFieldsLoop_indexes (pageFieldsName : list string) (pageFieldsIndex : list Z)
    (idx : nat) (pt : xlsxPivotTableDefinition) :
  pageFieldIndexes (pageFieldsLoop pageFieldsName idx pageFieldsIndex pt)
  = pageFieldIndexes pt ++ pageFieldsIndex.
Proof.
  revert idx pt. induction pageFieldsIndex as [|pageField rest IH]; intros idx pt.
  - simpl. rewrite app_nil_r. reflexivity.
  - cbn [pageFieldsLoop]. rewrite IH. unfold pageFieldIndexes at 1.
    cbn [PageFields set_PageFields from_option PageFields_PageField].
    rewrite map_app. cbn [map PageField_Fld].
    rewrite <- app_assoc. f_equal.
    unfold pageFieldIndexes. destruct (PageFields pt); reflexivity.
Qed.

Lemma addPivotPageFields_indexes (f : File) (pt : xlsxPivotTableDefinition)
    (opts : PivotTableOption) (index : list Z) :
  getPivotFieldsIndex f (Filter opts) opts = Ok index ->
  pageFieldIndexes (fst (addPivotPageFields f pt opts)) = pageFieldIndexes pt ++ index
  /\ snd (addPivotPageFields f pt opts) = None.
Proof.
  intros Hindex. unfold addPivotPageFields. rewrite Hindex.
  pose proof (pageFieldsLoop_indexes (getPivotTableFieldsName (Filter opts)) index O pt)
    as Hloop.
  destruct (PageFields (pageFieldsLoop (getPivotTableFieldsName (Filter opts)) O index pt))
    as [pf|] eqn:Epf; cbn [fst snd]; (split; [|reflexivity]).
  - rewrite <- Hloop. unfold pageFieldIndexes. rewrite Epf. reflexivity.
  - exact Hloop.
Qed.

Lemma addPivotRowFields_indexes (f : File) (pt : xlsxPivotTableDefinition)
    (opts : PivotTableOption) (index : list Z) :
  getPivotFieldsIndex f (Rows opts) opts = Ok index ->
  rowFieldIndexes (fst (addPivotRowFields f pt opts)) = rowFieldIndexes pt ++ index
  /\ snd (addPivotRowFields f pt opts) = None.
Proof.
  intros Hindex. unfold addPivotRowFields. rewrite Hindex.
  match goal with
  | |- context [fold_left ?step index pt] =>
      assert (Hloop : rowFieldIndexes (fold_left step index pt)
                      = rowFieldIndexes pt ++ index)
  end.
  { clear Hindex. revert pt. induction index as [|fieldIdx rest IH]; intros pt.
    - simpl. rewrite app_nil_r. reflexivity.
    - cbn [fold_left]. rewrite IH. unfold rowFieldIndexes at 1.
      cbn [RowFields set_RowFields from_option RowFields_Field].
      rewrite map_app. cbn [map Field_X]. rewrite <- app_assoc. f_equal.
      unfold rowFieldIndexes. destruct (RowFields pt); reflexivity. }
  match type of Hloop with
  | rowFieldIndexes ?pt' = _ =>
      destruct (RowFields pt') as [rf|] eqn:Erf; cbn [fst snd];
        (split; [|reflexivity]); [|exact Hloop];
        rewrite <- Hloop; unfold rowFieldIndexes; rewrite Erf; reflexivity
  end.
Qed.

Lemma dataFieldsLoop_indexes (dataFieldsName dataFieldsSubtotals : list string)
    (dataFieldsIndex : list Z) (idx : nat) (pt : xlsxPivotTableDefinition) :
  dataFieldIndexes
    (dataFieldsLoop dataFieldsName dataFieldsSubtotals idx dataFieldsIndex pt)
  = dataFieldIndexes pt ++ dataFieldsIndex.
Proof.
  revert idx pt. induction dataFieldsIndex as [|dataField rest IH]; intros idx pt.
  - simpl. rewrite app_nil_r. reflexivity.
  - cbn [dataFieldsLoop]. rewrite IH. unfold dataFieldIndexes at 1.
    cbn [DataFields set_DataFields from_option DataFields_DataField].
    rewrite map_app. cbn [map DataField_Fld].
    rewrite <- app_assoc. f_equal.
    unfold dataFieldIndexes. destruct (DataFields pt); reflexivity.
Qed.

Lemma addPivotDataFields_indexes (f : File) (pt : xlsxPivotTableDefinition)
    (opts : PivotTableOption) (index : list Z) :
  getPivotFieldsIndex f (Data_ opts) opts = Ok index ->
  dataFieldIndexes (fst (addPivotDataFields f pt opts)) = dataFieldIndexes pt ++ index
  /\ snd (addPivotDataFields f pt opts) = None.
Proof.
  intros Hindex. unfold addPivotDataFields. rewrite Hindex.
  pose proof (dataFieldsLoop_indexes (getPivotTableFieldsName (Data_ opts))
                (getPivotTableFieldsSubtotal (Data_ opts)) index O pt) as Hloop.
  destruct (DataFields (dataFieldsLoop (getPivotTableFieldsName (Data_ opts))
                          (getPivotTableFieldsSubtotal (Data_ opts)) O index pt))
    as [df|] eqn:Edf; cbn [fst snd]; (split; [|reflexivity]).
  - rewrite <- Hloop. unfold dataFieldIndexes. rewrite Edf. reflexivity.
  - exact Hloop.
Qed.

(** When the header row has been read, [getPivotFieldsIndex] returns no
    error for any axis list, and its index list holds, in the order of
    declaration, the position of every entry whose source field name is a
    header name; an entry whose name is not a header name has no position and
    is left out.  The row, page and data sections of the table definition
    refer to exactly the indexes of the lists of their axes, and no error is
    returned. *)
Theorem index_list_omits_unmatched (f : File) (fields : list PivotTableField)
    (opts : PivotTableOption) (orders : list string) :
  getPivotFieldsOrder f opts = (orders, None) ->
  getPivotFieldsIndex f fields opts
    = Ok (omap (fun fld => position orders (Data fld)) fields) /\
  (forall fld, position orders (Data fld) = None <-> ~ In (Data fld) orders) /\
  (forall fld pos, position orders (Data fld) = Some pos ->
     exists i : nat, pos = Z.of_nat i /\ orders !! i = Some (Data fld) /\
       forall j : nat, (j < i)%nat -> orders !! j <> Some (Data fld)) /\
  (forall pt, PageFields pt = None ->
     pageFieldIndexes (fst (addPivotPageFields f pt opts))
       = omap (fun fld => position orders (Data fld)) (Filter opts)
     /\ snd (addPivotPageFields f pt opts) = None) /\
  (forall pt, RowFields pt = None ->
     rowFieldIndexes (fst (addPivotRowFields f pt opts))
       = omap (fun fld => position orders (Data fld)) (Rows opts)
     /\ snd (addPivotRowFields f pt opts) = None) /\
  (forall pt, DataFields pt = None ->
     dataFieldIndexes (fst (addPivotDataFields f pt opts))
       = omap (fun fld => position orders (Data fld)) (Data_ opts)
     /\ snd (addPivotDataFields f pt opts) = None).
Proof.
  intros Horder. split; [exact (getPivotFieldsIndex_Ok f fields opts orders Horder)|].
  split; [intros fld; apply position_None|].
  split; [intros fld pos; apply position_Some|].
  split; [|split]; intros pt Hpt.
  - destruct (addPivotPageFields_indexes f pt opts _
                (getPivotFieldsIndex_Ok f (Filter opts) opts orders Horder)) as [H1 H2].
    split; [|exact H2]. rewrite H1. unfold pageFieldIndexes. rewrite Hpt. reflexivity.
  - destruct (addPivotRowFields_indexes f pt opts _
                (getPivotFieldsIndex_Ok f (Rows opts) opts orders Horder)) as [H1 H2].
    split; [|exact H2]. rewrite H1. unfold rowFieldIndexes. rewrite Hpt. reflexivity.
  - destruct (addPivotDataFields_indexes f pt opts _
                (getPivotFieldsIndex_Ok f (Data_ opts) opts orders Horder)) as [H1 H2].
    split; [|exact H2]. rewrite H1. unfold dataFieldIndexes. rewrite Hpt. reflexivity.
Qed.

End FieldIndexes.

Section FieldIndexesOnBook.

#[local] Existing Instance SheetHost.host.

Lemma index_list_omits_unmatched_witness :
  getPivotFieldsOrder SheetHost.book strayFilter = (bookOrder, None) /\
  getPivotFieldsIndex SheetHost.book (Filter strayFilter) strayFilter
    = Ok (omap (fun fld => position bookOrder (Data fld)) (Filter strayFilter)).
Proof.
  assert (Horder : getPivotFieldsOrder SheetHost.book strayFilter = (bookOrder, None))
    by (vm_compute; reflexivity).
  split; [exact Horder|].
  exact (proj1 (index_list_omits_unmatched SheetHost.book (Filter strayFilter)
                  strayFilter bookOrder Horder)).
Defined.

(** Quarter is not a header name: of the two filters only Region, at
    position 4, reaches the index list and the page-field section. *)
Example strayFilter_index :
  getPivotFieldsIndex SheetHost.book (Filter strayFilter) strayFilter = Ok [4] /\
  PageFields (pivotTableDefinition SheetHost.book 2 1 strayFilter (7, 2, 13, 34))
  = Some {| PageFields_Count := 1;
            PageFields_PageField := [{| PageField_Name := ""; PageField_Fld := 4 |}] |}.
Proof. vm_compute. split; reflexivity. Qed.

(** C10, at options whose first Data entry (Profit) and first Filter entry
    (Quarter) are not header names.  The index lists leave the two entries
    out, and the call returns no error.  The sections have one field per
    position, but not the fields of the entries that are header names: the
    display names and the aggregation tags of all declared entries are
    indexed by the loop index over the index list, so the data field at the
    position of Sales carries the name and the tag of Profit, and the page
    field at the position of Region the name of Quarter.  The names and the
    tag of Sales and Region are not emitted. *)
Lemma unmatched_entry_name_emitted :
  getPivotFieldsOrder SheetHost.book strayData = (bookOrder, None) /\
  getPivotFieldsIndex SheetHost.book (Data_ strayData) strayData = Ok [3] /\
  getPivotFieldsIndex SheetHost.book (Filter strayData) strayData = Ok [4] /\
  snd (AddPivotTable SheetHost.book (Some strayData)) = None /\
  DataFields (pivotTableDefinition SheetHost.book 2 1 strayData (7, 2, 13, 34))
  = Some {| DataFields_Count := 1;
            DataFields_DataField :=
              [{| DataField_Name := "Total profit"; DataField_Fld := 3;
                  DataField_Subtotal := "max" |}] |} /\
  PageFields (pivotTableDefinition SheetHost.book 2 1 strayData (7, 2, 13, 34))
  = Some {| PageFields_Count := 1;
            PageFields_PageField :=
              [{| PageField_Name := "By quarter"; PageField_Fld := 4 |}] |} /\
  getPivotTableFieldName "Sales" (Data_ strayData) = "Average sales" /\
  getPivotTableFieldName "Region" (Filter strayData) = "By region".
Proof. vm_compute. repeat split; reflexivity. Qed.

End FieldIndexesOnBook.

(** ** Column fields of the table definition *)

Section ColumnFields.

Context {host : Host}.

Lemma fold_appendPivotField_ColFields (g : string -> xlsxPivotField)
    (order : list string) (pt : xlsxPivotTableDefinition) :
  ColFields (fold_left (fun pt name => appendPivotField (g name) pt) order pt)
  = ColFields pt.
Proof.
  revert pt. induction order as [|name order IH]; intros pt; [reflexivity|].
  simpl. rewrite IH. reflexivity.
Qed.

Lemma addPivotFields_ColFields (f : File) (pt : xlsxPivotTableDefinition)
    (opts : PivotTableOption) :
  ColFields (fst (addPivotFields f pt opts)) = ColFields pt.
Proof.
  unfold addPivotFields.
  destruct (getPivotFieldsOrder f opts) as [order [err|]]; [reflexivity|].
  apply fold_appendPivotField_ColFields.
Qed.

Lemma addPivotRowFields_ColFields (f : File) (pt : xlsxPivotTableDefinition)
    (opts : PivotTableOption) :
  ColFields (fst (addPivotRowFields f pt opts)) = ColFields pt.
Proof.
  unfold addPivotRowFields.
  destruct (getPivotFieldsIndex f (Rows opts) opts) as [rowFieldsIndex|err];
    [|reflexivity].
  match goal with
  | |- context [fold_left ?step rowFieldsIndex pt] =>
      assert (Hfold : ColFields (fold_left step rowFieldsIndex pt) = ColFields pt);
      [| destruct (RowFields (fold_left step rowFieldsIndex pt)); exact Hfold]
  end.
  revert pt. induction rowFieldsIndex as [|fieldIdx rest IH]; intros pt; [reflexivity|].
  simpl. rewrite IH. reflexivity.
Qed.

Lemma pageFieldsLoop_ColFields (pageFieldsName : list string) (pageFieldsIndex : list Z)
    (idx : nat) (pt : xlsxPivotTableDefinition) :
  ColFields (pageFieldsLoop pageFieldsName idx pageFieldsIndex pt) = ColFields pt.
Proof.
  revert idx pt. induction pageFieldsIndex as [|pageField rest IH]; intros idx pt;
    [reflexivity|].
  simpl. rewrite IH. reflexivity.
Qed.

Lemma addPivotPageFields_ColFields (f : File) (pt : xlsxPivotTableDefinition)
    (opts : PivotTableOption) :
  ColFields (fst (addPivotPageFields f pt opts)) = ColFields pt.
Proof.
  unfold addPivotPageFields.
  destruct (getPivotFieldsIndex f (Filter opts) opts) as [pageFieldsIndex|err];
    [|reflexivity].
  pose proof (pageFieldsLoop_ColFields (getPivotTableFieldsName (Filter opts))
                pageFieldsIndex O pt) as Hloop.
  destruct (PageFields (pageFieldsLoop _ O pageFieldsIndex pt)); exact Hloop.
Qed.

Lemma dataFieldsLoop_ColFields (dataFieldsName dataFieldsSubtotals : list string)
    (dataFieldsIndex : list Z) (idx : nat) (pt : xlsxPivotTableDefinition) :
  ColFields (dataFieldsLoop dataFieldsName dataFieldsSubtotals idx dataFieldsIndex pt)
  = ColFields pt.
Proof.
  revert idx pt. induction dataFieldsIndex as [|dataField rest IH]; intros idx pt;
    [reflexivity|].
  simpl. rewrite IH. reflexivity.
Qed.

Lemma addPivotDataFields_ColFields (f : File) (pt : xlsxPivotTableDefinition)
    (opts : PivotTableOption) :
  ColFields (fst (addPivotDataFields f pt opts)) = ColFields pt.
Proof.
  unfold addPivotDataFields.
  destruct (getPivotFieldsIndex f (Data_ opts) opts) as [dataFieldsIndex|err];
    [|reflexivity].
  pose proof (dataFieldsLoop_ColFields (getPivotTableFieldsName (Data_ opts))
                (getPivotTableFieldsSubtotal (Data_ opts)) dataFieldsIndex O pt)
    as Hloop.
  destruct (DataFields (dataFieldsLoop _ _ O dataFieldsIndex pt)); exact Hloop.
Qed.

(** The column-field section of the table definition is the one that
    [addPivotColFields] leaves, on a table that had none. *)
Lemma pivotTableDefinition_ColFields (f : File) (cacheID pivotTableID : Z)
    (opts : PivotTableOption) (coordinates : Z * Z * Z * Z) :
  exists pt,
    ColFields pt = None /\
    ColFields (pivotTableDefinition f cacheID pivotTableID opts coordinates)
    = ColFields (fst (addPivotColFields f pt opts)).
Proof.
  destruct coordinates as [[[c0 c1] c2] c3]. unfold pivotTableDefinition.
  cbv zeta. rewrite addPivotDataFields_ColFields, addPivotPageFields_ColFields.
  eexists. split; [|reflexivity].
  rewrite addPivotRowFields_ColFields. cbn [ColFields set_PivotFields].
  rewrite addPivotFields_ColFields. reflexivity.
Qed.

Lemma length_zero_nil {A : Type} (l : list A) : (length l =? 0)%nat = true <-> l = [].
Proof.
  destruct l; simpl; split; intros H; try reflexivity; discriminate.
Qed.

(** C2.  In the table definition: with no Columns entry and more than one
    Data entry the column-field list is the one sentinel with index marker
    -2; with Columns entries and more than one Data entry the sentinel comes
    after the explicit column entries, the positions that the index list of
    the Columns entries gives; with no Columns entry and at most one Data
    entry there is no column-field section. *)
Theorem column_field_synthesis (f : File) (cacheID pivotTableID : Z)
    (opts : PivotTableOption) (coordinates : Z * Z * Z * Z) :
  (Columns opts = [] -> (1 < length (Data_ opts))%nat ->
   ColFields (pivotTableDefinition f cacheID pivotTableID opts coordinates)
   = Some {| ColFields_Count := 1; ColFields_Field := [sentinel] |}) /\
  (Columns opts <> [] -> (1 < length (Data_ opts))%nat ->
   forall colFieldsIndex,
     getPivotFieldsIndex f (Columns opts) opts = Ok colFieldsIndex ->
     ColFields (pivotTableDefinition f cacheID pivotTableID opts coordinates)
     = Some {| ColFields_Count := Z.of_nat (length colFieldsIndex) + 1;
               ColFields_Field := map Build_xlsxField colFieldsIndex ++ [sentinel] |}) /\
  (Columns opts = [] -> (length (Data_ opts) <= 1)%nat ->
   ColFields (pivotTableDefinition f cacheID pivotTableID opts coordinates) = None).
Proof.
  destruct (pivotTableDefinition_ColFields f cacheID pivotTableID opts coordinates)
    as (pt & Hpt & ->).
  unfold addPivotColFields. repeat split.
  - intros Hcol Hdata. rewrite Hcol. cbn [length Nat.eqb].
    destruct (Nat.leb_spec (length (Data_ opts)) 1); [lia | reflexivity].
  - intros Hcol Hdata colFieldsIndex Hindex.
    destruct (length (Columns opts) =? 0)%nat eqn:E.
    { apply length_zero_nil in E. contradiction. }
    rewrite Hindex.
    destruct (Nat.ltb_spec 1 (length (Data_ opts))); [|lia].
    cbn [fst ColFields set_ColFields].
    rewrite (fold_append_map Build_xlsxField colFieldsIndex []).
    cbn [app]. rewrite length_app, length_map. cbn [length].
    do 3 f_equal. lia.
  - intros Hcol Hdata. rewrite Hcol. cbn [length Nat.eqb].
    destruct (Nat.leb_spec (length (Data_ opts)) 1); [exact Hpt | lia].
Qed.

End ColumnFields.

Section ColumnFieldsOnBook.

#[local] Existing Instance SheetHost.host.

Lemma column_field_synthesis_witness :
  ColFields (pivotTableDefinition SheetHost.book 2 1 twoDataOneColumn (7, 2, 13, 34))
  = Some {| ColFields_Count := Z.of_nat (length [2]) + 1;
            ColFields_Field := map Build_xlsxField [2] ++ [sentinel] |}.
Proof.
  refine (proj1 (proj2 (column_field_synthesis SheetHost.book 2 1 twoDataOneColumn
                          (7, 2, 13, 34))) _ _ [2] _).
  - discriminate.
  - simpl. lia.
  - vm_compute. reflexivity.
Defined.

Example twoDataNoColumn_sentinel :
  ColFields (pivotTableDefinition SheetHost.book 2 1 twoDataNoColumn (7, 2, 13, 34))
  = Some {| ColFields_Count := 1; ColFields_Field := [{| Field_X := -2 |}] |}.
Proof. vm_compute. reflexivity. Qed.

Example oneData_no_section :
  ColFields (pivotTableDefinition SheetHost.book 2 1 regionFilter (7, 2, 13, 34)) = None.
Proof. vm_compute. reflexivity. Qed.

End ColumnFieldsOnBook.

(** ** Range normalisation *)

Section RangeNormalizer.

Context {host : Host}.

Lemma length_Split (s : string) (sep : ascii) :
  length (strings.Split s sep) = S (strings.Count s sep).
Proof.
  induction s as [|c s IH]; [reflexivity|].
  simpl. destruct (Ascii.eqb c sep).
  - simpl. rewrite IH. reflexivity.
  - destruct (strings.Split s sep) as [|h t]; simpl in *; lia.
Qed.

Lemma Count_nonempty (s : string) (c : ascii) :
  (0 < strings.Count s c)%nat -> (String.length s <? 1)%nat = false.
Proof.
  destruct s; simpl; [lia | reflexivity].
Qed.

(** On a range string with one separator, [adjustRange] is decided by the
    corners that the address parses to. *)
Lemma adjustRange_one_separator (rangeStr : string) :
  strings.Count rangeStr "!" = 1%nat ->
  adjustRange rangeStr
  = match areaRefToCoordinates (addressOf rangeStr) with
    | Err err => Err err
    | Ok (x1, y1, x2, y2) =>
        if (x1 =? x2) && (y1 =? y2) then Err ErrParameterInvalid
        else Ok (sheetOf rangeStr, canonicalBox (x1, y1, x2, y2))
    end.
Proof.
  intros Hsep. unfold adjustRange.
  rewrite (Count_nonempty rangeStr "!") by lia.
  rewrite length_Split, Hsep. cbn [Nat.eqb negb].
  fold (sheetOf rangeStr). fold (addressOf rangeStr).
  destruct (areaRefToCoordinates (addressOf rangeStr)) as [[[[x1 y1] x2] y2]|err];
    [|reflexivity].
  destruct ((x1 =? x2) && (y1 =? y2)); [reflexivity|].
  unfold canonicalBox.
  destruct (Z.ltb_spec x2 x1); destruct (Z.ltb_spec y2 y1);
    repeat f_equal; lia.
Qed.

(** C5.  Two range strings of one sheet whose corners differ by a swap of
    the column coordinates, of the row coordinates, or of both, normalise to
    the same result; for distinct corners that result is the canonical box
    [(x1, y1, x2, y2)] with [x1 <= x2] and [y1 <= y2]. *)
Theorem adjustRange_swapped_corners (rangeStr rangeStr' : string)
    (x1 y1 x2 y2 : Z) (corners' : Z * Z * Z * Z) :
  strings.Count rangeStr "!" = 1%nat ->
  strings.Count rangeStr' "!" = 1%nat ->
  sheetOf rangeStr' = sheetOf rangeStr ->
  areaRefToCoordinates (addressOf rangeStr) = Ok (x1, y1, x2, y2) ->
  areaRefToCoordinates (addressOf rangeStr') = Ok corners' ->
  swappedCorners (x1, y1, x2, y2) corners' ->
  adjustRange rangeStr' = adjustRange rangeStr /\
  (x1 <> x2 \/ y1 <> y2 ->
   adjustRange rangeStr
   = Ok (sheetOf rangeStr, (Z.min x1 x2, Z.min y1 y2, Z.max x1 x2, Z.max y1 y2))) /\
  (forall sheet a b c d,
     adjustRange rangeStr = Ok (sheet, (a, b, c, d)) -> a <= c /\ b <= d).
Proof.
  intros Hsep Hsep' Hsheet Hparse Hparse' Hswap.
  rewrite (adjustRange_one_separator rangeStr Hsep),
    (adjustRange_one_separator rangeStr' Hsep'), Hparse, Hparse', Hsheet.
  unfold canonicalBox.
  split; [|split].
  - destruct Hswap as [-> | [-> | ->]];
      destruct (Z.eqb_spec x1 x2); destruct (Z.eqb_spec y1 y2);
      destruct (Z.eqb_spec x2 x1); destruct (Z.eqb_spec y2 y1);
      cbn [andb]; try reflexivity; try lia;
      rewrite ?(Z.min_comm x2 x1), ?(Z.max_comm x2 x1),
        ?(Z.min_comm y2 y1), ?(Z.max_comm y2 y1); reflexivity.
  - intros Hdistinct.
    destruct (Z.eqb_spec x1 x2); destruct (Z.eqb_spec y1 y2); cbn [andb];
      try reflexivity. lia.
  - intros sheet a b c d.
    destruct ((x1 =? x2) && (y1 =? y2)); [discriminate|].
    intros [= _ <- <- <- <-]. lia.
Qed.

(** C6, as the code has it.  Range normalisation fails with [ErrParameterRequired]
    on the empty string; with [ErrParameterInvalid] when the string does not
    have exactly one sheet separator, and when the two corners coincide; with
    the error of the coordinate parser, returned as it is, when the address
    does not parse into two cell coordinates; and it succeeds on every other
    range. *)
Theorem adjustRange_failures :
  adjustRange "" = Err ErrParameterRequired /\
  (forall rangeStr, rangeStr <> "" -> strings.Count rangeStr "!" <> 1%nat ->
     adjustRange rangeStr = Err ErrParameterInvalid) /\
  (forall rangeStr err, strings.Count rangeStr "!" = 1%nat ->
     areaRefToCoordinates (addressOf rangeStr) = Err err ->
     adjustRange rangeStr = Err err) /\
  (forall rangeStr x y, strings.Count rangeStr "!" = 1%nat ->
     areaRefToCoordinates (addressOf rangeStr) = Ok (x, y, x, y) ->
     adjustRange rangeStr = Err ErrParameterInvalid) /\
  (forall rangeStr x1 y1 x2 y2, strings.Count rangeStr "!" = 1%nat ->
     areaRefToCoordinates (addressOf rangeStr) = Ok (x1, y1, x2, y2) ->
     x1 <> x2 \/ y1 <> y2 ->
     adjustRange rangeStr
     = Ok (sheetOf rangeStr, canonicalBox (x1, y1, x2, y2))).
Proof.
  split; [reflexivity|]. split; [|split; [|split]].
  - intros rangeStr Hne Hsep. unfold adjustRange.
    destruct rangeStr as [|c s]; [contradiction|]. cbn [String.length Nat.ltb Nat.leb].
    rewrite length_Split.
    destruct (Nat.eqb_spec (S (strings.Count (String c s) "!")) 2); [lia | reflexivity].
  - intros rangeStr err Hsep Hparse.
    rewrite (adjustRange_one_separator rangeStr Hsep), Hparse. reflexivity.
  - intros rangeStr x y Hsep Hparse.
    rewrite (adjustRange_one_separator rangeStr Hsep), Hparse, !Z.eqb_refl.
    reflexivity.
  - intros rangeStr x1 y1 x2 y2 Hsep Hparse Hdistinct.
    rewrite (adjustRange_one_separator rangeStr Hsep), Hparse.
    destruct (Z.eqb_spec x1 x2); destruct (Z.eqb_spec y1 y2); cbn [andb];
      try reflexivity. lia.
Qed.

End RangeNormalizer.

Section RangeNormalizerOnBook.

#[local] Existing Instance SheetHost.host.

Lemma adjustRange_swapped_corners_witness :
  adjustRange "Sheet1!$E$31:$A$1" = adjustRange "Sheet1!$A$1:$E$31" /\
  (1 <> 5 \/ 1 <> 31 ->
   adjustRange "Sheet1!$A$1:$E$31"
   = Ok (sheetOf "Sheet1!$A$1:$E$31",
         (Z.min 1 5, Z.min 1 31, Z.max 1 5, Z.max 1 31))) /\
  (forall sheet a b c d,
     adjustRange "Sheet1!$A$1:$E$31" = Ok (sheet, (a, b, c, d)) -> a <= c /\ b <= d).
Proof.
  apply (adjustRange_swapped_corners "Sheet1!$A$1:$E$31" "Sheet1!$E$31:$A$1"
           1 1 5 31 (5, 31, 1, 1)).
  - reflexivity.
  - reflexivity.
  - reflexivity.
  - vm_compute. reflexivity.
  - vm_compute. reflexivity.
  - right. right. reflexivity.
Defined.

Example adjustRange_reversed :
  adjustRange "Sheet1!$E$31:$A$1" = Ok ("Sheet1", (1, 1, 5, 31)) /\
  adjustRange "Sheet1!$E$1:$A$31" = Ok ("Sheet1", (1, 1, 5, 31)) /\
  adjustRange "Sheet1!$A$31:$E$1" = Ok ("Sheet1", (1, 1, 5, 31)).
Proof. vm_compute. repeat split; reflexivity. Qed.

Lemma adjustRange_failures_witness :
  adjustRange "" = Err ErrParameterRequired /\
  adjustRange "Sheet1$A$1:$E$31" = Err ErrParameterInvalid /\
  adjustRange "Sheet1!A1!E31" = Err ErrParameterInvalid /\
  adjustRange "Sheet1!$A$1" = Err ErrParameterInvalid /\
  adjustRange "Sheet1!$C$1:$C$1" = Err ErrParameterInvalid /\
  adjustRange "Sheet1!$G$2:$M$34" = Ok ("Sheet1", (7, 2, 13, 34)).
Proof.
  destruct (@adjustRange_failures SheetHost.host)
    as (Hempty & Hsep & Hparse & Hsame & Hok).
  split; [exact Hempty|].
  split; [apply Hsep; [discriminate | vm_compute; discriminate]|].
  split; [apply Hsep; [discriminate | vm_compute; discriminate]|].
  split; [apply (Hparse _ ErrParameterInvalid); vm_compute; reflexivity|].
  split; [apply (Hsame _ 3 1); vm_compute; reflexivity|].
  apply (Hok "Sheet1!$G$2:$M$34" 7 2 13 34);
    [vm_compute; reflexivity | vm_compute; reflexivity | left; lia].
Defined.

(** C6, as stated, fails in the case of an address that does not parse:
    [adjustRange] returns the error of the coordinate parser as it is, so the
    failure is [ErrParameterInvalid] only when the parser reports that.  With
    a parser that reports a cell reference which is not a cell name with the
    error of the conversion of that cell, the range [Sheet1!A:E31] fails
    with that error. *)
Lemma parser_error_not_replaced :
  ~ (forall (host : Host) (rangeStr : string) (err : error),
       strings.Count rangeStr "!" = 1%nat ->
       @areaRefToCoordinates host (addressOf rangeStr) = Err err ->
       @adjustRange host rangeStr = Err ErrParameterInvalid).
Proof.
  intros H.
  specialize (H cellNameHost "Sheet1!A:E31"
                (ErrCollaborator "cannot convert cell to coordinates: A")
                eq_refl ltac:(vm_compute; reflexivity)).
  vm_compute in H. discriminate H.
Qed.

(** The same range with the two parsers: the error is the one of the
    parser. *)
Example parser_error_passed_on :
  @adjustRange cellNameHost "Sheet1!A:E31"
  = Err (ErrCollaborator "cannot convert cell to coordinates: A") /\
  @adjustRange SheetHost.host "Sheet1!A:E31" = Err ErrParameterInvalid /\
  @adjustRange cellNameHost "Sheet1!$A$1" = Err ErrParameterInvalid /\
  @adjustRange cellNameHost "Sheet1!$E$31:$A$1" = Ok ("Sheet1", (1, 1, 5, 31)).
Proof. vm_compute. repeat split; reflexivity. Qed.

End RangeNormalizerOnBook.

(** ** Identifiers *)

Section Identifiers.

Lemma count_parts (substr : string) (m : gmap string string) :
  map_fold
    (fun (k : string) (v : string) (count : Z) =>
       if strings.Contains k substr then count + 1 else count) 0 m
  = Z.of_nat
      (size (filter (fun p : string * string =>
                       strings.Contains (fst p) substr = true) m)).
Proof.
  apply (map_fold_weak_ind
           (fun count m =>
              count = Z.of_nat
                        (size (filter (fun p : string * string =>
                                         strings.Contains (fst p) substr = true) m)))).
  - rewrite map_filter_empty, map_size_empty. reflexivity.
  - intros k v m' count Hfresh ->.
    destruct (strings.Contains k substr) eqn:E.
    + rewrite map_filter_insert_True by exact E.
      rewrite map_size_insert_None; [lia|].
      apply map_lookup_filter_None. left. exact Hfresh.
    + rewrite map_filter_insert_not; [reflexivity|].
      intros y. simpl. congruence.
Qed.

Lemma countPivotTables_size (f : File) :
  countPivotTables f = Z.of_nat (size (partsContaining "xl/pivotTables/pivotTable" f)).
Proof. apply count_parts. Qed.

Lemma countPivotCache_size (f : File) :
  countPivotCache f
  = Z.of_nat (size (partsContaining "xl/pivotCache/pivotCacheDefinition" f)).
Proof. apply count_parts. Qed.

Lemma fold_cacheID (l : list xlsxPivotCache) (c : Z) :
  let r :=
    fold_left
      (fun cacheID pivotCache =>
         if CacheID pivotCache >? cacheID then CacheID pivotCache else cacheID) l c in
  c <= r /\ (forall x, In x (map CacheID l) -> x <= r)
  /\ (r = c \/ In r (map CacheID l)).
Proof.
  revert c. induction l as [|pc l IH]; intros c; cbn zeta.
  - simpl. split; [lia|]. split; [intros x []|]. left. reflexivity.
  - cbn [fold_left map].
    specialize (IH (if CacheID pc >? c then CacheID pc else c)). cbn zeta in IH.
    destruct IH as (Hle & Hall & Hin).
    destruct (Z.gtb_spec (CacheID pc) c).
    + split; [lia|]. split.
      * intros x [<- | Hx]; [exact Hle | apply Hall, Hx].
      * right. destruct Hin as [-> | Hin]; [left; reflexivity | right; exact Hin].
    + split; [exact Hle|]. split.
      * intros x [<- | Hx]; [lia | apply Hall, Hx].
      * destruct Hin as [-> | Hin]; [left; reflexivity | right; right; exact Hin].
Qed.

Lemma addWorkbookPivotCache_max (f : File) (RID m : Z) :
  IsMax m (registryIDs f) ->
  snd (addWorkbookPivotCache f RID) = int64 (Z.max 1 m + 1).
Proof.
  intros [Hin Hmax]. unfold addWorkbookPivotCache. cbn [snd].
  unfold registryIDs in Hin, Hmax.
  destruct (PivotCaches (WorkBook f)) as [caches|]; [|contradiction].
  cbn [from_option default] in *.
  destruct (fold_cacheID (PivotCache caches) 1) as (Hle & Hall & Hr).
  cbn zeta in Hle, Hall, Hr.
  specialize (Hall m Hin).
  match goal with
  | |- int64 (?r + 1) = _ => replace r with (Z.max 1 m); [reflexivity|]
  end.
  unfold id. destruct Hr as [Hr | Hr]; [lia|]. specialize (Hmax _ Hr). lia.
Qed.

Lemma addWorkbookPivotCache_empty (f : File) (RID : Z) :
  registryIDs f = [] -> snd (addWorkbookPivotCache f RID) = 2.
Proof.
  unfold registryIDs, addWorkbookPivotCache. cbn [snd].
  destruct (PivotCaches (WorkBook f)) as [[l]|]; cbn [from_option default PivotCache].
  - destruct l; [reflexivity | discriminate].
  - reflexivity.
Qed.

Lemma int64_small (z : Z) : - 2 ^ 63 <= z < 2 ^ 63 -> int64 z = z.
Proof.
  intros H. unfold int64. rewrite Z.mod_small by lia. lia.
Qed.

(** C4, as the code has it.  The pivot-table and the pivot-cache sequence
    numbers are each the number of package parts whose name contains the
    path fragment of the kind, plus one.  The workbook registry ID is one
    more than the larger of 1 and the maximum of the registry IDs, as a
    64-bit integer: it is the maximum plus one when the maximum is at least
    1, and 2 when the registry is empty.  The new ID is appended to the
    registry. *)
Theorem id_allocation (f : File) (RID : Z) :
  pivotTableID f
    = Z.of_nat (size (partsContaining "xl/pivotTables/pivotTable" f)) + 1 /\
  pivotCacheID f
    = Z.of_nat (size (partsContaining "xl/pivotCache/pivotCacheDefinition" f)) + 1 /\
  (registryIDs f = [] -> snd (addWorkbookPivotCache f RID) = 2) /\
  (forall m, IsMax m (registryIDs f) ->
     snd (addWorkbookPivotCache f RID) = int64 (Z.max 1 m + 1)) /\
  (forall m, IsMax m (registryIDs f) -> 1 <= m < 2 ^ 63 - 1 ->
     snd (addWorkbookPivotCache f RID) = m + 1) /\
  registryIDs (fst (addWorkbookPivotCache f RID))
    = registryIDs f ++ [snd (addWorkbookPivotCache f RID)].
Proof.
  split; [unfold pivotTableID; rewrite countPivotTables_size; reflexivity|].
  split; [unfold pivotCacheID; rewrite countPivotCache_size; reflexivity|].
  split; [apply addWorkbookPivotCache_empty|].
  split; [intros m; apply addWorkbookPivotCache_max|].
  split.
  - intros m Hm Hrange. rewrite (addWorkbookPivotCache_max f RID m Hm).
    rewrite int64_small by lia. lia.
  - unfold addWorkbookPivotCache, registryIDs.
    cbn [fst snd WorkBook set_WorkBook PivotCaches from_option PivotCache].
    rewrite map_app. cbn [map CacheID].
    destruct (PivotCaches (WorkBook f)); reflexivity.
Qed.

Lemma id_allocation_witness :
  snd (addWorkbookPivotCache (bookWithRegistry [2; 7; 3]) 4) = 7 + 1.
Proof.
  refine (proj1 (proj2 (proj2 (proj2 (proj2
            (id_allocation (bookWithRegistry [2; 7; 3]) 4))))) 7 _ _).
  - unfold IsMax. change (registryIDs (bookWithRegistry [2; 7; 3])) with [2; 7; 3].
    split; [right; left; reflexivity|].
    intros x Hx. simpl in Hx. lia.
  - lia.
Defined.

(** C4, as stated, fails: the registry ID is not the maximum of the
    existing registry IDs plus one when that maximum is below 1. *)
Lemma registry_id_not_max_plus_one :
  ~ (forall (f : File) (RID m : Z),
       IsMax m (registryIDs f) -> snd (addWorkbookPivotCache f RID) = m + 1).
Proof.
  intros H. specialize (H (bookWithRegistry [0]) 1 0).
  assert (Hmax : IsMax 0 (registryIDs (bookWithRegistry [0]))).
  { unfold IsMax. change (registryIDs (bookWithRegistry [0])) with [0].
    split; [left; reflexivity|]. intros x Hx. simpl in Hx. lia. }
  specialize (H Hmax). vm_compute in H. discriminate H.
Qed.

(** The first registry ID of a workbook is 2. *)
Example first_registry_id : snd (addWorkbookPivotCache SheetHost.book 1) = 2.
Proof. reflexivity. Qed.

(** The count is of the names that contain the fragment, wherever it is. *)
Example count_by_substring :
  String.prefix "xl/pivotTables/pivotTable" "backup/xl/pivotTables/pivotTable1.xml" = false /\
  pivotTableID (bookWithParts ["backup/xl/pivotTables/pivotTable1.xml"]) = 2.
Proof. vm_compute. split; reflexivity. Qed.

(** A gap is used again: with [pivotTable2.xml] the only table part, the
    next sequence number is 2. *)
Example count_fills_gap :
  pivotTableID (bookWithParts ["xl/pivotTables/pivotTable2.xml"]) = 2.
Proof. vm_compute. reflexivity. Qed.

End Identifiers.

(** ** Validation before any write *)

Section Validation.

Context {host : Host}.

(** The validation stage fails exactly on the first failing check, with
    the error of that check. *)
Lemma parseFormatPivotTableSet_failures (f : File) (opts : option PivotTableOption)
    (err : error) :
  parseFormatPivotTableSet f opts = Err err <-> validationFailure f opts err.
Proof.
  unfold validationFailure, parseFormatPivotTableSet, resolveDataRange. split.
  - destruct opts as [o|]; [|intros [= <-]; left; split; reflexivity].
    destruct (adjustRange (PivotTableRange o)) as [[sheet box]|e] eqn:Hplace;
      [|intros [= <-]; right; left; exists o, e; repeat split; first [reflexivity | assumption]].
    cbn [DataRange set_pivotTableSheetName pivotTableSheetName].
    destruct (adjustRange
                (if String.eqb (getDefinedNameRefTo f (DataRange o) sheet) ""
                 then DataRange o else getDefinedNameRefTo f (DataRange o) sheet))
      as [[dataSheet dataBox]|e] eqn:Hdata;
      [|intros [= <-]; right; right; left; exists o, sheet, box, e;
        repeat split; first [reflexivity | assumption]].
    destruct (workSheetReader f dataSheet) as [e|] eqn:Hsheet;
      [intros [= <-]; right; right; right; left;
       exists o, sheet, box, dataSheet, dataBox; repeat split; first [reflexivity | assumption]|].
    destruct (getSheetXMLPath f sheet) as [path ok] eqn:Hpath.
    destruct ok; [discriminate|]. cbn [negb]. intros [= <-].
    right; right; right; right.
    exists o, sheet, box, dataSheet, dataBox, path. repeat split; first [reflexivity | assumption].
  - intros [[-> ->] | [(o & e & -> & Hplace & ->)
             | [(o & sheet & box & e & -> & Hplace & Hdata & ->)
             | [(o & sheet & box & dataSheet & dataBox & -> & Hplace & Hdata & Hsheet)
             | (o & sheet & box & dataSheet & dataBox & path & -> & Hplace & Hdata
                & Hsheet & Hpath & ->)]]]].
    + reflexivity.
    + rewrite Hplace. reflexivity.
    + rewrite Hplace. cbn in Hdata |- *. rewrite Hdata. reflexivity.
    + rewrite Hplace. cbn in Hdata |- *. rewrite Hdata, Hsheet. reflexivity.
    + rewrite Hplace. cbn in Hdata |- *. rewrite Hdata, Hsheet, Hpath. reflexivity.
Qed.

(** C8.  [AddPivotTable] validates before it builds or stores anything:
    whenever the validation stage returns an error, which it does on the
    first failing check among nil options, the placement range, the data
    range after defined-name resolution, the data sheet and the placement
    sheet, [AddPivotTable] returns that error and the document is the one it
    was given: no part is written, no relationship created, no registry entry
    added. *)
Theorem validation_failure_leaves_document (f : File)
    (opts : option PivotTableOption) (err : error) :
  parseFormatPivotTableSet f opts = Err err ->
  validationFailure f opts err /\
  AddPivotTable f opts = (f, Some err).
Proof.
  intros Hvalidation. split.
  - apply parseFormatPivotTableSet_failures. exact Hvalidation.
  - unfold AddPivotTable. rewrite Hvalidation. reflexivity.
Qed.

(** Every failing check makes [AddPivotTable] return with the document
    as it was. *)
Corollary failing_check_leaves_document (f : File)
    (opts : option PivotTableOption) (err : error) :
  validationFailure f opts err -> AddPivotTable f opts = (f, Some err).
Proof.
  intros Hfail. apply parseFormatPivotTableSet_failures in Hfail.
  unfold AddPivotTable. rewrite Hfail. reflexivity.
Qed.

End Validation.

Section ValidationOnBook.

#[local] Existing Instance SheetHost.host.

Lemma validation_failure_leaves_document_witness :
  parseFormatPivotTableSet SheetHost.book (Some placedOnMissingSheet)
    = Err (ErrSheetNotExist "Sheet9") /\
  AddPivotTable SheetHost.book (Some placedOnMissingSheet)
    = (SheetHost.book, Some (ErrSheetNotExist "Sheet9")).
Proof.
  assert (Hvalidation :
            parseFormatPivotTableSet SheetHost.book (Some placedOnMissingSheet)
            = Err (ErrSheetNotExist "Sheet9")) by (vm_compute; reflexivity).
  split; [exact Hvalidation|].
  exact (proj2 (validation_failure_leaves_document SheetHost.book
                  (Some placedOnMissingSheet) (ErrSheetNotExist "Sheet9")
                  Hvalidation)).
Defined.

(** A call that passes validation does write: the two parts, the registry
    entry with ID 2, three relationships and two content types. *)
Example documented_call_writes :
  let f := fst (AddPivotTable SheetHost.book (Some documented)) in
  snd (AddPivotTable SheetHost.book (Some documented)) = None /\
  map fst (map_to_list (Pkg f))
    = ["xl/pivotCache/pivotCacheDefinition1.xml"; "xl/pivotTables/pivotTable1.xml"] /\
  registryIDs f = [2] /\
  ContentTypes f = [(1, "pivotTable"); (1, "pivotCache")] /\
  size (Relationships f) = 3%nat.
Proof. vm_compute. repeat split; reflexivity. Qed.

(** A second call takes the sequence number 2 and the registry ID 3. *)
Example second_call_ids :
  let f := fst (AddPivotTable SheetHost.book (Some documented)) in
  pivotTableID f = 2 /\ pivotCacheID f = 2 /\
  registryIDs (fst (AddPivotTable f (Some documented))) = [2; 3].
Proof. vm_compute. repeat split; reflexivity. Qed.

(** The table definition of the documented call: five pivot fields, one
    page, row and column field for Region, Month and Type (Year is a second
    row field), and one data field named Summarize with subtotal [sum]. *)
Example documented_table :
  let pt := pivotTableDefinition SheetHost.book 2 1 documented (7, 2, 13, 34) in
  PivotFields_Count (PivotFields pt) = 5 /\
  PageFields pt
  = Some {| PageFields_Count := 1;
            PageFields_PageField := [{| PageField_Name := ""; PageField_Fld := 4 |}] |} /\
  RowFields pt
  = Some {| RowFields_Count := 2;
            RowFields_Field := [{| Field_X := 0 |}; {| Field_X := 1 |}] |} /\
  ColFields pt
  = Some {| ColFields_Count := 1; ColFields_Field := [{| Field_X := 2 |}] |} /\
  DataFields pt
  = Some {| DataFields_Count := 1;
            DataFields_DataField :=
              [{| DataField_Name := "Summarize"; DataField_Fld := 3;
                  DataField_Subtotal := "sum" |}] |}.
Proof. vm_compute. repeat split; reflexivity. Qed.

End ValidationOnBook.

(** * Further properties of the pipeline *)

(** ** Lookups in an axis list *)

Section FieldLookups.

Lemma inPivotTableField_from_find (a : list PivotTableField) (x : string) (idx : Z) :
  0 <= idx ->
  inPivotTableField_from idx a x
  = match list_find (fun n => Data n = x) a with
    | Some (i, _) => idx + Z.of_nat i
    | None => -1
    end.
Proof.
  revert idx. induction a as [|n a IH]; intros idx Hidx; [reflexivity|].
  cbn [inPivotTableField_from list_find]. destruct (String.eqb_spec x (Data n)) as [E|E].
  - rewrite decide_True by congruence. simpl. lia.
  - rewrite decide_False by congruence. rewrite IH by lia.
    destruct (list_find (fun n0 => Data n0 = x) a) as [[i y]|]; simpl; [lia | reflexivity].
Qed.

Lemma getPivotTableFieldOptions_find (name : string) (fields : list PivotTableField) :
  getPivotTableFieldOptions name fields
  = match list_find (fun n => Data n = name) fields with
    | Some (_, fld) => (fld, true)
    | None => (zeroField, false)
    end.
Proof.
  induction fields as [|field rest IH]; [reflexivity|].
  cbn [getPivotTableFieldOptions list_find].
  destruct (String.eqb_spec (Data field) name) as [E|E].
  - rewrite decide_True by exact E. reflexivity.
  - rewrite decide_False by exact E. rewrite IH.
    destruct (list_find (fun n => Data n = name) rest) as [[i y]|]; reflexivity.
Qed.

Lemma getPivotTableFieldName_from_find (fieldsName : list string) (idx : nat)
    (fields : list PivotTableField) (name : string) :
  getPivotTableFieldName_from fieldsName idx fields name
  = match list_find (fun n => Data n = name) fields with
    | Some (i, _) => default "" (fieldsName !! (idx + i)%nat)
    | None => ""
    end.
Proof.
  revert idx. induction fields as [|field rest IH]; intros idx; [reflexivity|].
  cbn [getPivotTableFieldName_from list_find].
  destruct (String.eqb_spec (Data field) name) as [E|E].
  - rewrite decide_True by exact E. simpl. rewrite Nat.add_0_r. reflexivity.
  - rewrite decide_False by exact E. rewrite IH.
    destruct (list_find (fun n => Data n = name) rest) as [[i y]|]; simpl;
      [|reflexivity].
    do 2 f_equal. lia.
Qed.

Lemma firstAt_find (fields : list PivotTableField) (name : string) (i : nat)
    (fld : PivotTableField) :
  firstAt fields name i fld <-> list_find (fun n => Data n = name) fields = Some (i, fld).
Proof.
  rewrite list_find_Some. unfold firstAt. split.
  - intros (H1 & H2 & H3). split; [exact H1|]. split; [exact H2|].
    intros j y Hy Hj. exact (H3 j y Hj Hy).
  - intros (H1 & H2 & H3). split; [exact H1|]. split; [exact H2|].
    intros j y Hj Hy. exact (H3 j y Hy Hj).
Qed.

Lemma not_declared_find (fields : list PivotTableField) (name : string) :
  ~ declared fields name <-> list_find (fun n => Data n = name) fields = None.
Proof.
  rewrite list_find_None, Forall_forall. unfold declared. split.
  - intros H fld Hin Hd. apply H. exists fld. split; [apply list_elem_of_In, Hin | exact Hd].
  - intros H (fld & Hin & Hd). exact (H fld (proj2 (list_elem_of_In _ _) Hin) Hd).
Qed.

(** X1.  The three lookups of an axis list pick the same entry, the first
    one whose [Data] is the name: [inPivotTableField] returns its index,
    [getPivotTableFieldOptions] returns it with [true], and
    [getPivotTableFieldName] returns its display name cut to
    [MaxFieldLength] bytes; later entries of the same name are never used.
    When no entry has the name they return -1, the zero value with [false],
    and the empty string. *)
Theorem field_lookups_agree (fields : list PivotTableField) (name : string) :
  (forall i fld, firstAt fields name i fld ->
     inPivotTableField fields name = Z.of_nat i /\
     getPivotTableFieldOptions name fields = (fld, true) /\
     getPivotTableFieldName name fields = truncateName (Name fld)) /\
  (~ declared fields name ->
     inPivotTableField fields name = -1 /\
     getPivotTableFieldOptions name fields = (zeroField, false) /\
     getPivotTableFieldName name fields = "") /\
  (declared fields name -> exists i fld, firstAt fields name i fld).
Proof.
  unfold inPivotTableField, getPivotTableFieldName.
  rewrite inPivotTableField_from_find by lia.
  rewrite getPivotTableFieldOptions_find, getPivotTableFieldName_from_find.
  split; [|split].
  - intros i fld Hfirst. pose proof Hfirst as (Hi & _ & _).
    apply firstAt_find in Hfirst. rewrite Hfirst.
    split; [lia|]. split; [reflexivity|].
    rewrite getPivotTableFieldsName_map, list_lookup_fmap. simpl. rewrite Hi.
    reflexivity.
  - intros Hno. apply not_declared_find in Hno. rewrite Hno. repeat split.
  - intros Hdecl.
    destruct (list_find (fun n => Data n = name) fields) as [[i fld]|] eqn:E.
    + exists i, fld. apply firstAt_find, E.
    + exfalso. apply not_declared_find in E. exact (E Hdecl).
Qed.

Lemma field_lookups_agree_witness :
  inPivotTableField yearTwice "Year" = Z.of_nat 1 /\
  getPivotTableFieldOptions "Year" yearTwice
  = ({| Compact := true; Data := "Year"; Name := "Fiscal year"; Outline := false;
        Subtotal := "Max"; DefaultSubtotal := true |}, true) /\
  getPivotTableFieldName "Year" yearTwice
  = truncateName
      (Name {| Compact := true; Data := "Year"; Name := "Fiscal year";
               Outline := false; Subtotal := "Max"; DefaultSubtotal := true |}).
Proof.
  apply (proj1 (field_lookups_agree yearTwice "Year") 1%nat).
  split; [reflexivity|]. split; [reflexivity|].
  intros j fld' Hj Hfld. assert (j = 0%nat) as -> by lia.
  injection Hfld as <-. discriminate.
Defined.

End FieldLookups.

(** ** Display names and aggregation tags *)

Section NamesAndTags.

Lemma length_substring_0 (n : nat) (s : string) :
  String.length (String.substring 0 n s) = Nat.min n (String.length s).
Proof.
  revert n. induction s as [|c s IH]; intros [|n]; simpl; try reflexivity.
  rewrite IH. reflexivity.
Qed.

Lemma prefix_substring_0 (n : nat) (s : string) :
  String.prefix (String.substring 0 n s) s = true.
Proof.
  revert n. induction s as [|c s IH]; intros [|n]; simpl; try reflexivity.
  destruct (Ascii.ascii_dec c c); [apply IH | contradiction].
Qed.

Lemma prefix_refl (s : string) : String.prefix s s = true.
Proof.
  induction s as [|c s IH]; simpl; [reflexivity|].
  destruct (Ascii.ascii_dec c c); [exact IH | contradiction].
Qed.

(** X2.  [getPivotTableFieldsName] returns one name per entry, in order:
    the display name itself when it has at most [MaxFieldLength] bytes, and
    otherwise its first [MaxFieldLength] bytes.  No prepared name is longer
    than [MaxFieldLength]. *)
Theorem getPivotTableFieldsName_truncates (fields : list PivotTableField) :
  length (getPivotTableFieldsName fields) = length fields /\
  forall (i : nat) (fld : PivotTableField), fields !! i = Some fld ->
    exists name,
      getPivotTableFieldsName fields !! i = Some name /\
      (String.length name <= MaxFieldLength)%nat /\
      String.prefix name (Name fld) = true /\
      ((String.length (Name fld) <= MaxFieldLength)%nat -> name = Name fld) /\
      ((MaxFieldLength < String.length (Name fld))%nat ->
       String.length name = MaxFieldLength).
Proof.
  rewrite getPivotTableFieldsName_map. split; [apply length_map|].
  intros i fld Hfld. rewrite list_lookup_fmap, Hfld. cbn [fmap option_fmap option_map].
  eexists. split; [reflexivity|].
  destruct (Nat.ltb_spec MaxFieldLength (String.length (Name fld))) as [Hlong|Hshort].
  - rewrite length_substring_0, prefix_substring_0.
    repeat split; intros; first [lia | reflexivity].
  - rewrite prefix_refl. repeat split; intros; first [lia | reflexivity].
Qed.

Lemma getPivotTableFieldsName_truncates_witness :
  exists name,
    getPivotTableFieldsName [longName] !! 0%nat = Some name /\
    (String.length name <= MaxFieldLength)%nat /\
    String.prefix name (Name longName) = true /\
    ((String.length (Name longName) <= MaxFieldLength)%nat -> name = Name longName) /\
    ((MaxFieldLength < String.length (Name longName))%nat ->
     String.length name = MaxFieldLength).
Proof.
  apply (proj2 (getPivotTableFieldsName_truncates [longName]) 0%nat longName).
  reflexivity.
Defined.

Example longName_cut :
  String.length (Name longName) = 300%nat /\
  String.length <$> getPivotTableFieldsName [longName] !! 0%nat = Some 255%nat.
Proof. vm_compute. split; reflexivity. Qed.

Lemma inEnums_In (l : list string) (val : string) :
  In "sum" l -> In (inEnums l val) l.
Proof.
  induction l as [|e l IH]; intros Hsum; [contradiction|].
  simpl. destruct (strings.EqualFold e val); [left; reflexivity|].
  destruct Hsum as [-> | Hsum].
  - destruct (in_dec String.string_dec (inEnums l val) l) as [Hin | Hout];
      [right; exact Hin|].
    left. clear IH. induction l as [|e' l IH']; [reflexivity|].
    simpl in *. destruct (strings.EqualFold e' val); [tauto|].
    apply IH'. tauto.
  - right. apply IH, Hsum.
Qed.

Lemma inEnums_member (enum : string) : In enum enums -> inEnums enums enum = enum.
Proof.
  intros Hin. apply inEnums_match; [exact Hin| |].
  - intros e He Hm. rewrite (EqualFold_simpleFold e _ (enum_ASCII e He)) in Hm.
    apply String.eqb_eq in Hm. apply enums_fold_injective; congruence.
  - rewrite (EqualFold_simpleFold enum _ (enum_ASCII enum Hin)).
    apply String.eqb_refl.
Qed.

(** X3.  The normalisation of aggregation tags is idempotent: entries whose
    tags are the tags that [getPivotTableFieldsSubtotal] returned get the same
    tags back; a canonical spelling is kept as it is. *)
Theorem subtotal_normalization_idempotent (fields fields' : list PivotTableField) :
  map Subtotal fields' = getPivotTableFieldsSubtotal fields ->
  getPivotTableFieldsSubtotal fields' = getPivotTableFieldsSubtotal fields.
Proof.
  intros Htags. rewrite (getPivotTableFieldsSubtotal_map fields').
  rewrite <- Htags. rewrite <- (map_map Subtotal (inEnums enums)).
  rewrite Htags, getPivotTableFieldsSubtotal_map.
  rewrite map_map. apply map_ext. intros fld.
  apply inEnums_member, inEnums_In. vm_compute. tauto.
Qed.

Lemma subtotal_normalization_idempotent_witness :
  map Subtotal canonicalTags = getPivotTableFieldsSubtotal rawTags /\
  getPivotTableFieldsSubtotal canonicalTags = getPivotTableFieldsSubtotal rawTags.
Proof.
  assert (Htags : map Subtotal canonicalTags = getPivotTableFieldsSubtotal rawTags)
    by reflexivity.
  split; [exact Htags|].
  exact (subtotal_normalization_idempotent rawTags canonicalTags Htags).
Defined.

End NamesAndTags.

(** ** Range strings *)

Section RangeStrings.

Context {host : Host}.

Lemma Split_no_sep (s : string) (sep : ascii) :
  strings.Count s sep = 0%nat -> strings.Split s sep = [s].
Proof.
  induction s as [|c s IH]; [reflexivity|].
  simpl. destruct (Ascii.eqb c sep); [discriminate|].
  simpl. intros H. rewrite (IH H). reflexivity.
Qed.

Lemma Split_app (sheet rest : string) (sep : ascii) :
  strings.Count sheet sep = 0%nat ->
  strings.Split (sheet +:+ String sep rest) sep = sheet :: strings.Split rest sep.
Proof.
  induction sheet as [|c s IH].
  - intros _. simpl. rewrite Ascii.eqb_refl. reflexivity.
  - simpl. destruct (Ascii.eqb c sep); [discriminate|].
    simpl. intros H. rewrite (IH H). reflexivity.
Qed.

Lemma Count_app (a b : string) (c : ascii) :
  strings.Count (a +:+ b) c = (strings.Count a c + strings.Count b c)%nat.
Proof.
  induction a as [|x a IH]; [reflexivity|].
  simpl. rewrite IH. lia.
Qed.

Lemma RemoveAll_idempotent (s : string) (old : ascii) :
  strings.RemoveAll (strings.RemoveAll s old) old = strings.RemoveAll s old.
Proof.
  induction s as [|c s IH]; [reflexivity|].
  simpl. destruct (Ascii.eqb c old) eqn:E; [exact IH|].
  simpl. rewrite E, IH. reflexivity.
Qed.

Lemma Count_RemoveAll (s : string) (old c : ascii) :
  old <> c -> strings.Count (strings.RemoveAll s old) c = strings.Count s c.
Proof.
  intros Hne. induction s as [|x s IH]; [reflexivity|].
  simpl. destruct (Ascii.eqb_spec x old) as [->|].
  - destruct (Ascii.eqb_spec old c); [contradiction|]. simpl. exact IH.
  - simpl. rewrite IH. reflexivity.
Qed.

Lemma sheet_and_address (sheet addr : string) :
  strings.Count sheet "!" = 0%nat -> strings.Count addr "!" = 0%nat ->
  strings.Count (sheet +:+ "!" +:+ addr) "!" = 1%nat /\
  sheetOf (sheet +:+ "!" +:+ addr) = sheet /\
  addressOf (sheet +:+ "!" +:+ addr) = strings.RemoveAll addr "$".
Proof.
  intros Hsheet Haddr. unfold sheetOf, addressOf.
  change (sheet +:+ "!" +:+ addr) with (sheet +:+ String "!" addr).
  rewrite (Split_app sheet addr "!" Hsheet), (Split_no_sep addr "!" Haddr).
  rewrite Count_app. simpl. rewrite Hsheet, Haddr. repeat split.
Qed.

Lemma adjustRange_one_separator_inv (rangeStr : string) (r : string * (Z * Z * Z * Z)) :
  adjustRange rangeStr = Ok r -> strings.Count rangeStr "!" = 1%nat.
Proof.
  unfold adjustRange. intros Hok.
  destruct (String.length rangeStr <? 1)%nat; [discriminate|].
  rewrite length_Split in Hok.
  destruct (Nat.eqb_spec (S (strings.Count rangeStr "!")) 2); [lia | discriminate].
Qed.

Lemma adjustRange_ordered (rangeStr sheet : string) (a b c d : Z) :
  adjustRange rangeStr = Ok (sheet, (a, b, c, d)) -> a <= c /\ b <= d.
Proof.
  intros Hok. pose proof (adjustRange_one_separator_inv _ _ Hok) as Hsep.
  rewrite (adjustRange_one_separator rangeStr Hsep) in Hok.
  destruct (areaRefToCoordinates (addressOf rangeStr)) as [[[[x1 y1] x2] y2]|err];
    [|discriminate].
  destruct ((x1 =? x2) && (y1 =? y2)); [discriminate|].
  injection Hok as _ <- <- <- <-. lia.
Qed.

(** X4.  Whenever [adjustRange] succeeds, the range string has exactly one
    sheet separator, the sheet name returned is the text before it, and the
    box returned is the canonical box of the two parsed corners: its
    coordinates are in order and it is never a single cell. *)
Theorem adjustRange_success (rangeStr sheet : string) (a b c d : Z) :
  adjustRange rangeStr = Ok (sheet, (a, b, c, d)) ->
  strings.Count rangeStr "!" = 1%nat /\
  sheet = sheetOf rangeStr /\
  a <= c /\ b <= d /\ (a < c \/ b < d) /\
  exists x1 y1 x2 y2,
    areaRefToCoordinates (addressOf rangeStr) = Ok (x1, y1, x2, y2) /\
    (a, b, c, d) = canonicalBox (x1, y1, x2, y2).
Proof.
  intros Hok.
  pose proof (adjustRange_one_separator_inv _ _ Hok) as Hsep.
  split; [exact Hsep|].
  rewrite (adjustRange_one_separator rangeStr Hsep) in Hok.
  destruct (areaRefToCoordinates (addressOf rangeStr)) as [[[[x1 y1] x2] y2]|err];
    [|discriminate].
  destruct (Z.eqb_spec x1 x2) as [Ex|Ex]; destruct (Z.eqb_spec y1 y2) as [Ey|Ey];
    cbn [andb] in Hok; try discriminate;
    injection Hok as <- <- <- <- <-;
    (split; [reflexivity|]); (split; [lia|]); (split; [lia|]); (split; [lia|]);
    exists x1, y1, x2, y2; split; reflexivity.
Qed.

(** X5.  For a sheet name and an address without sheet separator,
    [adjustRange] ignores the dollar signs of the address (the result is that
    of the address with them removed) and returns the sheet name as it is
    written, its own dollar signs included. *)
Theorem adjustRange_ignores_dollars (sheet addr : string) :
  strings.Count sheet "!" = 0%nat ->
  strings.Count addr "!" = 0%nat ->
  adjustRange (sheet +:+ "!" +:+ addr)
  = adjustRange (sheet +:+ "!" +:+ strings.RemoveAll addr "$") /\
  forall name box, adjustRange (sheet +:+ "!" +:+ addr) = Ok (name, box) -> name = sheet.
Proof.
  intros Hsheet Haddr.
  destruct (sheet_and_address sheet addr Hsheet Haddr) as (Hsep & Hname & Haddress).
  assert (Haddr' : strings.Count (strings.RemoveAll addr "$") "!" = 0%nat).
  { rewrite Count_RemoveAll; [exact Haddr | discriminate]. }
  destruct (sheet_and_address sheet _ Hsheet Haddr') as (Hsep' & Hname' & Haddress').
  rewrite RemoveAll_idempotent in Haddress'.
  rewrite (adjustRange_one_separator _ Hsep), (adjustRange_one_separator _ Hsep').
  rewrite Hname, Hname', Haddress, Haddress'. split; [reflexivity|].
  intros name box.
  destruct (areaRefToCoordinates (strings.RemoveAll addr "$"))
    as [[[[x1 y1] x2] y2]|err]; [|discriminate].
  destruct ((x1 =? x2) && (y1 =? y2)); [discriminate|].
  intros [= <- _]. reflexivity.
Qed.

End RangeStrings.

Section RangeStringsOnBook.

#[local] Existing Instance SheetHost.host.

Lemma adjustRange_success_witness :
  strings.Count "Sheet1!$E$31:$A$1" "!" = 1%nat /\
  "Sheet1" = sheetOf "Sheet1!$E$31:$A$1" /\
  1 <= 5 /\ 1 <= 31 /\ (1 < 5 \/ 1 < 31) /\
  exists x1 y1 x2 y2,
    areaRefToCoordinates (addressOf "Sheet1!$E$31:$A$1")
    = Ok (x1, y1, x2, y2) /\
    (1, 1, 5, 31) = canonicalBox (x1, y1, x2, y2).
Proof.
  apply (adjustRange_success "Sheet1!$E$31:$A$1" "Sheet1" 1 1 5 31).
  vm_compute. reflexivity.
Defined.

Lemma adjustRange_ignores_dollars_witness :
  adjustRange ("Pay$" +:+ "!" +:+ "$A$1:E$31")
  = adjustRange ("Pay$" +:+ "!" +:+ strings.RemoveAll "$A$1:E$31" "$") /\
  forall name box,
    adjustRange ("Pay$" +:+ "!" +:+ "$A$1:E$31") = Ok (name, box) -> name = "Pay$".
Proof.
  apply (adjustRange_ignores_dollars "Pay$" "$A$1:E$31"); reflexivity.
Defined.

Example adjustRange_dollar_sheet :
  adjustRange "Pay$!$A$1:E$31" = Ok ("Pay$", (1, 1, 5, 31)).
Proof. vm_compute. reflexivity. Qed.

End RangeStringsOnBook.

(** ** Header row *)

Section HeaderRow.

Context {host : Host}.

Lemma headerRow_spec (f : File) (dataSheet : string) (row : Z) (n : nat) (col : Z)
    (acc : list string) :
  exists names,
    fst (headerRow f dataSheet row n col acc) = acc ++ names /\
    (forall (i : nat) (name : string), names !! i = Some name ->
       GetCellValue f dataSheet (fst (CoordinatesToCellName (col + Z.of_nat i) row))
       = Ok name) /\
    match snd (headerRow f dataSheet row n col acc) with
    | None => length names = n
    | Some err =>
        (length names < n)%nat /\
        GetCellValue f dataSheet
          (fst (CoordinatesToCellName (col + Z.of_nat (length names)) row)) = Err err
    end.
Proof.
  revert col acc. induction n as [|n IH]; intros col acc.
  - exists []. simpl. rewrite app_nil_r. split; [reflexivity|].
    split; [intros i name [=] | reflexivity].
  - cbn [headerRow].
    destruct (GetCellValue f dataSheet (fst (CoordinatesToCellName col row)))
      as [name|err] eqn:Hcell.
    + destruct (IH (col + 1) (acc ++ [name])) as (names & Hfst & Hcells & Hsnd).
      exists (name :: names). rewrite Hfst, <- app_assoc. split; [reflexivity|].
      split.
      * intros [|i] name' Hi.
        -- injection Hi as <-. rewrite Z.add_0_r. exact Hcell.
        -- replace (col + Z.of_nat (S i)) with (col + 1 + Z.of_nat i) by lia.
           apply Hcells, Hi.
      * destruct (snd (headerRow f dataSheet row n (col + 1) (acc ++ [name])))
          as [err|].
        -- destruct Hsnd as [Hlt Herr]. split; [simpl; lia|].
           replace (col + Z.of_nat (length (name :: names)))
             with (col + 1 + Z.of_nat (length names)) by (simpl; lia).
           exact Herr.
        -- simpl. rewrite Hsnd. reflexivity.
    + exists []. simpl. rewrite app_nil_r. split; [reflexivity|].
      split; [intros i name [=]|]. split; [lia|]. rewrite Z.add_0_r. exact Hcell.
Qed.

(** X6.  [getPivotFieldsOrder] reads the first row of the normalised data
    range from left to right: every name it returns is the value of the
    header cell at its position.  Without error there is one name per column
    of the range, so at least one; on the first cell whose lookup fails it
    stops, and returns the names read so far with that cell's own error.  A
    data range that does not normalise gives no name and the error wrapped as
    a parsing error of [DataRange]. *)
Theorem header_order (f : File) (opts : PivotTableOption) :
  (forall err, adjustRange (resolveDataRange f opts) = Err err ->
     getPivotFieldsOrder f opts = ([], Some (ErrRangeParsing "DataRange" err))) /\
  (forall dataSheet c0 c1 c2 c3,
     adjustRange (resolveDataRange f opts) = Ok (dataSheet, (c0, c1, c2, c3)) ->
     let order := fst (getPivotFieldsOrder f opts) in
     (forall (i : nat) (name : string), order !! i = Some name ->
        GetCellValue f dataSheet (headerCell c0 c1 i) = Ok name) /\
     match snd (getPivotFieldsOrder f opts) with
     | None => Z.of_nat (length order) = c2 - c0 + 1 /\ order <> []
     | Some err =>
         Z.of_nat (length order) < c2 - c0 + 1 /\
         GetCellValue f dataSheet (headerCell c0 c1 (length order)) = Err err
     end).
Proof.
  unfold getPivotFieldsOrder. split.
  - intros err ->. reflexivity.
  - intros dataSheet c0 c1 c2 c3 Hrange. rewrite Hrange. cbv zeta.
    destruct (adjustRange_ordered _ _ _ _ _ _ Hrange) as [Hx _].
    destruct (headerRow_spec f dataSheet c1 (Z.to_nat (c2 - c0 + 1)) c0 [])
      as (names & Hfst & Hcells & Hsnd).
    rewrite Hfst. cbn [app]. split; [exact Hcells|].
    destruct (snd (headerRow f dataSheet c1 (Z.to_nat (c2 - c0 + 1)) c0 [])) as [err|].
    + destruct Hsnd as [Hlt Herr]. split; [lia | exact Herr].
    + split; [lia|]. intros ->. simpl in Hsnd. lia.
Qed.

End HeaderRow.

Section HeaderRowOnBook.

#[local] Existing Instance SheetHost.host.

Lemma header_order_witness :
  let order := fst (getPivotFieldsOrder SheetHost.book documented) in
  (forall (i : nat) (name : string), order !! i = Some name ->
     GetCellValue SheetHost.book "Sheet1" (headerCell 1 1 i) = Ok name) /\
  match snd (getPivotFieldsOrder SheetHost.book documented) with
  | None => Z.of_nat (length order) = 5 - 1 + 1 /\ order <> []
  | Some err =>
      Z.of_nat (length order) < 5 - 1 + 1 /\
      GetCellValue SheetHost.book "Sheet1" (headerCell 1 1 (length order)) = Err err
  end.
Proof.
  apply (proj2 (header_order SheetHost.book documented) "Sheet1" 1 1 5 31).
  vm_compute. reflexivity.
Defined.

(** A data sheet that is missing: no name is read, and the error is the
    one of the cell lookup, not a parsing error. *)
Example header_order_missing_sheet :
  getPivotFieldsOrder SheetHost.book onMissingDataSheet
  = ([], Some (ErrSheetNotExist "Sheet2")).
Proof. vm_compute. reflexivity. Qed.

End HeaderRowOnBook.

(** ** Sections of the table definition *)

Section Sections.

Context {host : Host}.

Lemma set_RowFields_eta (pt : xlsxPivotTableDefinition) :
  set_RowFields (RowFields pt) pt = pt.
Proof. destruct pt. reflexivity. Qed.

Lemma set_ColFields_eta (pt : xlsxPivotTableDefinition) :
  set_ColFields (ColFields pt) pt = pt.
Proof. destruct pt. reflexivity. Qed.

Lemma set_PageFields_eta (pt : xlsxPivotTableDefinition) :
  set_PageFields (PageFields pt) pt = pt.
Proof. destruct pt. reflexivity. Qed.

Lemma set_DataFields_eta (pt : xlsxPivotTableDefinition) :
  set_DataFields (DataFields pt) pt = pt.
Proof. destruct pt. reflexivity. Qed.

Lemma set_PivotFields_eta (pt : xlsxPivotTableDefinition) :
  set_PivotFields (PivotFields pt) pt = pt.
Proof. destruct pt. reflexivity. Qed.

(** Each builder writes its own section and nothing else. *)
Lemma addPivotFields_frame (f : File) (pt : xlsxPivotTableDefinition)
    (opts : PivotTableOption) :
  exists v, fst (addPivotFields f pt opts) = set_PivotFields v pt.
Proof.
  unfold addPivotFields.
  destruct (getPivotFieldsOrder f opts) as [order [err|]]; cbn [fst].
  - exists (PivotFields pt). symmetry. apply set_PivotFields_eta.
  - generalize 0 as x. intros x. revert pt.
    induction order as [|name order IH]; intros pt.
    + exists (PivotFields pt). symmetry. apply set_PivotFields_eta.
    + cbn [fold_left]. destruct (IH (appendPivotField (addPivotFields_field opts x name) pt))
        as [v Hv].
      exists v. rewrite Hv. reflexivity.
Qed.

Lemma rowFields_fold (index : list Z) (pt : xlsxPivotTableDefinition) :
  let pt' :=
    fold_left
      (fun pt fieldIdx =>
         let rf := default {| RowFields_Count := 0; RowFields_Field := [] |}
                     (RowFields pt) in
         set_RowFields
           (Some {| RowFields_Count := RowFields_Count rf;
                    RowFields_Field :=
                      RowFields_Field rf ++ [{| Field_X := fieldIdx |}] |}) pt)
      index pt in
  pt' = set_RowFields (RowFields pt') pt /\
  (RowFields pt = None ->
   RowFields pt'
   = match index with
     | [] => None
     | _ => Some {| RowFields_Count := 0;
                    RowFields_Field := map Build_xlsxField index |}
     end).
Proof.
  cbv zeta.
  assert (Hgen : forall index pt,
    let pt' :=
      fold_left
        (fun pt fieldIdx =>
           let rf := default {| RowFields_Count := 0; RowFields_Field := [] |}
                       (RowFields pt) in
           set_RowFields
             (Some {| RowFields_Count := RowFields_Count rf;
                      RowFields_Field :=
                        RowFields_Field rf ++ [{| Field_X := fieldIdx |}] |}) pt)
        index pt in
    pt' = set_RowFields (RowFields pt') pt /\
    (index <> [] ->
     RowFields pt'
     = Some {| RowFields_Count :=
                 RowFields_Count
                   (default {| RowFields_Count := 0; RowFields_Field := [] |}
                      (RowFields pt));
               RowFields_Field :=
                 RowFields_Field
                   (default {| RowFields_Count := 0; RowFields_Field := [] |}
                      (RowFields pt)) ++ map Build_xlsxField index |})).
  { clear. intros index. induction index as [|p rest IH]; intros pt; cbv zeta.
    - simpl. split; [symmetry; apply set_RowFields_eta | congruence].
    - cbn [fold_left]. cbv zeta in IH.
      match goal with
      | |- context [fold_left ?step rest ?pt1] =>
          destruct (IH pt1) as [Hframe Hval]
      end.
      split.
      + rewrite Hframe at 1. reflexivity.
      + intros _. destruct rest as [|q rest'].
        * reflexivity.
        * rewrite Hval by discriminate. cbn [RowFields set_RowFields default from_option
            RowFields_Count RowFields_Field id].
          rewrite <- app_assoc. reflexivity. }
  destruct (Hgen index pt) as [Hframe Hval]. cbv zeta in Hframe, Hval.
  split; [exact Hframe|].
  intros Hnone. destruct index as [|p rest]; [exact Hnone|].
  rewrite Hval by discriminate. rewrite Hnone. reflexivity.
Qed.

Lemma addPivotRowFields_frame (f : File) (pt : xlsxPivotTableDefinition)
    (opts : PivotTableOption) :
  exists v, fst (addPivotRowFields f pt opts) = set_RowFields v pt.
Proof.
  unfold addPivotRowFields.
  destruct (getPivotFieldsIndex f (Rows opts) opts) as [index|err]; cbn [fst].
  - destruct (rowFields_fold index pt) as [Hframe _]. cbv zeta in Hframe.
    match goal with
    | |- context [RowFields ?pt'] =>
        destruct (RowFields pt') as [rf|] eqn:Erf; cbn [fst]
    end.
    + eexists. rewrite Hframe. reflexivity.
    + eexists. exact Hframe.
  - exists (RowFields pt). symmetry. apply set_RowFields_eta.
Qed.

Lemma addPivotRowFields_section (f : File) (pt : xlsxPivotTableDefinition)
    (opts : PivotTableOption) :
  RowFields pt = None ->
  RowFields (fst (addPivotRowFields f pt opts))
  = match getPivotFieldsIndex f (Rows opts) opts with
    | Ok index => rowSection index
    | Err _ => None
    end.
Proof.
  intros Hnone. unfold addPivotRowFields.
  destruct (getPivotFieldsIndex f (Rows opts) opts) as [index|err]; [|exact Hnone].
  destruct (rowFields_fold index pt) as [_ Hval]. cbv zeta in Hval.
  specialize (Hval Hnone). rewrite Hval.
  destruct index as [|p rest]; cbn [fst]; [exact Hval|].
  cbn [RowFields set_RowFields RowFields_Field rowSection].
  rewrite length_map. reflexivity.
Qed.

End Sections.

Section SectionLoops.

Context {host : Host}.

Lemma pageFieldsLoop_spec (pageFieldsName : list string) (index : list Z) (idx : nat)
    (pt : xlsxPivotTableDefinition) :
  let pt' := pageFieldsLoop pageFieldsName idx index pt in
  let old := default {| PageFields_Count := 0; PageFields_PageField := [] |}
               (PageFields pt) in
  pt' = set_PageFields (PageFields pt') pt /\
  (index <> [] ->
   PageFields pt'
   = Some {| PageFields_Count := PageFields_Count old;
             PageFields_PageField :=
               PageFields_PageField old
               ++ imap (fun k p =>
                          {| PageField_Name :=
                               default "" (pageFieldsName !! (idx + k)%nat);
                             PageField_Fld := p |}) index |}).
Proof.
  revert idx pt. induction index as [|p rest IH]; intros idx pt; cbv zeta.
  - simpl. split; [symmetry; apply set_PageFields_eta | congruence].
  - cbn [pageFieldsLoop].
    match goal with
    | |- context [pageFieldsLoop pageFieldsName (S idx) rest ?pt1] =>
        destruct (IH (S idx) pt1) as [Hframe Hval]
    end.
    cbv zeta in Hframe, Hval. split.
    + rewrite Hframe at 1. reflexivity.
    + intros _. destruct rest as [|q rest'].
      * cbn [pageFieldsLoop PageFields set_PageFields imap]. rewrite Nat.add_0_r.
        reflexivity.
      * rewrite Hval by discriminate.
        cbn [PageFields set_PageFields default from_option PageFields_Count
               PageFields_PageField id].
        rewrite <- app_assoc. do 3 f_equal.
        change (imap ?g (p :: q :: rest')) with (g 0%nat p :: imap (g ∘ S) (q :: rest')).
        cbn [app]. rewrite Nat.add_0_r. f_equal.
        apply imap_ext. intros k x _. cbn. do 3 f_equal. lia.
Qed.

Lemma dataFieldsLoop_spec (dataFieldsName dataFieldsSubtotals : list string)
    (index : list Z) (idx : nat) (pt : xlsxPivotTableDefinition) :
  let pt' := dataFieldsLoop dataFieldsName dataFieldsSubtotals idx index pt in
  let old := default {| DataFields_Count := 0; DataFields_DataField := [] |}
               (DataFields pt) in
  pt' = set_DataFields (DataFields pt') pt /\
  (index <> [] ->
   DataFields pt'
   = Some {| DataFields_Count := DataFields_Count old;
             DataFields_DataField :=
               DataFields_DataField old
               ++ imap (fun k p =>
                          {| DataField_Name :=
                               default "" (dataFieldsName !! (idx + k)%nat);
                             DataField_Fld := p;
                             DataField_Subtotal :=
                               default "" (dataFieldsSubtotals !! (idx + k)%nat) |})
                    index |}).
Proof.
  revert idx pt. induction index as [|p rest IH]; intros idx pt; cbv zeta.
  - simpl. split; [symmetry; apply set_DataFields_eta | congruence].
  - cbn [dataFieldsLoop].
    match goal with
    | |- context [dataFieldsLoop _ _ (S idx) rest ?pt1] =>
        destruct (IH (S idx) pt1) as [Hframe Hval]
    end.
    cbv zeta in Hframe, Hval. split.
    + rewrite Hframe at 1. reflexivity.
    + intros _. destruct rest as [|q rest'].
      * cbn [dataFieldsLoop DataFields set_DataFields imap]. rewrite Nat.add_0_r.
        reflexivity.
      * rewrite Hval by discriminate.
        cbn [DataFields set_DataFields default from_option DataFields_Count
               DataFields_DataField id].
        rewrite <- app_assoc. do 3 f_equal.
        change (imap ?g (p :: q :: rest')) with (g 0%nat p :: imap (g ∘ S) (q :: rest')).
        cbn [app]. rewrite Nat.add_0_r. f_equal.
        apply imap_ext. intros k x _. cbn.
        replace (idx + S k)%nat with (S (idx + k)) by lia. reflexivity.
Qed.

Lemma addPivotPageFields_frame (f : File) (pt : xlsxPivotTableDefinition)
    (opts : PivotTableOption) :
  exists v, fst (addPivotPageFields f pt opts) = set_PageFields v pt.
Proof.
  unfold addPivotPageFields.
  destruct (getPivotFieldsIndex f (Filter opts) opts) as [index|err]; cbn [fst].
  - destruct (pageFieldsLoop_spec (getPivotTableFieldsName (Filter opts)) index O pt)
      as [Hframe _].
    cbv zeta in Hframe.
    destruct (PageFields (pageFieldsLoop (getPivotTableFieldsName (Filter opts)) 0
                            index pt)) as [pf|]; cbn [fst].
    + eexists. rewrite Hframe. reflexivity.
    + eexists. exact Hframe.
  - exists (PageFields pt). symmetry. apply set_PageFields_eta.
Qed.

Lemma addPivotPageFields_section (f : File) (pt : xlsxPivotTableDefinition)
    (opts : PivotTableOption) :
  PageFields pt = None ->
  PageFields (fst (addPivotPageFields f pt opts))
  = match getPivotFieldsIndex f (Filter opts) opts with
    | Ok index => pageSection (getPivotTableFieldsName (Filter opts)) index
    | Err _ => None
    end.
Proof.
  intros Hnone. unfold addPivotPageFields.
  destruct (getPivotFieldsIndex f (Filter opts) opts) as [index|err]; [|exact Hnone].
  destruct (pageFieldsLoop_spec (getPivotTableFieldsName (Filter opts)) index O pt)
    as [_ Hval].
  cbv zeta in Hval.
  destruct index as [|p rest]; [cbn [pageFieldsLoop]; rewrite Hnone; exact Hnone|].
  rewrite Hval by discriminate. rewrite Hnone.
  cbn [fst PageFields set_PageFields PageFields_PageField pageSection default
         from_option app].
  rewrite length_imap. reflexivity.
Qed.

Lemma addPivotDataFields_frame (f : File) (pt : xlsxPivotTableDefinition)
    (opts : PivotTableOption) :
  exists v, fst (addPivotDataFields f pt opts) = set_DataFields v pt.
Proof.
  unfold addPivotDataFields.
  destruct (getPivotFieldsIndex f (Data_ opts) opts) as [index|err]; cbn [fst].
  - destruct (dataFieldsLoop_spec (getPivotTableFieldsName (Data_ opts))
                (getPivotTableFieldsSubtotal (Data_ opts)) index O pt) as [Hframe _].
    cbv zeta in Hframe.
    destruct (DataFields (dataFieldsLoop (getPivotTableFieldsName (Data_ opts))
                            (getPivotTableFieldsSubtotal (Data_ opts)) 0 index pt))
      as [df|]; cbn [fst].
    + eexists. rewrite Hframe. reflexivity.
    + eexists. exact Hframe.
  - exists (DataFields pt). symmetry. apply set_DataFields_eta.
Qed.

Lemma addPivotDataFields_section (f : File) (pt : xlsxPivotTableDefinition)
    (opts : PivotTableOption) :
  DataFields pt = None ->
  DataFields (fst (addPivotDataFields f pt opts))
  = match getPivotFieldsIndex f (Data_ opts) opts with
    | Ok index =>
        dataSection (getPivotTableFieldsName (Data_ opts))
          (getPivotTableFieldsSubtotal (Data_ opts)) index
    | Err _ => None
    end.
Proof.
  intros Hnone. unfold addPivotDataFields.
  destruct (getPivotFieldsIndex f (Data_ opts) opts) as [index|err]; [|exact Hnone].
  destruct (dataFieldsLoop_spec (getPivotTableFieldsName (Data_ opts))
              (getPivotTableFieldsSubtotal (Data_ opts)) index O pt) as [_ Hval].
  cbv zeta in Hval.
  destruct index as [|p rest]; [cbn [dataFieldsLoop]; rewrite Hnone; exact Hnone|].
  rewrite Hval by discriminate. rewrite Hnone.
  cbn [fst DataFields set_DataFields DataFields_DataField dataSection default
         from_option app].
  rewrite length_imap. reflexivity.
Qed.

Lemma addPivotColFields_frame (f : File) (pt : xlsxPivotTableDefinition)
    (opts : PivotTableOption) :
  exists v, fst (addPivotColFields f pt opts) = set_ColFields v pt.
Proof.
  unfold addPivotColFields.
  destruct (length (Columns opts) =? 0)%nat.
  - destruct (length (Data_ opts) <=? 1)%nat; cbn [fst].
    + exists (ColFields pt). symmetry. apply set_ColFields_eta.
    + eexists. reflexivity.
  - destruct (getPivotFieldsIndex f (Columns opts) opts); cbn [fst];
      eexists; reflexivity.
Qed.

End SectionLoops.

(** ** Contents of the page and data sections *)

Section SectionContents.

Context {host : Host}.

Lemma length_omap_le {A B : Type} (g : A -> option B) (l : list A) :
  (length (omap g l) <= length l)%nat.
Proof.
  induction l as [|x l IH]; [reflexivity|].
  cbn [omap list_omap]. destruct (g x); simpl; fold (omap g l); lia.
Qed.

Lemma omap_total_lookup {A B : Type} (g : A -> option B) (l : list A) (k : nat) :
  (forall x, In x l -> is_Some (g x)) ->
  omap g l !! k = l !! k ≫= g.
Proof.
  revert k. induction l as [|x l IH]; intros k Hall; [reflexivity|].
  cbn [omap list_omap]. destruct (Hall x (or_introl eq_refl)) as [y Hy].
  rewrite Hy. fold (omap g l). destruct k as [|k].
  - simpl. rewrite Hy. reflexivity.
  - simpl. apply IH. intros x' Hx'. apply Hall. right. exact Hx'.
Qed.

Lemma omap_nil_iff {A B : Type} (g : A -> option B) (l : list A) :
  omap g l = [] <-> forall x, In x l -> g x = None.
Proof.
  induction l as [|x l IH]; [simpl; tauto|].
  cbn [omap list_omap]. fold (omap g l). destruct (g x) as [y|] eqn:Hy.
  - split; [discriminate|]. intros H. specialize (H x (or_introl eq_refl)). congruence.
  - rewrite IH. split.
    + intros H x' [<- | Hx']; [exact Hy | apply H, Hx'].
    + intros H x' Hx'. apply H. right. exact Hx'.
Qed.

Lemma dataSection_entries (dataFieldsName dataFieldsSubtotals : list string)
    (index : list Z) :
  from_option DataFields_DataField []
    (dataSection dataFieldsName dataFieldsSubtotals index)
  = imap (fun k p =>
            {| DataField_Name := default "" (dataFieldsName !! k);
               DataField_Fld := p;
               DataField_Subtotal := default "" (dataFieldsSubtotals !! k) |}) index.
Proof. destruct index; reflexivity. Qed.

Lemma pageSection_entries (pageFieldsName : list string) (index : list Z) :
  from_option PageFields_PageField [] (pageSection pageFieldsName index)
  = imap (fun k p => {| PageField_Name := default "" (pageFieldsName !! k);
                        PageField_Fld := p |}) index.
Proof. destruct index; reflexivity. Qed.

Lemma position_is_Some (orders : list string) (x : string) :
  In x orders -> is_Some (position orders x).
Proof.
  intros Hin. destruct (position orders x) as [p|] eqn:E; [eauto|].
  apply position_None in E. contradiction.
Qed.

(** X7.  [addPivotDataFields], on a table without data section and a
    header row that was read, emits one data field per entry of the Data list
    that is a header name.  The field numbered [k] gets the position of the
    [k]-th such entry, but the display name and the aggregation tag of the
    [k]-th declared entry, whether that one was left out or not: the loop
    index runs over the index list and is used on the names and tags of all
    entries.  When every declared entry is a header name the two coincide, and
    data field [k] has the position, the name cut to [MaxFieldLength] and the
    normalised tag of entry [k]. *)
Theorem data_fields_by_loop_index (f : File) (pt : xlsxPivotTableDefinition)
    (opts : PivotTableOption) (orders : list string) :
  getPivotFieldsOrder f opts = (orders, None) ->
  DataFields pt = None ->
  let emitted := dataFieldsOf (fst (addPivotDataFields f pt opts)) in
  length emitted = length (indexOf orders (Data_ opts)) /\
  (forall (k : nat) (p : Z), indexOf orders (Data_ opts) !! k = Some p ->
     exists fld,
       Data_ opts !! k = Some fld /\
       emitted !! k
       = Some {| DataField_Name := truncateName (Name fld);
                 DataField_Fld := p;
                 DataField_Subtotal := inEnums enums (Subtotal fld) |}) /\
  ((forall fld, In fld (Data_ opts) -> In (Data fld) orders) ->
   forall (k : nat) (fld : PivotTableField), Data_ opts !! k = Some fld ->
     exists p,
       position orders (Data fld) = Some p /\
       emitted !! k
       = Some {| DataField_Name := truncateName (Name fld);
                 DataField_Fld := p;
                 DataField_Subtotal := inEnums enums (Subtotal fld) |}).
Proof.
  intros Horder Hnone. cbv zeta. unfold dataFieldsOf.
  rewrite (addPivotDataFields_section f pt opts Hnone).
  rewrite (getPivotFieldsIndex_Ok f (Data_ opts) opts orders Horder).
  fold (indexOf orders (Data_ opts)). rewrite dataSection_entries.
  assert (Hentry : forall (k : nat) (p : Z) (fld : PivotTableField),
            indexOf orders (Data_ opts) !! k = Some p ->
            Data_ opts !! k = Some fld ->
            imap (fun k p =>
                    {| DataField_Name :=
                         default "" (getPivotTableFieldsName (Data_ opts) !! k);
                       DataField_Fld := p;
                       DataField_Subtotal :=
                         default "" (getPivotTableFieldsSubtotal (Data_ opts) !! k) |})
              (indexOf orders (Data_ opts)) !! k
            = Some {| DataField_Name := truncateName (Name fld);
                      DataField_Fld := p;
                      DataField_Subtotal := inEnums enums (Subtotal fld) |}).
  { intros k p fld Hp Hfld. rewrite list_lookup_imap, Hp.
    rewrite getPivotTableFieldsName_map, getPivotTableFieldsSubtotal_map.
    rewrite !list_lookup_fmap, Hfld. reflexivity. }
  split; [apply length_imap|]. split.
  - intros k p Hp.
    assert (Hk : (k < length (Data_ opts))%nat).
    { apply lookup_lt_Some in Hp.
      pose proof (length_omap_le (fun fld => position orders (Data fld)) (Data_ opts)).
      unfold indexOf in Hp. lia. }
    destruct (lookup_lt_is_Some_2 _ _ Hk) as [fld Hfld].
    exists fld. split; [exact Hfld | exact (Hentry k p fld Hp Hfld)].
  - intros Hall k fld Hfld.
    assert (Hp : indexOf orders (Data_ opts) !! k = position orders (Data fld)).
    { unfold indexOf. rewrite omap_total_lookup.
      - rewrite Hfld. reflexivity.
      - intros x Hx. apply position_is_Some, Hall, Hx. }
    destruct (position_is_Some orders (Data fld)) as [p Hpos].
    { apply Hall. apply list_elem_of_In, list_elem_of_lookup. eauto. }
    exists p. split; [exact Hpos|]. apply Hentry; [congruence | exact Hfld].
Qed.

(** X8.  [addPivotPageFields] does the same for the Filter list: page field
    [k] gets the position of the [k]-th Filter entry that is a header name and
    the display name, cut to [MaxFieldLength], of the [k]-th declared Filter
    entry; the two belong to one entry when every Filter entry is a header
    name. *)
Theorem page_fields_by_loop_index (f : File) (pt : xlsxPivotTableDefinition)
    (opts : PivotTableOption) (orders : list string) :
  getPivotFieldsOrder f opts = (orders, None) ->
  PageFields pt = None ->
  let emitted := pageFieldsOf (fst (addPivotPageFields f pt opts)) in
  length emitted = length (indexOf orders (Filter opts)) /\
  (forall (k : nat) (p : Z), indexOf orders (Filter opts) !! k = Some p ->
     exists fld,
       Filter opts !! k = Some fld /\
       emitted !! k
       = Some {| PageField_Name := truncateName (Name fld); PageField_Fld := p |}) /\
  ((forall fld, In fld (Filter opts) -> In (Data fld) orders) ->
   forall (k : nat) (fld : PivotTableField), Filter opts !! k = Some fld ->
     exists p,
       position orders (Data fld) = Some p /\
       emitted !! k
       = Some {| PageField_Name := truncateName (Name fld); PageField_Fld := p |}).
Proof.
  intros Horder Hnone. cbv zeta. unfold pageFieldsOf.
  rewrite (addPivotPageFields_section f pt opts Hnone).
  rewrite (getPivotFieldsIndex_Ok f (Filter opts) opts orders Horder).
  fold (indexOf orders (Filter opts)). rewrite pageSection_entries.
  assert (Hentry : forall (k : nat) (p : Z) (fld : PivotTableField),
            indexOf orders (Filter opts) !! k = Some p ->
            Filter opts !! k = Some fld ->
            imap (fun k p =>
                    {| PageField_Name :=
                         default "" (getPivotTableFieldsName (Filter opts) !! k);
                       PageField_Fld := p |})
              (indexOf orders (Filter opts)) !! k
            = Some {| PageField_Name := truncateName (Name fld); PageField_Fld := p |}).
  { intros k p fld Hp Hfld. rewrite list_lookup_imap, Hp.
    rewrite getPivotTableFieldsName_map, list_lookup_fmap, Hfld. reflexivity. }
  split; [apply length_imap|]. split.
  - intros k p Hp.
    assert (Hk : (k < length (Filter opts))%nat).
    { apply lookup_lt_Some in Hp.
      pose proof (length_omap_le (fun fld => position orders (Data fld)) (Filter opts)).
      unfold indexOf in Hp. lia. }
    destruct (lookup_lt_is_Some_2 _ _ Hk) as [fld Hfld].
    exists fld. split; [exact Hfld | exact (Hentry k p fld Hp Hfld)].
  - intros Hall k fld Hfld.
    assert (Hp : indexOf orders (Filter opts) !! k = position orders (Data fld)).
    { unfold indexOf. rewrite omap_total_lookup.
      - rewrite Hfld. reflexivity.
      - intros x Hx. apply position_is_Some, Hall, Hx. }
    destruct (position_is_Some orders (Data fld)) as [p Hpos].
    { apply Hall. apply list_elem_of_In, list_elem_of_lookup. eauto. }
    exists p. split; [exact Hpos|]. apply Hentry; [congruence | exact Hfld].
Qed.

End SectionContents.

Section SectionContentsOnBook.

#[local] Existing Instance SheetHost.host.

Lemma data_fields_by_loop_index_witness :
  let emitted := dataFieldsOf (fst (addPivotDataFields SheetHost.book emptyTable strayData)) in
  length emitted = length (indexOf bookOrder (Data_ strayData)) /\
  (forall (k : nat) (p : Z), indexOf bookOrder (Data_ strayData) !! k = Some p ->
     exists fld,
       Data_ strayData !! k = Some fld /\
       emitted !! k
       = Some {| DataField_Name := truncateName (Name fld);
                 DataField_Fld := p;
                 DataField_Subtotal := inEnums enums (Subtotal fld) |}).
Proof.
  refine (let H := data_fields_by_loop_index SheetHost.book emptyTable strayData
                     bookOrder _ _ in conj (proj1 H) (proj1 (proj2 H))).
  - vm_compute. reflexivity.
  - reflexivity.
Defined.

(** Profit is not a header name: the one data field emitted is that of
    Sales, at position 3, under the name and the tag of the Profit entry. *)
Example strayData_shifted :
  dataFieldsOf (fst (addPivotDataFields SheetHost.book emptyTable strayData))
  = [{| DataField_Name := "Total profit"; DataField_Fld := 3;
        DataField_Subtotal := "max" |}].
Proof. vm_compute. reflexivity. Qed.

Lemma page_fields_by_loop_index_witness :
  let emitted := pageFieldsOf (fst (addPivotPageFields SheetHost.book emptyTable strayData)) in
  length emitted = length (indexOf bookOrder (Filter strayData)) /\
  (forall (k : nat) (p : Z), indexOf bookOrder (Filter strayData) !! k = Some p ->
     exists fld,
       Filter strayData !! k = Some fld /\
       emitted !! k
       = Some {| PageField_Name := truncateName (Name fld); PageField_Fld := p |}).
Proof.
  refine (let H := page_fields_by_loop_index SheetHost.book emptyTable strayData
                     bookOrder _ _ in conj (proj1 H) (proj1 (proj2 H))).
  - vm_compute. reflexivity.
  - reflexivity.
Defined.

Example strayData_page_shifted :
  pageFieldsOf (fst (addPivotPageFields SheetHost.book emptyTable strayData))
  = [{| PageField_Name := "By quarter"; PageField_Fld := 4 |}].
Proof. vm_compute. reflexivity. Qed.

End SectionContentsOnBook.

(** ** The table definition as a whole *)

Section TableDefinition.

Context {host : Host}.

(** The five sections of the table definition, each as its own builder
    leaves it on a table that had none. *)
Lemma pivotTableDefinition_parts (f : File) (cacheID pivotTableID : Z)
    (opts : PivotTableOption) (coordinates : Z * Z * Z * Z) :
  let pt := pivotTableDefinition f cacheID pivotTableID opts coordinates in
  (exists pt0,
     pivotFieldsOf pt0 = [] /\
     pivotFieldsOf pt = pivotFieldsOf (fst (addPivotFields f pt0 opts)) /\
     PivotFields_Count (PivotFields pt) = Z.of_nat (length (pivotFieldsOf pt))) /\
  RowFields pt
  = match getPivotFieldsIndex f (Rows opts) opts with
    | Ok index => rowSection index
    | Err _ => None
    end /\
  PageFields pt
  = match getPivotFieldsIndex f (Filter opts) opts with
    | Ok index => pageSection (getPivotTableFieldsName (Filter opts)) index
    | Err _ => None
    end /\
  DataFields pt
  = match getPivotFieldsIndex f (Data_ opts) opts with
    | Ok index =>
        dataSection (getPivotTableFieldsName (Data_ opts))
          (getPivotTableFieldsSubtotal (Data_ opts)) index
    | Err _ => None
    end.
Proof.
  destruct coordinates as [[[c0 c1] c2] c3]. unfold pivotTableDefinition. cbv zeta.
  match goal with
  | |- context [addPivotFields f ?p opts] => remember p as pt0 eqn:E0
  end.
  assert (Hinit : pivotFieldsOf pt0 = [] /\ RowFields pt0 = None
                  /\ PageFields pt0 = None /\ DataFields pt0 = None)
    by (subst pt0; repeat split).
  clear E0. destruct Hinit as (Hp0 & Hr0 & Hg0 & Hd0).
  destruct (addPivotFields_frame f pt0 opts) as [v1 H1].
  remember (fst (addPivotFields f pt0 opts)) as s1 eqn:E1.
  remember (set_PivotFields
              {| PivotFields_Count :=
                   Z.of_nat (length (PivotFields_PivotField (PivotFields s1)));
                 PivotFields_PivotField := PivotFields_PivotField (PivotFields s1) |}
              s1) as s2 eqn:E2.
  destruct (addPivotRowFields_frame f s2 opts) as [v3 H3].
  remember (fst (addPivotRowFields f s2 opts)) as s3 eqn:E3.
  destruct (addPivotColFields_frame f s3 opts) as [v4 H4].
  remember (fst (addPivotColFields f s3 opts)) as s4 eqn:E4.
  destruct (addPivotPageFields_frame f s4 opts) as [v5 H5].
  remember (fst (addPivotPageFields f s4 opts)) as s5 eqn:E5.
  destruct (addPivotDataFields_frame f s5 opts) as [v6 H6].
  remember (fst (addPivotDataFields f s5 opts)) as s6 eqn:E6.
  assert (Hr2 : RowFields s2 = None) by (rewrite E2, H1; exact Hr0).
  assert (Hg4 : PageFields s4 = None) by (rewrite H4, H3, E2, H1; exact Hg0).
  assert (Hd5 : DataFields s5 = None) by (rewrite H5, H4, H3, E2, H1; exact Hd0).
  split; [|split; [|split]].
  - exists pt0. split; [exact Hp0|]. unfold pivotFieldsOf.
    rewrite H6, H5, H4, H3, E2. cbn. rewrite <- E1. split; reflexivity.
  - rewrite H6, H5, H4. cbn. rewrite E3.
    apply (addPivotRowFields_section f s2 opts Hr2).
  - rewrite H6. cbn. rewrite E5.
    apply (addPivotPageFields_section f s4 opts Hg4).
  - rewrite E6. apply (addPivotDataFields_section f s5 opts Hd5).
Qed.

Lemma rowSection_count (index : list Z) (rf : xlsxRowFields) :
  rowSection index = Some rf ->
  RowFields_Count rf = Z.of_nat (length (RowFields_Field rf)) /\ RowFields_Field rf <> [].
Proof.
  destruct index as [|p rest]; [discriminate|]. intros [= <-].
  simpl. rewrite length_map. split; [reflexivity | discriminate].
Qed.

Lemma pageSection_count (names : list string) (index : list Z) (pf : xlsxPageFields) :
  pageSection names index = Some pf ->
  PageFields_Count pf = Z.of_nat (length (PageFields_PageField pf))
  /\ PageFields_PageField pf <> [].
Proof.
  destruct index as [|p rest]; [discriminate|]. intros [= <-].
  simpl. rewrite length_imap. split; [reflexivity | discriminate].
Qed.

Lemma dataSection_count (names subs : list string) (index : list Z)
    (df : xlsxDataFields) :
  dataSection names subs index = Some df ->
  DataFields_Count df = Z.of_nat (length (DataFields_DataField df))
  /\ DataFields_DataField df <> [].
Proof.
  destruct index as [|p rest]; [discriminate|]. intros [= <-].
  simpl. rewrite length_imap. split; [reflexivity | discriminate].
Qed.

Lemma addPivotColFields_count (f : File) (pt : xlsxPivotTableDefinition)
    (opts : PivotTableOption) (cf : xlsxColFields) :
  ColFields pt = None ->
  ColFields (fst (addPivotColFields f pt opts)) = Some cf ->
  ColFields_Count cf = Z.of_nat (length (ColFields_Field cf)).
Proof.
  intros Hnone. unfold addPivotColFields.
  destruct (length (Columns opts) =? 0)%nat.
  - destruct (length (Data_ opts) <=? 1)%nat; cbn [fst]; [congruence|].
    intros [= <-]. reflexivity.
  - destruct (getPivotFieldsIndex f (Columns opts) opts); cbn [fst];
      intros [= <-]; reflexivity.
Qed.

Lemma no_entry_matches (orders : list string) (fields : list PivotTableField) :
  indexOf orders fields = [] <-> forall fld, In fld fields -> ~ In (Data fld) orders.
Proof.
  unfold indexOf. rewrite omap_nil_iff. split.
  - intros H fld Hin. apply position_None, H, Hin.
  - intros H fld Hin. apply position_None, H, Hin.
Qed.

(** X9.  In the table definition that [addPivotTable] serialises, the
    count of the pivot-field list and of every axis section that is present
    is the number of its entries, and a row, page or data section that is
    present is never empty.  Once the header row is read, the row, page and
    data section are absent exactly when no entry of the Rows, Filter and
    Data list, respectively, is a header name. *)
Theorem section_counts (f : File) (cacheID pivotTableID : Z)
    (opts : PivotTableOption) (coordinates : Z * Z * Z * Z) :
  let pt := pivotTableDefinition f cacheID pivotTableID opts coordinates in
  PivotFields_Count (PivotFields pt) = Z.of_nat (length (pivotFieldsOf pt)) /\
  (forall rf, RowFields pt = Some rf ->
     RowFields_Count rf = Z.of_nat (length (RowFields_Field rf))
     /\ RowFields_Field rf <> []) /\
  (forall cf, ColFields pt = Some cf ->
     ColFields_Count cf = Z.of_nat (length (ColFields_Field cf))) /\
  (forall pf, PageFields pt = Some pf ->
     PageFields_Count pf = Z.of_nat (length (PageFields_PageField pf))
     /\ PageFields_PageField pf <> []) /\
  (forall df, DataFields pt = Some df ->
     DataFields_Count df = Z.of_nat (length (DataFields_DataField df))
     /\ DataFields_DataField df <> []) /\
  (forall orders, getPivotFieldsOrder f opts = (orders, None) ->
     (RowFields pt = None
      <-> forall fld, In fld (Rows opts) -> ~ In (Data fld) orders) /\
     (PageFields pt = None
      <-> forall fld, In fld (Filter opts) -> ~ In (Data fld) orders) /\
     (DataFields pt = None
      <-> forall fld, In fld (Data_ opts) -> ~ In (Data fld) orders)).
Proof.
  cbv zeta.
  destruct (pivotTableDefinition_parts f cacheID pivotTableID opts coordinates)
    as ((pt0 & _ & _ & Hcount) & Hrow & Hpage & Hdata).
  destruct (pivotTableDefinition_ColFields f cacheID pivotTableID opts coordinates)
    as (pt2 & Hnone & Hcol).
  rewrite Hrow, Hpage, Hdata, Hcol.
  split; [exact Hcount|]. split; [|split; [|split; [|split]]].
  - intros rf. destruct (getPivotFieldsIndex f (Rows opts) opts); [|discriminate].
    apply rowSection_count.
  - intros cf. apply addPivotColFields_count, Hnone.
  - intros pf. destruct (getPivotFieldsIndex f (Filter opts) opts); [|discriminate].
    apply pageSection_count.
  - intros df. destruct (getPivotFieldsIndex f (Data_ opts) opts); [|discriminate].
    apply dataSection_count.
  - intros orders Horder.
    rewrite !(getPivotFieldsIndex_Ok f _ opts orders Horder).
    rewrite <- !no_entry_matches. unfold indexOf.
    split; [|split].
    + destruct (omap (fun fld => position orders (Data fld)) (Rows opts));
        simpl; split; congruence.
    + destruct (omap (fun fld => position orders (Data fld)) (Filter opts));
        simpl; split; congruence.
    + destruct (omap (fun fld => position orders (Data fld)) (Data_ opts));
        simpl; split; congruence.
Qed.

End TableDefinition.

Section TableDefinitionOnBook.

#[local] Existing Instance SheetHost.host.

Lemma section_counts_witness :
  exists pf,
    PageFields (pivotTableDefinition SheetHost.book 2 1 strayData (7, 2, 13, 34))
    = Some pf /\
    PageFields_Count pf = Z.of_nat (length (PageFields_PageField pf)) /\
    PageFields_PageField pf <> [].
Proof.
  eexists. split; [vm_compute; reflexivity|].
  apply (proj1 (proj2 (proj2 (proj2
           (section_counts SheetHost.book 2 1 strayData (7, 2, 13, 34)))))).
  vm_compute. reflexivity.
Defined.

End TableDefinitionOnBook.

(** ** Cross-references of the table definition *)

Section CrossReferences.

Context {host : Host}.

Lemma declared_In (fields : list PivotTableField) (fld : PivotTableField) :
  In fld fields -> declaredb fields (Data fld) = true.
Proof.
  intros Hin. apply declaredb_spec. exists fld. split; [exact Hin | reflexivity].
Qed.

Lemma field_axis_row (opts : PivotTableOption) (x : Z) (name : string) :
  declaredb (Rows opts) name = true ->
  PivotField_Axis (addPivotFields_field opts x name) = "axisRow".
Proof.
  intros H. unfold addPivotFields_field. rewrite !inPivotTableField_declaredb, H.
  destruct (getPivotTableFieldOptions name (Rows opts)). reflexivity.
Qed.

Lemma field_axis_page (opts : PivotTableOption) (x : Z) (name : string) :
  declaredb (Filter opts) name = true ->
  PivotField_Axis (addPivotFields_field opts x name) = "axisPage"
  \/ PivotField_Axis (addPivotFields_field opts x name) = "axisRow".
Proof.
  intros H. unfold addPivotFields_field. rewrite !inPivotTableField_declaredb, H.
  destruct (getPivotTableFieldOptions name (Rows opts)).
  destruct (declaredb (Rows opts) name); [right | left]; reflexivity.
Qed.

Lemma field_axis_col (opts : PivotTableOption) (x : Z) (name : string) :
  declaredb (Columns opts) name = true ->
  PivotField_Axis (addPivotFields_field opts x name) = "axisCol"
  \/ PivotField_Axis (addPivotFields_field opts x name) = "axisPage"
  \/ PivotField_Axis (addPivotFields_field opts x name) = "axisRow".
Proof.
  intros H. unfold addPivotFields_field. rewrite !inPivotTableField_declaredb, H.
  destruct (getPivotTableFieldOptions name (Rows opts)).
  destruct (getPivotTableFieldOptions name (Columns opts)).
  destruct (declaredb (Rows opts) name); [right; right; reflexivity|].
  destruct (declaredb (Filter opts) name); [right; left | left]; reflexivity.
Qed.

Lemma field_data_flag (opts : PivotTableOption) (x : Z) (name : string) :
  declaredb (Data_ opts) name = true ->
  PivotField_DataField (addPivotFields_field opts x name) = true.
Proof.
  intros H. unfold addPivotFields_field. rewrite !inPivotTableField_declaredb, H.
  destruct (getPivotTableFieldOptions name (Rows opts)).
  destruct (getPivotTableFieldOptions name (Columns opts)).
  destruct (declaredb (Rows opts) name); [reflexivity|].
  destruct (declaredb (Filter opts) name); [reflexivity|].
  destruct (declaredb (Columns opts) name); reflexivity.
Qed.

Lemma pivotTableDefinition_pivotFields (f : File) (cacheID pivotTableID : Z)
    (opts : PivotTableOption) (coordinates : Z * Z * Z * Z) (orders : list string) :
  getPivotFieldsOrder f opts = (orders, None) ->
  pivotFieldsOf (pivotTableDefinition f cacheID pivotTableID opts coordinates)
  = map (addPivotFields_field opts 0) orders.
Proof.
  intros Horder.
  destruct (pivotTableDefinition_parts f cacheID pivotTableID opts coordinates)
    as ((pt0 & Hp0 & Hfields & _) & _).
  rewrite Hfields. unfold pivotFieldsOf in *.
  rewrite (addPivotFields_fields f pt0 opts orders Horder), Hp0. reflexivity.
Qed.

(** An index of the index list is the position of a header name that an
    entry of the axis list declares. *)
Lemma index_refers (orders : list string) (fields : list PivotTableField) (p : Z) :
  In p (indexOf orders fields) ->
  exists (fld : PivotTableField) (i : nat),
    In fld fields /\ p = Z.of_nat i /\ orders !! i = Some (Data fld).
Proof.
  intros Hin. apply list_elem_of_In, list_elem_of_omap in Hin as (fld & Hfld & Hpos).
  destruct (position_Some _ _ _ Hpos) as (i & -> & Hi & _).
  exists fld, i. split; [apply list_elem_of_In, Hfld|]. split; [reflexivity | exact Hi].
Qed.

Lemma referred_position (pt : xlsxPivotTableDefinition) (opts : PivotTableOption)
    (orders : list string) (i : nat) (name : string) :
  pivotFieldsOf pt = map (addPivotFields_field opts 0) orders ->
  orders !! i = Some name ->
  referred pt (Z.of_nat i) = Some (addPivotFields_field opts 0 name)
  /\ 0 <= Z.of_nat i < Z.of_nat (length (pivotFieldsOf pt)).
Proof.
  intros Hfields Hi. unfold referred.
  destruct (Z.ltb_spec (Z.of_nat i) 0); [lia|].
  rewrite Nat2Z.id, Hfields, list_lookup_fmap, Hi. split; [reflexivity|].
  rewrite length_map. apply lookup_lt_Some in Hi. lia.
Qed.

Lemma rowSection_entries (index : list Z) :
  from_option RowFields_Field [] (rowSection index) = map Build_xlsxField index.
Proof. destruct index; reflexivity. Qed.

Lemma addPivotColFields_entries (f : File) (pt : xlsxPivotTableDefinition)
    (opts : PivotTableOption) (index : list Z) (x : xlsxField) :
  ColFields pt = None ->
  getPivotFieldsIndex f (Columns opts) opts = Ok index ->
  In x (colFieldsOf (fst (addPivotColFields f pt opts))) ->
  Field_X x = -2 \/ In (Field_X x) index.
Proof.
  intros Hnone Hindex. unfold colFieldsOf, addPivotColFields.
  destruct (length (Columns opts) =? 0)%nat.
  - destruct (length (Data_ opts) <=? 1)%nat; cbn [fst].
    + rewrite Hnone. intros [].
    + simpl. intros [<- | []]. left. reflexivity.
  - rewrite Hindex. cbn [fst ColFields set_ColFields from_option ColFields_Field].
    rewrite (fold_append_map Build_xlsxField index []). cbn [app].
    destruct (1 <? length (Data_ opts))%nat.
    + rewrite in_app_iff, in_map_iff. intros [(p & <- & Hp) | [<- | []]].
      * right. exact Hp.
      * left. reflexivity.
    + rewrite in_map_iff. intros (p & <- & Hp). right. exact Hp.
Qed.

(** X10.  In the table definition built over a header row that was read,
    the pivot-field list has one entry per header name, and every index that
    an axis section holds refers to an entry of it: a row field to a pivot
    field on the row axis, a data field to a pivot field with the data-field
    flag, a page field to a pivot field on the page axis (on the row axis,
    when Rows declares the name too), and a column field either is the
    sentinel -2 or refers to a pivot field on the column, page or row axis. *)
Theorem axis_sections_refer_to_pivot_fields (f : File) (cacheID pivotTableID : Z)
    (opts : PivotTableOption) (coordinates : Z * Z * Z * Z) (orders : list string) :
  getPivotFieldsOrder f opts = (orders, None) ->
  let pt := pivotTableDefinition f cacheID pivotTableID opts coordinates in
  let count := PivotFields_Count (PivotFields pt) in
  count = Z.of_nat (length orders) /\
  (forall x, In x (rowFieldsOf pt) ->
     0 <= Field_X x < count /\
     exists pf, referred pt (Field_X x) = Some pf /\ PivotField_Axis pf = "axisRow") /\
  (forall x, In x (dataFieldsOf pt) ->
     0 <= DataField_Fld x < count /\
     exists pf, referred pt (DataField_Fld x) = Some pf
                /\ PivotField_DataField pf = true) /\
  (forall x, In x (pageFieldsOf pt) ->
     0 <= PageField_Fld x < count /\
     exists pf, referred pt (PageField_Fld x) = Some pf
                /\ (PivotField_Axis pf = "axisPage" \/ PivotField_Axis pf = "axisRow")) /\
  (forall x, In x (colFieldsOf pt) ->
     Field_X x = -2 \/
     (0 <= Field_X x < count /\
      exists pf, referred pt (Field_X x) = Some pf
                 /\ (PivotField_Axis pf = "axisCol" \/ PivotField_Axis pf = "axisPage"
                     \/ PivotField_Axis pf = "axisRow"))).
Proof.
  intros Horder. cbv zeta.
  pose proof (pivotTableDefinition_pivotFields f cacheID pivotTableID opts coordinates
                orders Horder) as Hfields.
  destruct (pivotTableDefinition_parts f cacheID pivotTableID opts coordinates)
    as ((pt0 & _ & _ & Hcount) & Hrow & Hpage & Hdata).
  destruct (pivotTableDefinition_ColFields f cacheID pivotTableID opts coordinates)
    as (pt2 & Hnone & Hcol).
  rewrite !(getPivotFieldsIndex_Ok f _ opts orders Horder) in *.
  set (pt := pivotTableDefinition f cacheID pivotTableID opts coordinates) in *.
  rewrite Hcount.
  assert (Href : forall fields p, In p (indexOf orders fields) ->
            exists fld, In fld fields /\
              0 <= p < Z.of_nat (length (pivotFieldsOf pt)) /\
              referred pt p = Some (addPivotFields_field opts 0 (Data fld))).
  { intros fields p Hp. destruct (index_refers orders fields p Hp) as (fld & i & Hin & -> & Hi).
    destruct (referred_position pt opts orders i (Data fld) Hfields Hi) as [Hr Hb].
    exists fld. split; [exact Hin|]. split; [exact Hb | exact Hr]. }
  split; [rewrite Hfields, length_map; reflexivity|].
  split; [|split; [|split]].
  - intros x Hx. unfold rowFieldsOf in Hx. rewrite Hrow, rowSection_entries in Hx.
    apply in_map_iff in Hx as (p & <- & Hp).
    destruct (Href _ p Hp) as (fld & Hin & Hb & Hr).
    split; [exact Hb|]. eexists. split; [exact Hr|].
    apply field_axis_row, declared_In, Hin.
  - intros x Hx. unfold dataFieldsOf in Hx. rewrite Hdata, dataSection_entries in Hx.
    apply list_elem_of_In, list_elem_of_lookup in Hx as [k Hk].
    rewrite list_lookup_imap in Hk.
    apply fmap_Some in Hk as (p & Ep & ->). cbn [DataField_Fld].
    assert (Hp : In p (indexOf orders (Data_ opts))).
    { apply list_elem_of_In, list_elem_of_lookup. eauto. }
    destruct (Href _ p Hp) as (fld & Hin & Hb & Hr).
    split; [exact Hb|]. eexists. split; [exact Hr|].
    apply field_data_flag, declared_In, Hin.
  - intros x Hx. unfold pageFieldsOf in Hx. rewrite Hpage, pageSection_entries in Hx.
    apply list_elem_of_In, list_elem_of_lookup in Hx as [k Hk].
    rewrite list_lookup_imap in Hk.
    apply fmap_Some in Hk as (p & Ep & ->). cbn [PageField_Fld].
    assert (Hp : In p (indexOf orders (Filter opts))).
    { apply list_elem_of_In, list_elem_of_lookup. eauto. }
    destruct (Href _ p Hp) as (fld & Hin & Hb & Hr).
    split; [exact Hb|]. eexists. split; [exact Hr|].
    apply field_axis_page, declared_In, Hin.
  - intros x Hx. unfold colFieldsOf in Hx. rewrite Hcol in Hx.
    destruct (addPivotColFields_entries f pt2 opts _ x Hnone
                (getPivotFieldsIndex_Ok f (Columns opts) opts orders Horder) Hx)
      as [Hs | Hp]; [left; exact Hs | right].
    destruct (Href _ _ Hp) as (fld & Hin & Hb & Hr).
    split; [exact Hb|]. eexists. split; [exact Hr|].
    apply field_axis_col, declared_In, Hin.
Qed.

End CrossReferences.

Section CrossReferencesOnBook.

#[local] Existing Instance SheetHost.host.

Lemma axis_sections_refer_to_pivot_fields_witness :
  let pt := pivotTableDefinition SheetHost.book 2 1 twoDataOneColumn (7, 2, 13, 34) in
  PivotFields_Count (PivotFields pt) = Z.of_nat (length bookOrder).
Proof.
  refine (proj1 (axis_sections_refer_to_pivot_fields SheetHost.book 2 1
                   twoDataOneColumn (7, 2, 13, 34) bookOrder _)).
  vm_compute. reflexivity.
Defined.

End CrossReferencesOnBook.

(** ** Cache fields and pivot fields *)

Section Alignment.

Context {host : Host}.

(** X11.  The cache definition has one cache field per name that
    [getPivotFieldsOrder] returned, under that name and in that order, an
    error of the header row being dropped.  When the header row is read in
    full, at the cache and at the table definition, the two are aligned: they
    have the same count, and at every position the cache field and the pivot
    field are those of the header name at that position. *)
Theorem cache_and_table_aligned (f f' : File) (opts : PivotTableOption)
    (definedNameRef : bool) (dataSheet : string) (dataBox : Z * Z * Z * Z)
    (cacheID pivotTableID : Z) (placement : Z * Z * Z * Z) :
  let pc := pivotCacheDefinition f opts definedNameRef dataSheet dataBox in
  let pt := pivotTableDefinition f' cacheID pivotTableID opts placement in
  map CacheField_Name (CacheFields_CacheField (CacheFields pc))
    = fst (getPivotFieldsOrder f opts) /\
  CacheFields_Count (CacheFields pc)
    = Z.of_nat (length (fst (getPivotFieldsOrder f opts))) /\
  (forall orders,
     getPivotFieldsOrder f opts = (orders, None) ->
     getPivotFieldsOrder f' opts = (orders, None) ->
     PivotFields_Count (PivotFields pt) = CacheFields_Count (CacheFields pc) /\
     forall (i : nat) (name : string), orders !! i = Some name ->
       CacheFields_CacheField (CacheFields pc) !! i
         = Some (addPivotCache_field opts name) /\
       CacheField_Name (addPivotCache_field opts name) = name /\
       pivotFieldsOf pt !! i = Some (addPivotFields_field opts 0 name)).
Proof.
  cbv zeta.
  pose proof (pivotCacheDefinition_fields f opts definedNameRef dataSheet dataBox)
    as Hcache.
  assert (Hcount :
            CacheFields_Count
              (CacheFields (pivotCacheDefinition f opts definedNameRef dataSheet dataBox))
            = Z.of_nat (length (fst (getPivotFieldsOrder f opts)))).
  { destruct dataBox as [[[c0 c1] c2] c3]. unfold pivotCacheDefinition.
    cbn [CacheFields CacheFields_Count].
    rewrite (fold_append_map (addPivotCache_field opts) _ []). cbn [app].
    rewrite length_map. reflexivity. }
  assert (Hname : forall name, CacheField_Name (addPivotCache_field opts name) = name).
  { intros name. unfold addPivotCache_field.
    destruct (getPivotTableFieldOptions name (Rows opts)).
    destruct (getPivotTableFieldOptions name (Columns opts)). reflexivity. }
  split; [|split; [exact Hcount|]].
  - rewrite Hcache, map_map. rewrite (map_ext _ id Hname). apply map_id.
  - intros orders Horder Horder'.
    pose proof (pivotTableDefinition_pivotFields f' cacheID pivotTableID opts placement
                  orders Horder') as Hfields.
    destruct (pivotTableDefinition_parts f' cacheID pivotTableID opts placement)
      as ((pt0 & _ & _ & Hptcount) & _).
    rewrite Hcount, Hptcount, Hfields, Hcache, Horder. cbn [fst].
    rewrite length_map. split; [reflexivity|].
    intros i name Hi. rewrite !list_lookup_fmap, Hi.
    split; [reflexivity|]. split; [apply Hname | reflexivity].
Qed.

Lemma getPivotTableFieldName_first (name : string) (fields : list PivotTableField)
    (i : nat) (fld : PivotTableField) :
  firstAt fields name i fld ->
  getPivotTableFieldName name fields = truncateName (Name fld)
  /\ getPivotTableFieldOptions name fields = (fld, true)
  /\ declaredb fields name = true.
Proof.
  intros Hfirst. pose proof Hfirst as (Hi & Hd & _).
  apply firstAt_find in Hfirst.
  unfold getPivotTableFieldName.
  rewrite getPivotTableFieldName_from_find, getPivotTableFieldOptions_find, Hfirst.
  rewrite getPivotTableFieldsName_map, list_lookup_fmap. simpl. rewrite Hi.
  split; [reflexivity|]. split; [reflexivity|].
  apply declaredb_spec. exists fld. split; [|exact Hd].
  apply list_elem_of_In, list_elem_of_lookup. eauto.
Qed.

(** X12.  The pivot field of a header name that Rows declares carries the
    display name, cut to [MaxFieldLength], and the compact, outline and
    default-subtotal flags of the first Rows entry of that name, and exactly
    one item: the [default] item when that entry has DefaultSubtotal true, the
    index item 0 when it has not.  The same holds for the first Columns entry
    of a name that neither Rows nor Filter declares. *)
Theorem row_and_column_field_items (f : File) (pt : xlsxPivotTableDefinition)
    (opts : PivotTableOption) (order : list string) (i : nat) (name : string) :
  getPivotFieldsOrder f opts = (order, None) ->
  order !! i = Some name ->
  let emitted :=
    PivotFields_PivotField (PivotFields (fst (addPivotFields f pt opts)))
      !! (length (PivotFields_PivotField (PivotFields pt)) + i)%nat in
  (forall k fld, firstAt (Rows opts) name k fld ->
     emitted
     = Some {| PivotField_Name := truncateName (Name fld);
               PivotField_Axis := "axisRow";
               PivotField_DataField := declaredb (Data_ opts) name;
               PivotField_Compact := Some (Compact fld);
               PivotField_Outline := Some (Outline fld);
               PivotField_DefaultSubtotal := Some (DefaultSubtotal fld);
               PivotField_Items :=
                 Some {| Items_Count := 1;
                         Items_Item := [itemOf (DefaultSubtotal fld) 0] |} |}) /\
  (forall k fld, ~ declared (Rows opts) name -> ~ declared (Filter opts) name ->
     firstAt (Columns opts) name k fld ->
     emitted
     = Some {| PivotField_Name := truncateName (Name fld);
               PivotField_Axis := "axisCol";
               PivotField_DataField := declaredb (Data_ opts) name;
               PivotField_Compact := Some (Compact fld);
               PivotField_Outline := Some (Outline fld);
               PivotField_DefaultSubtotal := Some (DefaultSubtotal fld);
               PivotField_Items :=
                 Some {| Items_Count := 1;
                         Items_Item := [itemOf (DefaultSubtotal fld) 0] |} |}).
Proof.
  intros Horder Hname. cbv zeta.
  rewrite (addPivotFields_lookup f pt opts order i name Horder Hname).
  unfold addPivotFields_field. rewrite !inPivotTableField_declaredb.
  split.
  - intros k fld Hfirst.
    destruct (getPivotTableFieldName_first name (Rows opts) k fld Hfirst)
      as (Hn & Ho & Hd).
    rewrite Hd, Ho, Hn. cbn [negb orb]. unfold itemOf.
    destruct (DefaultSubtotal fld); reflexivity.
  - intros k fld Hrows Hfilter Hfirst.
    destruct (getPivotTableFieldName_first name (Columns opts) k fld Hfirst)
      as (Hn & Ho & Hd).
    apply not_declared in Hrows, Hfilter.
    rewrite Hrows, Hfilter, Hd, Ho, Hn. cbn [negb orb]. unfold itemOf.
    destruct (getPivotTableFieldOptions name (Rows opts)).
    destruct (DefaultSubtotal fld); reflexivity.
Qed.

End Alignment.

Section AlignmentOnBook.

#[local] Existing Instance SheetHost.host.

Lemma cache_and_table_aligned_witness :
  let pc := pivotCacheDefinition SheetHost.book documented false "Sheet1" (1, 1, 5, 31) in
  let pt := pivotTableDefinition SheetHost.book 2 1 documented (7, 2, 13, 34) in
  PivotFields_Count (PivotFields pt) = CacheFields_Count (CacheFields pc).
Proof.
  refine (proj1 (proj2 (proj2 (cache_and_table_aligned SheetHost.book SheetHost.book
                                 documented false "Sheet1" (1, 1, 5, 31) 2 1
                                 (7, 2, 13, 34))) bookOrder _ _));
    vm_compute; reflexivity.
Defined.

Lemma row_and_column_field_items_witness :
  PivotFields_PivotField
    (PivotFields (fst (addPivotFields SheetHost.book emptyTable documented)))
    !! (length (PivotFields_PivotField (PivotFields emptyTable)) + 0)%nat
  = Some {| PivotField_Name := truncateName "";
            PivotField_Axis := "axisRow";
            PivotField_DataField := declaredb (Data_ documented) "Month";
            PivotField_Compact := Some false;
            PivotField_Outline := Some false;
            PivotField_DefaultSubtotal := Some true;
            PivotField_Items :=
              Some {| Items_Count := 1; Items_Item := [itemOf true 0] |} |}.
Proof.
  refine (proj1 (row_and_column_field_items SheetHost.book emptyTable documented
                   bookOrder 0 "Month" _ _) 0%nat
            {| Compact := false; Data := "Month"; Name := ""; Outline := false;
               Subtotal := ""; DefaultSubtotal := true |} _).
  - vm_compute. reflexivity.
  - reflexivity.
  - split; [reflexivity|]. split; [reflexivity|]. intros j fld' Hj. lia.
Defined.

End AlignmentOnBook.

(** ** A header row that cannot be read *)

Section HeaderFailure.

Context {host : Host}.

Lemma getPivotFieldsIndex_Err (f : File) (fields : list PivotTableField)
    (opts : PivotTableOption) (order : list string) (err : error) :
  getPivotFieldsOrder f opts = (order, Some err) ->
  getPivotFieldsIndex f fields opts = Err err.
Proof.
  intros Horder. unfold getPivotFieldsIndex. rewrite Horder. reflexivity.
Qed.

(** X13.  When the header row cannot be read, the table definition is
    built all the same: it has no pivot field, a count of 0, and no row, page
    or data section, and its column section is empty when Columns has entries.
    [addPivotTable] stores this definition and returns the error of the
    serialiser only; the error of the header row is dropped. *)
Theorem header_failure_gives_empty_table (f : File) (cacheID pivotTableID : Z)
    (opts : PivotTableOption) (coordinates : Z * Z * Z * Z) (order : list string)
    (err : error) :
  getPivotFieldsOrder f opts = (order, Some err) ->
  let pt := pivotTableDefinition f cacheID pivotTableID opts coordinates in
  pivotFieldsOf pt = [] /\
  PivotFields_Count (PivotFields pt) = 0 /\
  RowFields pt = None /\ PageFields pt = None /\ DataFields pt = None /\
  (Columns opts <> [] ->
   ColFields pt = Some {| ColFields_Count := 0; ColFields_Field := [] |}) /\
  (forall pivotTableXML sheet,
     adjustRange (PivotTableRange opts) = Ok (sheet, coordinates) ->
     addPivotTable f cacheID pivotTableID pivotTableXML opts
     = (saveFileList f pivotTableXML (fst (marshalPivotTable pt)),
        snd (marshalPivotTable pt))).
Proof.
  intros Horder. cbv zeta.
  destruct (pivotTableDefinition_parts f cacheID pivotTableID opts coordinates)
    as ((pt0 & Hp0 & Hfields & Hcount) & Hrow & Hpage & Hdata).
  destruct (pivotTableDefinition_ColFields f cacheID pivotTableID opts coordinates)
    as (pt2 & Hnone & Hcol).
  rewrite !(getPivotFieldsIndex_Err f _ opts order err Horder) in *.
  assert (Hempty : pivotFieldsOf
                     (pivotTableDefinition f cacheID pivotTableID opts coordinates) = []).
  { rewrite Hfields. unfold pivotFieldsOf, addPivotFields in *. rewrite Horder.
    exact Hp0. }
  split; [exact Hempty|]. split; [rewrite Hcount, Hempty; reflexivity|].
  split; [exact Hrow|]. split; [exact Hpage|]. split; [exact Hdata|]. split.
  - intros Hcolumns. rewrite Hcol. unfold addPivotColFields.
    destruct (length (Columns opts) =? 0)%nat eqn:E.
    { apply length_zero_nil in E. contradiction. }
    rewrite (getPivotFieldsIndex_Err f _ opts order err Horder). reflexivity.
  - intros pivotTableXML sheet Hplace. unfold addPivotTable. rewrite Hplace.
    destruct (marshalPivotTable
                (pivotTableDefinition f cacheID pivotTableID opts coordinates));
      reflexivity.
Qed.

End HeaderFailure.

Section HeaderFailureOnBook.

#[local] Existing Instance SheetHost.host.

Lemma header_failure_gives_empty_table_witness :
  let pt := pivotTableDefinition SheetHost.book 2 1 onMissingDataSheet (7, 2, 13, 34) in
  pivotFieldsOf pt = [] /\
  PivotFields_Count (PivotFields pt) = 0 /\
  RowFields pt = None /\ PageFields pt = None /\ DataFields pt = None /\
  (Columns onMissingDataSheet <> [] ->
   ColFields pt = Some {| ColFields_Count := 0; ColFields_Field := [] |}) /\
  (forall pivotTableXML sheet,
     adjustRange (PivotTableRange onMissingDataSheet) = Ok (sheet, (7, 2, 13, 34)) ->
     addPivotTable SheetHost.book 2 1 pivotTableXML onMissingDataSheet
     = (saveFileList SheetHost.book pivotTableXML (fst (marshalPivotTable pt)),
        snd (marshalPivotTable pt))).
Proof.
  apply (header_failure_gives_empty_table SheetHost.book 2 1 onMissingDataSheet
           (7, 2, 13, 34) [] (ErrSheetNotExist "Sheet2")).
  vm_compute. reflexivity.
Defined.

Example empty_table_stored :
  addPivotTable SheetHost.book 2 1 "xl/pivotTables/pivotTable1.xml" onMissingDataSheet
  = (SheetHost.saveFileList SheetHost.book "xl/pivotTables/pivotTable1.xml"
       "<pivotTableDefinition/>", None).
Proof. vm_compute. reflexivity. Qed.

End HeaderFailureOnBook.

(** ** The workbook registry *)

Section Registry.

(** X14.  When every cache ID of the workbook registry is below the largest
    [int], the ID that [addWorkbookPivotCache] allocates is at least 2 and
    greater than all of them, hence new, so a registry without duplicate IDs
    stays without.  The entry is appended under the relationship ID given,
    the earlier entries are kept, and nothing else of the document changes. *)
Theorem registry_id_fresh (f : File) (RID : Z) :
  (forall id, In id (registryIDs f) -> id < 2 ^ 63 - 1) ->
  let f' := fst (addWorkbookPivotCache f RID) in
  let cacheID := snd (addWorkbookPivotCache f RID) in
  2 <= cacheID /\
  (forall id, In id (registryIDs f) -> id < cacheID) /\
  ~ In cacheID (registryIDs f) /\
  (NoDup (registryIDs f) -> NoDup (registryIDs f')) /\
  PivotCaches (WorkBook f')
  = Some {| PivotCache :=
              from_option PivotCache [] (PivotCaches (WorkBook f))
              ++ [{| CacheID := cacheID; RID := "rId" +:+ strconv.Itoa RID |}] |} /\
  Pkg f' = Pkg f /\ Relationships f' = Relationships f /\
  ContentTypes f' = ContentTypes f /\ Sheets f' = Sheets f /\
  DefinedNames f' = DefinedNames f.
Proof.
  intros Hsmall. cbv zeta.
  assert (Hids : registryIDs (fst (addWorkbookPivotCache f RID))
                 = registryIDs f ++ [snd (addWorkbookPivotCache f RID)]).
  { unfold addWorkbookPivotCache, registryIDs.
    cbn [fst snd WorkBook set_WorkBook PivotCaches from_option PivotCache].
    rewrite map_app. cbn [map CacheID].
    destruct (PivotCaches (WorkBook f)); reflexivity. }
  assert (Hnew : 2 <= snd (addWorkbookPivotCache f RID) /\
                 forall id, In id (registryIDs f) ->
                   id < snd (addWorkbookPivotCache f RID)).
  { unfold addWorkbookPivotCache, registryIDs in *. cbn [snd].
    destruct (fold_cacheID
                (PivotCache (default {| PivotCache := [] |} (PivotCaches (WorkBook f)))) 1)
      as (Hle & Hall & Hr).
    cbv zeta in Hle, Hall, Hr.
    assert (Hsame : map CacheID
                      (PivotCache (default {| PivotCache := [] |}
                                     (PivotCaches (WorkBook f))))
                    = from_option (fun caches => map CacheID (PivotCache caches)) []
                        (PivotCaches (WorkBook f))).
    { destruct (PivotCaches (WorkBook f)); reflexivity. }
    rewrite Hsame in Hall, Hr.
    match goal with
    | |- 2 <= int64 (?r + 1) /\ _ =>
        assert (Hbound : 1 <= r < 2 ^ 63 - 1)
    end.
    { split; [exact Hle|]. destruct Hr as [-> | Hr]; [lia | apply Hsmall, Hr]. }
    rewrite int64_small by lia. split; [lia|].
    intros id Hid. specialize (Hall id Hid). lia. }
  destruct Hnew as [H2 Hlt].
  assert (Hfresh : ~ In (snd (addWorkbookPivotCache f RID)) (registryIDs f)).
  { intros Hin. specialize (Hlt _ Hin). lia. }
  split; [exact H2|]. split; [exact Hlt|]. split; [exact Hfresh|].
  split.
  - intros Hnodup. rewrite Hids. apply NoDup_app. split; [exact Hnodup|].
    split; [|apply NoDup_singleton].
    intros x Hx Hx'. apply list_elem_of_singleton in Hx' as ->.
    apply Hfresh, list_elem_of_In, Hx.
  - unfold addWorkbookPivotCache.
    cbn [fst snd WorkBook set_WorkBook PivotCaches Pkg Relationships ContentTypes
           Sheets DefinedNames].
    repeat split. destruct (PivotCaches (WorkBook f)); reflexivity.
Qed.

Lemma registry_id_fresh_witness :
  let f' := fst (addWorkbookPivotCache (bookWithRegistry [5; 0; 9]) 4) in
  let cacheID := snd (addWorkbookPivotCache (bookWithRegistry [5; 0; 9]) 4) in
  2 <= cacheID /\
  (forall id, In id (registryIDs (bookWithRegistry [5; 0; 9])) -> id < cacheID) /\
  ~ In cacheID (registryIDs (bookWithRegistry [5; 0; 9])) /\
  (NoDup (registryIDs (bookWithRegistry [5; 0; 9])) -> NoDup (registryIDs f')).
Proof.
  refine (let H := registry_id_fresh (bookWithRegistry [5; 0; 9]) 4 _ in
          conj (proj1 H) (conj (proj1 (proj2 H))
            (conj (proj1 (proj2 (proj2 H))) (proj1 (proj2 (proj2 (proj2 H))))))).
  change (registryIDs (bookWithRegistry [5; 0; 9])) with [5; 0; 9].
  intros id Hid. simpl in Hid. lia.
Defined.

End Registry.

(** ** The whole call *)

Section WholeCall.

Context {host : Host}.

Lemma parseFormatPivotTableSet_Ok_inv (f : File) (opts : option PivotTableOption)
    (o : PivotTableOption) (path : string) :
  parseFormatPivotTableSet f opts = Ok (o, path) ->
  exists opts0 sheet,
    opts = Some opts0 /\ o = set_pivotTableSheetName sheet opts0 /\
    validated f opts0 sheet path.
Proof.
  unfold parseFormatPivotTableSet, validated, resolveDataRange.
  destruct opts as [opts0|]; [|discriminate].
  destruct (adjustRange (PivotTableRange opts0)) as [[sheet box]|e] eqn:Hplace;
    [|discriminate].
  cbn [DataRange set_pivotTableSheetName pivotTableSheetName].
  destruct (adjustRange
              (if String.eqb (getDefinedNameRefTo f (DataRange opts0) sheet) ""
               then DataRange opts0 else getDefinedNameRefTo f (DataRange opts0) sheet))
    as [[dataSheet dataBox]|e] eqn:Hdata; [|discriminate].
  destruct (workSheetReader f dataSheet) as [e|] eqn:Hsheet; [discriminate|].
  destruct (getSheetXMLPath f sheet) as [path' ok] eqn:Hpath.
  destruct ok; [|discriminate]. cbn [negb]. intros [= <- <-].
  exists opts0, sheet. split; [reflexivity|]. split; [reflexivity|].
  exists box, dataSheet, dataBox. repeat split; assumption.
Qed.

Lemma parseFormatPivotTableSet_Ok_intro (f : File) (opts0 : PivotTableOption)
    (sheet path : string) :
  validated f opts0 sheet path ->
  parseFormatPivotTableSet f (Some opts0)
  = Ok (set_pivotTableSheetName sheet opts0, path).
Proof.
  intros (box & dataSheet & dataBox & Hplace & Hdata & Hsheet & Hpath).
  unfold parseFormatPivotTableSet, resolveDataRange in *. rewrite Hplace.
  cbn in Hdata |- *. rewrite Hdata, Hsheet, Hpath. reflexivity.
Qed.

(** The validation stage passes exactly when the options are given,
    both ranges normalise (the data range after defined-name resolution
    against the placement sheet), the data sheet can be read and the placement
    sheet has a path.  It then returns that path and the options unchanged
    but for [pivotTableSheetName], which is the sheet of the placement
    range. *)
Theorem validation_success (f : File) (opts : option PivotTableOption)
    (o : PivotTableOption) (path : string) :
  parseFormatPivotTableSet f opts = Ok (o, path)
  <-> exists opts0 sheet,
        opts = Some opts0 /\ o = set_pivotTableSheetName sheet opts0 /\
        validated f opts0 sheet path.
Proof.
  split.
  - apply parseFormatPivotTableSet_Ok_inv.
  - intros (opts0 & sheet & -> & -> & Hvalid).
    apply parseFormatPivotTableSet_Ok_intro, Hvalid.
Qed.

Lemma addPivotCache_resolved (f : File) (pivotCacheXML : string)
    (opts : PivotTableOption) :
  addPivotCache f pivotCacheXML opts
  = match adjustRange (resolveDataRange f opts) with
    | Err err => (f, Some (ErrRangeParsing "DataRange" err))
    | Ok (dataSheet, coordinates) =>
        let pc := pivotCacheDefinition f opts (isDefinedName f opts) dataSheet
                    coordinates in
        (saveFileList f pivotCacheXML (fst (marshalPivotCache pc)),
         snd (marshalPivotCache pc))
    end.
Proof.
  unfold addPivotCache, resolveDataRange, isDefinedName.
  destruct (String.eqb (getDefinedNameRefTo f (DataRange opts) (pivotTableSheetName opts))
              "");
    cbn [negb];
    match goal with
    | |- context [adjustRange ?r] => destruct (adjustRange r) as [[s c]|e]
    end; try reflexivity;
    cbv zeta;
    match goal with
    | |- context [marshalPivotCache ?pc] => destruct (marshalPivotCache pc)
    end; reflexivity.
Qed.

Lemma validated_ranges (f : File) (opts0 : PivotTableOption) (sheet path : string) :
  validated f opts0 sheet path ->
  let o := set_pivotTableSheetName sheet opts0 in
  (exists dataSheet dataBox,
     adjustRange (resolveDataRange f o) = Ok (dataSheet, dataBox)) /\
  (exists box, adjustRange (PivotTableRange o) = Ok (sheet, box)).
Proof.
  intros (box & dataSheet & dataBox & Hplace & Hdata & _ & _). cbv zeta. split.
  - exists dataSheet, dataBox. exact Hdata.
  - exists box. exact Hplace.
Qed.

(** X15.  With serialisers that do not fail, [AddPivotTable] returns an
    error exactly when the validation stage does: the second normalisation of
    the data range in [addPivotCache] and of the placement range in
    [addPivotTable] cannot fail once validation has passed, and the errors of
    the header row and of the builders are not returned. *)
Theorem AddPivotTable_fails_only_in_validation (f : File)
    (opts : option PivotTableOption) :
  (forall pc, snd (marshalPivotCache pc) = None) ->
  (forall pt, snd (marshalPivotTable pt) = None) ->
  (snd (AddPivotTable f opts) = None
   <-> exists o path, parseFormatPivotTableSet f opts = Ok (o, path)).
Proof.
  intros Hcache Htable. unfold AddPivotTable.
  destruct (parseFormatPivotTableSet f opts) as [[o path]|err] eqn:Hvalidation.
  - split; [intros _; eauto|]. intros _.
    destruct (parseFormatPivotTableSet_Ok_inv f opts o path Hvalidation)
      as (opts0 & sheet & -> & -> & Hvalid).
    destruct (validated_ranges f opts0 sheet path Hvalid)
      as ((dataSheet & dataBox & Hdata) & (box & Hplace)).
    cbv zeta in Hdata, Hplace.
    rewrite addPivotCache_resolved, Hdata. cbv zeta. rewrite Hcache.
    destruct (addRels _ _ _ _ _) as [f1 workBookPivotCacheRID].
    destruct (addWorkbookPivotCache f1 workBookPivotCacheRID) as [f2 cacheID].
    destruct (addRels _ _ _ _ _) as [f3 rID].
    unfold addPivotTable. rewrite Hplace.
    match goal with
    | |- context [marshalPivotTable ?pt] =>
        pose proof (Htable pt) as Hpt; destruct (marshalPivotTable pt) as [bytes e]
    end.
    cbn [snd] in Hpt. subst e.
    destruct (addRels _ _ _ _ _) as [f4 rID'].
    reflexivity.
  - cbn [snd]. split; [discriminate|]. intros (o & path & [=]).
Qed.

(** Once the validation stage has passed, a call with serialisers that do
    not fail returns no error. *)
Lemma AddPivotTable_validated (f : File) (opts : option PivotTableOption)
    (o : PivotTableOption) (path : string) :
  (forall pc, snd (marshalPivotCache pc) = None) ->
  (forall pt, snd (marshalPivotTable pt) = None) ->
  parseFormatPivotTableSet f opts = Ok (o, path) ->
  snd (AddPivotTable f opts) = None.
Proof.
  intros Hcache Htable Hvalidation.
  destruct (parseFormatPivotTableSet_Ok_inv f opts o path Hvalidation)
    as (opts0 & sheet & -> & -> & Hvalid).
  destruct (validated_ranges f opts0 sheet path Hvalid)
    as ((dataSheet & dataBox & Hdata) & (box & Hplace)).
  cbv zeta in Hdata, Hplace.
  unfold AddPivotTable. rewrite Hvalidation. cbv zeta.
  rewrite addPivotCache_resolved, Hdata. cbv zeta. rewrite Hcache.
  destruct (addRels _ _ _ _ _) as [f1 workBookPivotCacheRID].
  destruct (addWorkbookPivotCache f1 workBookPivotCacheRID) as [f2 cacheID].
  destruct (addRels _ _ _ _ _) as [f3 rID].
  unfold addPivotTable. rewrite Hplace.
  match goal with
  | |- context [marshalPivotTable ?pt] =>
      pose proof (Htable pt) as Hpt; destruct (marshalPivotTable pt) as [bytes e]
  end.
  cbn [snd] in Hpt. subst e.
  destruct (addRels _ _ _ _ _) as [f4 rID'].
  reflexivity.
Qed.

(** X16.  With serialisers that do not fail, a call of [AddPivotTable] that
    returns an error has changed nothing: the error is the one of the
    validation stage, and the document returned is the document given, with
    no cache part, relationship, registry entry or table part written.  The
    writes that come before a later failure in the source are reached only
    through a failure of a serialiser. *)
Theorem failed_call_leaves_document (f : File) (opts : option PivotTableOption)
    (err : error) :
  (forall pc, snd (marshalPivotCache pc) = None) ->
  (forall pt, snd (marshalPivotTable pt) = None) ->
  snd (AddPivotTable f opts) = Some err ->
  parseFormatPivotTableSet f opts = Err err /\ AddPivotTable f opts = (f, Some err).
Proof.
  intros Hcache Htable Herr.
  destruct (parseFormatPivotTableSet f opts) as [[o path]|err'] eqn:Hvalidation.
  - rewrite (AddPivotTable_validated f opts o path Hcache Htable Hvalidation) in Herr.
    discriminate Herr.
  - unfold AddPivotTable in *. rewrite Hvalidation in *. cbn [snd] in Herr.
    injection Herr as ->. split; reflexivity.
Qed.

End WholeCall.

Section WholeCallOnBook.

Lemma AddPivotTable_fails_only_in_validation_witness :
  snd (@AddPivotTable SheetHost.host SheetHost.book (Some documented)) = None
  <-> exists o path,
        @parseFormatPivotTableSet SheetHost.host SheetHost.book (Some documented)
        = Ok (o, path).
Proof.
  apply (@AddPivotTable_fails_only_in_validation SheetHost.host SheetHost.book
           (Some documented)); intros; reflexivity.
Defined.

Lemma failed_call_leaves_document_witness :
  @parseFormatPivotTableSet SheetHost.host SheetHost.book (Some onMissingDataSheet)
  = Err (ErrSheetNotExist "Sheet2") /\
  @AddPivotTable SheetHost.host SheetHost.book (Some onMissingDataSheet)
  = (SheetHost.book, Some (ErrSheetNotExist "Sheet2")).
Proof.
  apply (@failed_call_leaves_document SheetHost.host SheetHost.book
           (Some onMissingDataSheet) (ErrSheetNotExist "Sheet2")).
  - intros pc. reflexivity.
  - intros pt. reflexivity.
  - vm_compute. reflexivity.
Defined.

End WholeCallOnBook.
